(** * Launch platform contracts: LaunchToken, BondingCurve and TokenFactory

    A shallow embedding of [contracts/LaunchToken.sol] (which holds both the
    [LaunchToken] ledger and the [BondingCurve] engine) and of
    [contracts/TokenFactory.sol], and the properties of the pricing / fee /
    graduation state machine and of the registry.

    Conventions.
    - [uint256] is [N]; checked Solidity 0.8 arithmetic is written out
      ([add], [sub], [mul], [div] revert with [Panic]), unchecked blocks wrap
      modulo [2^256].
    - [address] is [N]; [address(0)] is [0].
    - A contract function is a function from the pre-state to
      [result post-state]; a [Revert] carries no state because the EVM
      discards every effect of a reverted call.
    - Calls that leave the repository (native-currency transfers, the
      liquidity router) take their outcome from the call environment [env]. *)

From stdpp Require Import gmap strings.
From Stdlib Require Import NArith Lia.

Open Scope N_scope.

(** ** Failures and the error monad *)

Definition address := N.
Definition uint256 := N.

Definition MAX_UINT256 : N := 2 ^ 256 - 1.

Inductive failure : Type :=
| Error (reason : string)
| Panic (code : N)
| ERC20InsufficientBalance (sender : address) (balance needed : uint256)
| ERC20InsufficientAllowance (spender : address) (allowance needed : uint256)
| ERC20InvalidSender (a : address)
| ERC20InvalidReceiver (a : address)
| ERC20InvalidApprover (a : address)
| ERC20InvalidSpender (a : address)
| NativeTransferFailed (recipient : address) (amount : uint256).

Arguments Error reason%_string.

Inductive result (A : Type) : Type :=
| Ok (a : A)
| Revert (f : failure).

Arguments Ok {A} a.
Arguments Revert {A} f.

#[global] Instance result_ret : MRet result := fun A a => Ok a.

#[global] Instance result_bind : MBind result := fun A B k r =>
  match r with
  | Ok a => k a
  | Revert f => Revert f
  end.

Definition require (cond : bool) (reason : string) : result unit :=
  if cond then Ok tt else Revert (Error reason).

Arguments require cond reason%_string.

(** Checked arithmetic of Solidity 0.8 on [uint256]. *)
Definition add (a b : uint256) : result uint256 :=
  if a + b <=? MAX_UINT256 then Ok (a + b) else Revert (Panic 17).

Definition sub (a b : uint256) : result uint256 :=
  if b <=? a then Ok (a - b) else Revert (Panic 17).

Definition mul (a b : uint256) : result uint256 :=
  if a * b <=? MAX_UINT256 then Ok (a * b) else Revert (Panic 17).

Definition div (a b : uint256) : result uint256 :=
  if b =? 0 then Revert (Panic 18) else Ok (a / b).

(** Arithmetic inside an [unchecked] block. *)
Definition wrap_add (a b : uint256) : uint256 := (a + b) mod 2 ^ 256.
Definition wrap_sub (a b : uint256) : uint256 := (a + 2 ^ 256 - b) mod 2 ^ 256.

Definition ether : N := 10 ^ 18.
Definition minutes : N := 60.

(** ** The ledger: [contract LaunchToken is ERC20, ERC20Burnable] *)

Module LaunchToken.

(** Storage of the token.  The display metadata ([name], [symbol],
    [description], [imageUrl], [website], [twitter]) takes no part in any
    operation and is left out. *)
Record state : Type := {
  minter : address;
  tradingEnabled : bool;
  creator : address;
  launchTime : uint256;
  _totalSupply : uint256;
  _balances : gmap address uint256;
  _allowances : gmap (address * address) uint256
}.

Definition set_minter (m : address) (t : state) : state :=
  {| minter := m; tradingEnabled := tradingEnabled t; creator := creator t;
     launchTime := launchTime t; _totalSupply := _totalSupply t;
     _balances := _balances t; _allowances := _allowances t |}.

Definition set_tradingEnabled (b : bool) (t : state) : state :=
  {| minter := minter t; tradingEnabled := b; creator := creator t;
     launchTime := launchTime t; _totalSupply := _totalSupply t;
     _balances := _balances t; _allowances := _allowances t |}.

Definition set_totalSupply (v : uint256) (t : state) : state :=
  {| minter := minter t; tradingEnabled := tradingEnabled t;
     creator := creator t; launchTime := launchTime t; _totalSupply := v;
     _balances := _balances t; _allowances := _allowances t |}.

Definition set_balance (a : address) (v : uint256) (t : state) : state :=
  {| minter := minter t; tradingEnabled := tradingEnabled t;
     creator := creator t; launchTime := launchTime t;
     _totalSupply := _totalSupply t;
     _balances := <[a := v]> (_balances t); _allowances := _allowances t |}.

Definition set_allowance (o s : address) (v : uint256) (t : state) : state :=
  {| minter := minter t; tradingEnabled := tradingEnabled t;
     creator := creator t; launchTime := launchTime t;
     _totalSupply := _totalSupply t; _balances := _balances t;
     _allowances := <[(o, s) := v]> (_allowances t) |}.

Definition totalSupply (t : state) : uint256 := _totalSupply t.

Definition balanceOf (t : state) (a : address) : uint256 :=
  default 0 (_balances t !! a).

Definition allowance (t : state) (o s : address) : uint256 :=
  default 0 (_allowances t !! (o, s)).

(** [constructor(name, symbol, _description, _imageUrl, _creator, _website,
    _twitter)]: the minter is left unset. *)
Definition constructor (_creator : address) (now : uint256) : state :=
  {| minter := 0; tradingEnabled := false; creator := _creator;
     launchTime := now; _totalSupply := 0; _balances := ∅;
     _allowances := ∅ |}.

(** Modelled from the spec: the inherited [ERC20._update] of the
    OpenZeppelin base contract, which is imported and not part of the
    repository ("standard fungible-asset accounting": a mint increases
    [totalSupply] and [balances[to]], a burn decreases supply and balance
    and fails if the balance is insufficient).  The supply increase is
    checked, the other two updates sit in [unchecked] blocks. *)
Definition ERC20_update (from to : address) (value : uint256) (t : state)
  : result state :=
  t1 ← (if from =? 0 then
           ts ← add (_totalSupply t) value;
           Ok (set_totalSupply ts t)
         else
           let fromBalance := balanceOf t from in
           if fromBalance <? value then
             Revert (ERC20InsufficientBalance from fromBalance value)
           else Ok (set_balance from (fromBalance - value) t));
  if to =? 0 then
    Ok (set_totalSupply (wrap_sub (_totalSupply t1) value) t1)
  else
    Ok (set_balance to (wrap_add (balanceOf t1 to) value) t1).

(** [function _update(address from, address to, uint256 amount) internal
    virtual override]: the transfer gate. *)
Definition _update (from to : address) (amount : uint256) (t : state)
  : result state :=
  if (from =? 0) || (to =? 0) then
    ERC20_update from to amount t
  else if (from =? minter t) || (to =? minter t) then
    ERC20_update from to amount t
  else
    require (tradingEnabled t) "Trading not enabled" ;;
    ERC20_update from to amount t.

(** The inherited entry points, each of which funnels into [_update]. *)
Definition _mint (account : address) (value : uint256) (t : state)
  : result state :=
  if account =? 0 then Revert (ERC20InvalidReceiver 0)
  else _update 0 account value t.

Definition _burn (account : address) (value : uint256) (t : state)
  : result state :=
  if account =? 0 then Revert (ERC20InvalidSender 0)
  else _update account 0 value t.

Definition _transfer (from to : address) (value : uint256) (t : state)
  : result state :=
  if from =? 0 then Revert (ERC20InvalidSender 0)
  else if to =? 0 then Revert (ERC20InvalidReceiver 0)
  else _update from to value t.

Definition _approve (owner spender : address) (value : uint256) (t : state)
  : result state :=
  if owner =? 0 then Revert (ERC20InvalidApprover 0)
  else if spender =? 0 then Revert (ERC20InvalidSpender 0)
  else Ok (set_allowance owner spender value t).

Definition _spendAllowance (owner spender : address) (value : uint256)
  (t : state) : result state :=
  let currentAllowance := allowance t owner spender in
  if currentAllowance <? MAX_UINT256 then
    if currentAllowance <? value then
      Revert (ERC20InsufficientAllowance spender currentAllowance value)
    else _approve owner spender (currentAllowance - value) t
  else Ok t.

Definition transfer (sender to : address) (value : uint256) (t : state)
  : result state :=
  _transfer sender to value t.

Definition approve (sender spender : address) (value : uint256) (t : state)
  : result state :=
  _approve sender spender value t.

Definition transferFrom (sender from to : address) (value : uint256)
  (t : state) : result state :=
  t1 ← _spendAllowance from sender value t;
  _transfer from to value t1.

Definition burn (sender : address) (value : uint256) (t : state)
  : result state :=
  _burn sender value t.

Definition burnFrom (sender account : address) (value : uint256) (t : state)
  : result state :=
  t1 ← _spendAllowance account sender value t;
  _burn account value t1.

(** [modifier onlyMinter] *)
Definition onlyMinter (sender : address) (t : state) : result unit :=
  require (sender =? minter t) "Not minter".

(** [function setMinter(address _minter) external]: [sender] is
    [msg.sender], which the body never reads. *)
Definition setMinter (sender _minter : address) (t : state) : result state :=
  require (minter t =? 0) "Minter already set" ;;
  Ok (set_minter _minter t).

(** [function enableTrading() external onlyMinter] *)
Definition enableTrading (sender : address) (t : state) : result state :=
  onlyMinter sender t ;;
  Ok (set_tradingEnabled true t).

(** [function mint(address to, uint256 amount) external onlyMinter] *)
Definition mint (sender to : address) (amount : uint256) (t : state)
  : result state :=
  onlyMinter sender t ;;
  _mint to amount t.

End LaunchToken.

(** ** The curve engine: [contract BondingCurve is ReentrancyGuard] *)

Module BondingCurve.

(** The immutables fixed by the constructor, with the contract's own
    address [this] ([address(this)]).  The immutable [token] is the ledger
    held in [world] below. *)
Record config : Type := {
  this : address;
  factory : address;
  treasury : address;
  platformFeePercent : uint256;
  launchTime : uint256
}.

(** Mutable storage. *)
Record storage : Type := {
  tokensSold : uint256;
  FAIRRaised : uint256;
  graduated : bool;
  traderJoeRouter : address
}.

Inductive event : Type :=
| TokensPurchased (buyer : address) (FAIRIn tokensOut newPrice : uint256)
| TokensSold (seller : address) (tokensIn FAIROut fee : uint256)
| Graduated (liquidityTokens liquidityFAIR teamFAIR lpTokensBurned : uint256)
| PriceUpdate (sold currentPrice marketCap : uint256).

(** What one curve can see and change: its own storage, the ledger it
    mints and burns, the native-currency (FAIR) balances and the event log
    (newest event first). *)
Record world : Type := {
  curve : storage;
  token : LaunchToken.state;
  native : gmap address uint256;
  log : list event
}.

(** Outcome of the router's [addLiquidityFAIR].  The router is an external
    contract: when it returns, the ledger and the native balances are what
    its code left behind; when it reverts, nothing it did persists. *)
Inductive venue_outcome : Type :=
| VenueReverts
| VenueReturns (amountToken amountFAIR liquidity : uint256)
    (token_after : LaunchToken.state) (native_after : gmap address uint256).

(** The call environment.  [msg_value] is read by payable functions only;
    [accepts a] tells whether a [transfer] of native currency to [a] goes
    through (an account, or a contract whose receive hook fits the 2300 gas
    stipend).  Only top-level calls are modelled, so the [nonReentrant]
    lock is free at every entry. *)
Record env : Type := {
  msg_sender : address;
  msg_value : uint256;
  block_timestamp : uint256;
  accepts : address -> bool;
  addLiquidityFAIR : venue_outcome
}.

(** *** Constants *)

Definition GRADUATION_THRESHOLD : uint256 := Eval vm_compute in 8050 * ether.
Definition GRADUATION_SUPPLY : uint256 :=
  Eval vm_compute in 700000000 * 10 ^ 18.
Definition TOTAL_SUPPLY : uint256 := Eval vm_compute in 1000000000 * 10 ^ 18.
Definition LIQUIDITY_TOKENS : uint256 :=
  Eval vm_compute in 300000000 * 10 ^ 18.
Definition LIQUIDITY_FAIR : uint256 := Eval vm_compute in 5833 * ether.

Definition VIRTUAL_FAIR_RESERVES : uint256 := Eval vm_compute in 570 * ether.
Definition VIRTUAL_TOKEN_RESERVES : uint256 :=
  Eval vm_compute in 750000000 * 10 ^ 18.

Definition ANTI_DUMP_DURATION : uint256 := Eval vm_compute in 15 * minutes.
Definition INITIAL_SELL_FEE : uint256 := 2000.
Definition FINAL_SELL_FEE : uint256 := 100.

Definition DEAD : address := 57005.

(** *** State updates *)

Definition set_tokensSold (v : uint256) (c : storage) : storage :=
  {| tokensSold := v; FAIRRaised := FAIRRaised c; graduated := graduated c;
     traderJoeRouter := traderJoeRouter c |}.

Definition set_FAIRRaised (v : uint256) (c : storage) : storage :=
  {| tokensSold := tokensSold c; FAIRRaised := v; graduated := graduated c;
     traderJoeRouter := traderJoeRouter c |}.

Definition set_graduated (b : bool) (c : storage) : storage :=
  {| tokensSold := tokensSold c; FAIRRaised := FAIRRaised c; graduated := b;
     traderJoeRouter := traderJoeRouter c |}.

Definition set_traderJoeRouter (r : address) (c : storage) : storage :=
  {| tokensSold := tokensSold c; FAIRRaised := FAIRRaised c;
     graduated := graduated c; traderJoeRouter := r |}.

Definition with_curve (f : storage -> storage) (w : world) : world :=
  {| curve := f (curve w); token := token w; native := native w;
     log := log w |}.

Definition with_token (t : LaunchToken.state) (w : world) : world :=
  {| curve := curve w; token := t; native := native w; log := log w |}.

Definition with_native (n : gmap address uint256) (w : world) : world :=
  {| curve := curve w; token := token w; native := n; log := log w |}.

Definition emit (ev : event) (w : world) : world :=
  {| curve := curve w; token := token w; native := native w;
     log := ev :: log w |}.

(** *** Native currency *)

Definition balance (w : world) (a : address) : uint256 :=
  default 0 (native w !! a).

(** [payable(to).transfer(amount)] issued by [from]. *)
Definition transfer_native (e : env) (from to : address) (amount : uint256)
  (w : world) : result world :=
  if balance w from <? amount then Revert (NativeTransferFailed to amount)
  else if negb (accepts e to) then Revert (NativeTransferFailed to amount)
  else
    let n1 := <[from := balance w from - amount]> (native w) in
    let n2 := <[to := default 0 (n1 !! to) + amount]> n1 in
    Ok (with_native n2 w).

(** Entering a [payable] function moves [msg.value] from the caller to the
    contract before the body runs. *)
Definition receive_value (cfg : config) (e : env) (w : world)
  : result world :=
  if balance w (msg_sender e) <? msg_value e then
    Revert (NativeTransferFailed (this cfg) (msg_value e))
  else
    let n1 := <[msg_sender e := balance w (msg_sender e) - msg_value e]>
                (native w) in
    let n2 := <[this cfg := default 0 (n1 !! this cfg) + msg_value e]> n1 in
    Ok (with_native n2 w).

(** *** Modifiers *)

Definition notGraduated (w : world) : result unit :=
  require (negb (graduated (curve w))) "Token graduated".

Definition onlyFactory (cfg : config) (e : env) : result unit :=
  require (msg_sender e =? factory cfg) "Only factory".

(** *** Constructor *)

Definition constructor (chainId : N) : storage :=
  {| tokensSold := 0; FAIRRaised := 0; graduated := false;
     traderJoeRouter :=
       if chainId =? 43113 then
         0xE54Ca86531e17Ef3616d22Ca28b0D458b6C89106
       else if chainId =? 43114 then
         0x60aE616a2155Ee3d9A68541Ba4544862310933d4
       else
         0x60aE616a2155Ee3d9A68541Ba4544862310933d4 |}.

(** *** Bonding curve mathematics *)

Definition _calculateTokensOut (c : storage) (FAIRAmount : uint256)
  : result uint256 :=
  currentFAIRReserve ← add VIRTUAL_FAIR_RESERVES (FAIRRaised c);
  currentTokenReserve ← sub VIRTUAL_TOKEN_RESERVES (tokensSold c);
  newFAIRReserve ← add currentFAIRReserve FAIRAmount;
  k ← mul currentFAIRReserve currentTokenReserve;
  newTokenReserve ← div k newFAIRReserve;
  tokensOut ← sub currentTokenReserve newTokenReserve;
  maxTokens ← sub GRADUATION_SUPPLY (tokensSold c);
  Ok (if maxTokens <? tokensOut then maxTokens else tokensOut).

Definition _calculateFAIROut (c : storage) (tokenAmount : uint256)
  : result uint256 :=
  currentFAIRReserve ← add VIRTUAL_FAIR_RESERVES (FAIRRaised c);
  currentTokenReserve ← sub VIRTUAL_TOKEN_RESERVES (tokensSold c);
  newTokenReserve ← add currentTokenReserve tokenAmount;
  k ← mul currentFAIRReserve currentTokenReserve;
  newFAIRReserve ← div k newTokenReserve;
  sub currentFAIRReserve newFAIRReserve.

(** *** Anti-dump fee *)

Definition getCurrentSellFee (cfg : config) (now : uint256)
  : result uint256 :=
  pinned ← add (launchTime cfg) ANTI_DUMP_DURATION;
  if pinned <=? now then Ok FINAL_SELL_FEE
  else
    elapsed ← sub now (launchTime cfg);
    span ← sub INITIAL_SELL_FEE FINAL_SELL_FEE;
    scaled ← mul span elapsed;
    feeReduction ← div scaled ANTI_DUMP_DURATION;
    sub INITIAL_SELL_FEE feeReduction.

(** *** Prices *)

Definition getCurrentPrice (c : storage) : result uint256 :=
  currentFAIRReserve ← add VIRTUAL_FAIR_RESERVES (FAIRRaised c);
  currentTokenReserve ← sub VIRTUAL_TOKEN_RESERVES (tokensSold c);
  scaled ← mul currentFAIRReserve (10 ^ 18);
  div scaled currentTokenReserve.

Definition getMarketCap (c : storage) : result uint256 :=
  if tokensSold c =? 0 then Ok 0
  else
    price ← getCurrentPrice c;
    scaled ← mul price (tokensSold c);
    div scaled (10 ^ 18).

(** *** Graduation *)

(** [function _executeGraduation() internal].  The arguments of the router
    call are evaluated by the caller, so a failure there reverts the whole
    transaction; the [try] catches only a failure of the call itself, which
    includes the contract not holding the [liquidityFAIR] it attaches. *)
Definition _executeGraduation (cfg : config) (e : env) (w : world)
  : result world :=
  require (negb (graduated (curve w))) "Already graduated" ;;
  require (GRADUATION_THRESHOLD <=? FAIRRaised (curve w))
    "Threshold not met" ;;
  let w := with_curve (set_graduated true) w in
  t1 ← LaunchToken.enableTrading (this cfg) (token w);
  let w := with_token t1 w in
  let liquidityTokens := LIQUIDITY_TOKENS in
  let liquidityFAIR := LIQUIDITY_FAIR in
  teamFAIR ← sub (FAIRRaised (curve w)) liquidityFAIR;
  t2 ← LaunchToken.mint (this cfg) (this cfg) liquidityTokens (token w);
  let w := with_token t2 w in
  t3 ← LaunchToken.approve (this cfg) (traderJoeRouter (curve w))
         liquidityTokens (token w);
  let w := with_token t3 w in
  scaledTokens ← mul liquidityTokens 95;
  amountTokenMin ← div scaledTokens 100;
  scaledFAIR ← mul liquidityFAIR 95;
  amountFAIRMin ← div scaledFAIR 100;
  deadline ← add (block_timestamp e) 300;
  match
    (if balance w (this cfg) <? liquidityFAIR then VenueReverts
     else addLiquidityFAIR e)
  with
  | VenueReturns _ _ lpTokens token_after native_after =>
      let w := with_native native_after (with_token token_after w) in
      w ← (if 0 <? teamFAIR then
             transfer_native e (this cfg) (treasury cfg) teamFAIR w
           else Ok w);
      let w := with_curve (set_FAIRRaised 0) w in
      Ok (emit (Graduated liquidityTokens liquidityFAIR teamFAIR lpTokens) w)
  | VenueReverts =>
      Ok (with_curve (set_graduated false) w)
  end.

(** *** Trading *)

(** [function _buyTokensFor(address recipient, uint256 minTokensOut)
    internal] *)
Definition _buyTokensFor (cfg : config) (e : env) (recipient : address)
  (minTokensOut : uint256) (w : world) : result world :=
  require (0 <? msg_value e) "Must send FAIR" ;;
  require (tokensSold (curve w) <? GRADUATION_SUPPLY) "Curve complete" ;;
  scaled ← mul (msg_value e) (platformFeePercent cfg);
  platformFee ← div scaled 10000;
  buyAmount ← sub (msg_value e) platformFee;
  require (0 <? buyAmount) "Insufficient after fees" ;;
  tokensOut ← _calculateTokensOut (curve w) buyAmount;
  require (0 <? tokensOut) "No tokens calculated" ;;
  require (minTokensOut <=? tokensOut) "Slippage exceeded" ;;
  total ← add (tokensSold (curve w)) tokensOut;
  require (total <=? GRADUATION_SUPPLY) "Exceeds graduation supply" ;;
  sold ← add (tokensSold (curve w)) tokensOut;
  let w := with_curve (set_tokensSold sold) w in
  raised ← add (FAIRRaised (curve w)) buyAmount;
  let w := with_curve (set_FAIRRaised raised) w in
  t1 ← LaunchToken.mint (this cfg) recipient tokensOut (token w);
  let w := with_token t1 w in
  w ← (if 0 <? platformFee then
         transfer_native e (this cfg) (treasury cfg) platformFee w
       else Ok w);
  newPrice ← getCurrentPrice (curve w);
  let w := emit (TokensPurchased recipient buyAmount tokensOut newPrice) w in
  marketCap ← getMarketCap (curve w);
  let w := emit (PriceUpdate (tokensSold (curve w)) newPrice marketCap) w in
  if GRADUATION_THRESHOLD <=? FAIRRaised (curve w) then
    _executeGraduation cfg e w
  else Ok w.

(** [function buyTokens(uint256 minTokensOut) external payable notGraduated
    nonReentrant] *)
Definition buyTokens (cfg : config) (e : env) (minTokensOut : uint256)
  (w : world) : result world :=
  w ← receive_value cfg e w;
  notGraduated w ;;
  _buyTokensFor cfg e (msg_sender e) minTokensOut w.

(** [function buyTokensFor(address recipient, uint256 minTokensOut) external
    payable notGraduated nonReentrant] *)
Definition buyTokensFor (cfg : config) (e : env) (recipient : address)
  (minTokensOut : uint256) (w : world) : result world :=
  w ← receive_value cfg e w;
  notGraduated w ;;
  require (msg_sender e =? factory cfg) "Only factory" ;;
  _buyTokensFor cfg e recipient minTokensOut w.

(** [function sellTokens(uint256 tokenAmount, uint256 minFAIROut) external
    notGraduated nonReentrant] *)
Definition sellTokens (cfg : config) (e : env)
  (tokenAmount minFAIROut : uint256) (w : world) : result world :=
  notGraduated w ;;
  require (0 <? tokenAmount) "Invalid amount" ;;
  require (tokenAmount <=? tokensSold (curve w))
    "Insufficient supply sold" ;;
  require (tokenAmount <=? LaunchToken.balanceOf (token w) (msg_sender e))
    "Insufficient balance" ;;
  FAIROut ← _calculateFAIROut (curve w) tokenAmount;
  require (0 <? FAIROut) "No FAIR calculated" ;;
  require (FAIROut <=? FAIRRaised (curve w)) "Insufficient reserves" ;;
  sellFee ← getCurrentSellFee cfg (block_timestamp e);
  scaled ← mul FAIROut sellFee;
  feeAmount ← div scaled 10000;
  netFAIROut ← sub FAIROut feeAmount;
  require (minFAIROut <=? netFAIROut) "Slippage exceeded" ;;
  sold ← sub (tokensSold (curve w)) tokenAmount;
  let w := with_curve (set_tokensSold sold) w in
  raised ← sub (FAIRRaised (curve w)) FAIROut;
  let w := with_curve (set_FAIRRaised raised) w in
  t1 ← LaunchToken.burnFrom (this cfg) (msg_sender e) tokenAmount (token w);
  let w := with_token t1 w in
  w ← transfer_native e (this cfg) (msg_sender e) netFAIROut w;
  w ← (if 0 <? feeAmount then
         transfer_native e (this cfg) (treasury cfg) feeAmount w
       else Ok w);
  let w := emit (TokensSold (msg_sender e) tokenAmount netFAIROut feeAmount)
             w in
  price ← getCurrentPrice (curve w);
  marketCap ← getMarketCap (curve w);
  Ok (emit (PriceUpdate (tokensSold (curve w)) price marketCap) w).

(** *** Previews and views *)

(** [function previewBuy(uint256 FAIRAmount) external view returns
    (tokensOut, newPrice, priceImpact, platformFee)] *)
Definition previewBuy (cfg : config) (c : storage) (FAIRAmount : uint256)
  : result (uint256 * uint256 * uint256 * uint256) :=
  if (FAIRAmount =? 0) || graduated c then Ok (0, 0, 0, 0)
  else
    scaled ← mul FAIRAmount (platformFeePercent cfg);
    platformFee ← div scaled 10000;
    buyAmount ← sub FAIRAmount platformFee;
    if buyAmount =? 0 then Ok (0, 0, 0, platformFee)
    else
      currentPrice ← getCurrentPrice c;
      tokensOut ← _calculateTokensOut c buyAmount;
      if tokensOut =? 0 then Ok (0, currentPrice, 0, platformFee)
      else
        reserve ← add VIRTUAL_FAIR_RESERVES (FAIRRaised c);
        newFAIRReserve ← add reserve buyAmount;
        supply ← sub VIRTUAL_TOKEN_RESERVES (tokensSold c);
        newTokenReserve ← sub supply tokensOut;
        scaledPrice ← mul newFAIRReserve (10 ^ 18);
        newPrice ← div scaledPrice newTokenReserve;
        priceImpact ← (if currentPrice <? newPrice then
                         delta ← sub newPrice currentPrice;
                         scaledDelta ← mul delta 10000;
                         div scaledDelta currentPrice
                       else Ok 0);
        total ← add (tokensSold c) tokensOut;
        tokensOut ← (if GRADUATION_SUPPLY <? total then
                       sub GRADUATION_SUPPLY (tokensSold c)
                     else Ok tokensOut);
        Ok (tokensOut, newPrice, priceImpact, platformFee).

(** [function previewSell(uint256 tokenAmount) external view returns
    (FAIROut, netFAIROut, sellFee, feeAmount)] *)
Definition previewSell (cfg : config) (now : uint256) (c : storage)
  (tokenAmount : uint256)
  : result (uint256 * uint256 * uint256 * uint256) :=
  if (tokenAmount =? 0) || graduated c || (tokensSold c <? tokenAmount) then
    Ok (0, 0, 0, 0)
  else
    FAIROut ← _calculateFAIROut c tokenAmount;
    sellFee ← getCurrentSellFee cfg now;
    scaled ← mul FAIROut sellFee;
    feeAmount ← div scaled 10000;
    netFAIROut ← sub FAIROut feeAmount;
    Ok (FAIROut, netFAIROut, sellFee, feeAmount).

Definition calculateTokensForFAIR (c : storage) (FAIRAmount : uint256)
  : result uint256 :=
  if (FAIRAmount =? 0) || graduated c then Ok 0
  else _calculateTokensOut c FAIRAmount.

Definition calculateFAIRForTokens (c : storage) (tokenAmount : uint256)
  : result uint256 :=
  if (tokenAmount =? 0) || graduated c then Ok 0
  else _calculateFAIROut c tokenAmount.

(** [function getTokenInfo() external view returns (_tokensSold, _FAIRRaised,
    _currentSellFee, _graduated, _progress)] *)
Definition getTokenInfo (cfg : config) (now : uint256) (c : storage)
  : result (uint256 * uint256 * uint256 * bool * uint256) :=
  _currentSellFee ← getCurrentSellFee cfg now;
  scaled ← mul (FAIRRaised c) 10000;
  _progress ← div scaled GRADUATION_THRESHOLD;
  Ok (tokensSold c, FAIRRaised c, _currentSellFee, graduated c, _progress).

(** *** Administration *)

Definition setTraderJoeRouter (cfg : config) (e : env) (_router : address)
  (w : world) : result world :=
  onlyFactory cfg e ;;
  require (negb (_router =? 0)) "Invalid router" ;;
  Ok (with_curve (set_traderJoeRouter _router) w).

Definition emergencyWithdraw (cfg : config) (e : env) (w : world)
  : result world :=
  onlyFactory cfg e ;;
  transfer_native e (this cfg) (treasury cfg) (balance w (this cfg)) w.

Definition forceGraduation (cfg : config) (e : env) (w : world)
  : result world :=
  onlyFactory cfg e ;;
  require (negb (graduated (curve w))) "Already graduated" ;;
  require (GRADUATION_THRESHOLD <=? FAIRRaised (curve w))
    "Threshold not met" ;;
  _executeGraduation cfg e w.

End BondingCurve.

(** ** Transactions

    A transaction is one external call.  If it reverts the world is left as
    it was; traces of transactions start from the world the factory's
    [createTokenWithSocials] builds. *)

Module Chain.
Import BondingCurve.

Inductive call : Type :=
| BuyTokens (minTokensOut : uint256)
| BuyTokensFor (recipient : address) (minTokensOut : uint256)
| SellTokens (tokenAmount minFAIROut : uint256)
| SetTraderJoeRouter (_router : address)
| EmergencyWithdraw
| ForceGraduation
| TokenTransfer (to : address) (value : uint256)
| TokenApprove (spender : address) (value : uint256)
| TokenTransferFrom (from to : address) (value : uint256)
| TokenBurn (value : uint256)
| TokenBurnFrom (account : address) (value : uint256)
| TokenSetMinter (_minter : address)
| TokenEnableTrading
| TokenMint (to : address) (amount : uint256).

Definition on_token (f : LaunchToken.state -> result LaunchToken.state)
  (w : world) : result world :=
  t ← f (token w);
  Ok (with_token t w).

Definition exec (cfg : config) (e : env) (c : call) (w : world)
  : result world :=
  match c with
  | BuyTokens m => buyTokens cfg e m w
  | BuyTokensFor r m => buyTokensFor cfg e r m w
  | SellTokens a m => sellTokens cfg e a m w
  | SetTraderJoeRouter r => setTraderJoeRouter cfg e r w
  | EmergencyWithdraw => emergencyWithdraw cfg e w
  | ForceGraduation => forceGraduation cfg e w
  | TokenTransfer to v => on_token (LaunchToken.transfer (msg_sender e) to v) w
  | TokenApprove s v => on_token (LaunchToken.approve (msg_sender e) s v) w
  | TokenTransferFrom from to v =>
      on_token (LaunchToken.transferFrom (msg_sender e) from to v) w
  | TokenBurn v => on_token (LaunchToken.burn (msg_sender e) v) w
  | TokenBurnFrom a v =>
      on_token (LaunchToken.burnFrom (msg_sender e) a v) w
  | TokenSetMinter m => on_token (LaunchToken.setMinter (msg_sender e) m) w
  | TokenEnableTrading =>
      on_token (LaunchToken.enableTrading (msg_sender e)) w
  | TokenMint to a => on_token (LaunchToken.mint (msg_sender e) to a) w
  end.

Definition run (cfg : config) (e : env) (c : call) (w : world) : world :=
  match exec cfg e c w with
  | Ok w' => w'
  | Revert _ => w
  end.

Fixpoint run_all (cfg : config) (tr : list (env * call)) (w : world)
  : world :=
  match tr with
  | [] => w
  | (e, c) :: tr' => run_all cfg tr' (run cfg e c w)
  end.

(** The pair built by [TokenFactory.createTokenWithSocials]: a fresh
    ledger, a fresh curve, and the curve installed as the ledger's minter by
    the factory. *)
Definition deploy (cfg : config) (chainId : N) (_creator : address)
  (funds : gmap address uint256) : world :=
  let t0 := LaunchToken.constructor _creator (launchTime cfg) in
  let t1 := match LaunchToken.setMinter (factory cfg) (this cfg) t0 with
            | Ok t => t
            | Revert _ => t0
            end in
  {| curve := constructor chainId; token := t1; native := funds;
     log := [] |}.

End Chain.

(** ** Derived definitions used to state the properties *)

Module Derived.
Import BondingCurve.

(** The anti-dump fee written as a function of the time elapsed since
    launch: it follows the wording "linear decay from an initial high rate
    to a final low rate over a fixed duration, pinned at the final rate
    afterwards", to be compared with [getCurrentSellFee]. *)
Definition decayed_fee (elapsed : N) : N :=
  if ANTI_DUMP_DURATION <=? elapsed then FINAL_SELL_FEE
  else INITIAL_SELL_FEE
       - (INITIAL_SELL_FEE - FINAL_SELL_FEE) * elapsed / ANTI_DUMP_DURATION.

(** The body of [_buyTokensFor] up to, and not including, its final
    graduation check: the purchase proper. *)
Definition buy_effects (cfg : config) (e : env) (recipient : address)
  (minTokensOut : uint256) (w : world) : result world :=
  require (0 <? msg_value e) "Must send FAIR" ;;
  require (tokensSold (curve w) <? GRADUATION_SUPPLY) "Curve complete" ;;
  scaled ← mul (msg_value e) (platformFeePercent cfg);
  platformFee ← div scaled 10000;
  buyAmount ← sub (msg_value e) platformFee;
  require (0 <? buyAmount) "Insufficient after fees" ;;
  tokensOut ← _calculateTokensOut (curve w) buyAmount;
  require (0 <? tokensOut) "No tokens calculated" ;;
  require (minTokensOut <=? tokensOut) "Slippage exceeded" ;;
  total ← add (tokensSold (curve w)) tokensOut;
  require (total <=? GRADUATION_SUPPLY) "Exceeds graduation supply" ;;
  sold ← add (tokensSold (curve w)) tokensOut;
  let w := with_curve (set_tokensSold sold) w in
  raised ← add (FAIRRaised (curve w)) buyAmount;
  let w := with_curve (set_FAIRRaised raised) w in
  t1 ← LaunchToken.mint (this cfg) recipient tokensOut (token w);
  let w := with_token t1 w in
  w ← (if 0 <? platformFee then
         transfer_native e (this cfg) (treasury cfg) platformFee w
       else Ok w);
  newPrice ← getCurrentPrice (curve w);
  let w := emit (TokensPurchased recipient buyAmount tokensOut newPrice) w in
  marketCap ← getMarketCap (curve w);
  Ok (emit (PriceUpdate (tokensSold (curve w)) newPrice marketCap) w).

(** The reserve the constant-product relation has raised once [sold]
    tokens are out: [virtualReserve * virtualSupply / (virtualSupply - sold)
    - virtualReserve]. *)
Definition reserve_at (sold : uint256) : uint256 :=
  VIRTUAL_FAIR_RESERVES * VIRTUAL_TOKEN_RESERVES
    / (VIRTUAL_TOKEN_RESERVES - sold)
  - VIRTUAL_FAIR_RESERVES.

(** [x] lies within [num / den] of [target]. *)
Definition within (num den x target : N) : Prop :=
  den * (x - target) <= num * target /\ den * (target - x) <= num * target.

(** What a successful purchase ([buy_effects] taking [w] to [w1])
    establishes. *)
Record purchased (cfg : config) (e : env) (recipient : address)
  (minTokensOut : uint256) (w w1 : world)
  (platformFee buyAmount tokensOut newPrice : uint256) : Prop := {
  p_value : 0 < msg_value e;
  p_open : tokensSold (curve w) < GRADUATION_SUPPLY;
  p_fee : platformFee = msg_value e * platformFeePercent cfg / 10000;
  p_fee_fits : msg_value e * platformFeePercent cfg <= MAX_UINT256;
  p_fee_le : platformFee <= msg_value e;
  p_net : buyAmount = msg_value e - platformFee;
  p_net_pos : 0 < buyAmount;
  p_out : _calculateTokensOut (curve w) buyAmount = Ok tokensOut;
  p_out_pos : 0 < tokensOut;
  p_slippage : minTokensOut <= tokensOut;
  p_cap : tokensSold (curve w) + tokensOut <= GRADUATION_SUPPLY;
  p_raised_fits : FAIRRaised (curve w) + buyAmount <= MAX_UINT256;
  p_curve :
    curve w1 =
      set_FAIRRaised (FAIRRaised (curve w) + buyAmount)
        (set_tokensSold (tokensSold (curve w) + tokensOut) (curve w));
  p_mint :
    LaunchToken.mint (this cfg) recipient tokensOut (token w)
    = Ok (token w1);
  p_price : getCurrentPrice (curve w1) = Ok newPrice;
  p_log :
    exists marketCap : uint256,
      getMarketCap (curve w1) = Ok marketCap /\
      log w1 =
        PriceUpdate (tokensSold (curve w1)) newPrice marketCap
        :: TokensPurchased recipient buyAmount tokensOut newPrice :: log w
}.

(** What a successful [sellTokens] taking [w] to [w'] establishes. *)
Record sold_back (cfg : config) (e : env) (tokenAmount minFAIROut : uint256)
  (w w' : world) (FAIROut sellFee feeAmount netFAIROut : uint256) : Prop := {
  s_open : graduated (curve w) = false;
  s_pos : 0 < tokenAmount;
  s_supply : tokenAmount <= tokensSold (curve w);
  s_balance :
    tokenAmount <= LaunchToken.balanceOf (token w) (msg_sender e);
  s_out : _calculateFAIROut (curve w) tokenAmount = Ok FAIROut;
  s_out_pos : 0 < FAIROut;
  s_reserves : FAIROut <= FAIRRaised (curve w);
  s_sellFee : getCurrentSellFee cfg (block_timestamp e) = Ok sellFee;
  s_fee_fits : FAIROut * sellFee <= MAX_UINT256;
  s_fee : feeAmount = FAIROut * sellFee / 10000;
  s_fee_le : feeAmount <= FAIROut;
  s_net : netFAIROut = FAIROut - feeAmount;
  s_slippage : minFAIROut <= netFAIROut;
  s_curve :
    curve w' =
      set_FAIRRaised (FAIRRaised (curve w) - FAIROut)
        (set_tokensSold (tokensSold (curve w) - tokenAmount) (curve w));
  s_burn :
    LaunchToken.burnFrom (this cfg) (msg_sender e) tokenAmount (token w)
    = Ok (token w');
  s_paid :
    msg_sender e <> this cfg -> msg_sender e <> treasury cfg ->
    balance w' (msg_sender e) = balance w (msg_sender e) + netFAIROut;
  s_log :
    exists price marketCap : uint256,
      log w' =
        PriceUpdate (tokensSold (curve w')) price marketCap
        :: TokensSold (msg_sender e) tokenAmount netFAIROut feeAmount
        :: log w
}.

End Derived.

(** ** A concrete deployment *)

Module Scenario.
Import BondingCurve Chain.

Definition curve_address : address := 0xC0.
Definition factory_address : address := 0xFA.
Definition treasury_address : address := 0x7E.
Definition alice : address := 0xA1.
Definition bob : address := 0xB0.
Definition launch : uint256 := 1700000000.

(** The factory's default platform fee of 1%. *)
Definition cfg : config :=
  {| this := curve_address; factory := factory_address;
     treasury := treasury_address; platformFeePercent := 100;
     launchTime := launch |}.

Definition funds : gmap address uint256 :=
  {[ alice := 20000 * ether; bob := 20000 * ether ]}.

Definition genesis : world := deploy cfg 43114 alice funds.

Definition call_env (sender : address) (value now : uint256)
  (v : venue_outcome) : env :=
  {| msg_sender := sender; msg_value := value; block_timestamp := now;
     accepts := fun _ => true; addLiquidityFAIR := v |}.

Definition or_else {A : Type} (d : A) (r : result A) : A :=
  match r with
  | Ok a => a
  | Revert _ => d
  end.

(** Alice opens the curve with a buy of one FAIR. *)
Definition one_fair : env := call_env alice (1 * ether) launch VenueReverts.
Definition one_fair_entered : world :=
  or_else genesis (receive_value cfg one_fair genesis).
Definition after_first_buy : world := run cfg one_fair (BuyTokens 0) genesis.
Definition alice_tokens : uint256 := 1300373036305364367151789.

(** Alice, the only holder, approves the curve to sell everything back. *)
Definition alice_sells : env := call_env alice 0 launch VenueReverts.
Definition alice_approved : world :=
  run cfg alice_sells (TokenApprove curve_address alice_tokens)
    after_first_buy.

(** Bob approves the curve, buys for one wei and sells what he bought. *)
Definition dust_buy : env := call_env bob 1 launch VenueReverts.
Definition dust_sell : env := call_env bob 0 launch VenueReverts.
Definition dust_ready : world :=
  run cfg dust_sell (TokenApprove curve_address (10 ^ 30)) after_first_buy.
Definition dust_entered : world :=
  or_else dust_ready (receive_value cfg dust_buy dust_ready).
Definition dust_bought : world := run cfg dust_buy (BuyTokens 0) dust_ready.
Definition dust_tokens : uint256 :=
  tokensSold (curve dust_bought) - tokensSold (curve dust_ready).
Definition dust_sold : world :=
  run cfg dust_sell (SellTokens dust_tokens 0) dust_bought.

(** A buy that takes the whole curve: 9000 FAIR sent, 8910 after the fee.
    [at_router_call] is the world in which the router call is made (it is
    what the roll-back leaves); in [router_returns] the router pulls the
    liquidity tokens and the attached FAIR into its pair. *)
Definition pair : address := 0xAA.
Definition whole_curve (v : venue_outcome) : env :=
  call_env alice (9000 * ether) launch v.
Definition whole_curve_entered : world :=
  or_else genesis (receive_value cfg (whole_curve VenueReverts) genesis).
Definition whole_curve_purchased : world :=
  or_else genesis
    (Derived.buy_effects cfg (whole_curve VenueReverts) alice 0
       whole_curve_entered).
Definition at_router_call : world :=
  run cfg (whole_curve VenueReverts) (BuyTokens 0) genesis.
Definition router_returns : venue_outcome :=
  VenueReturns LIQUIDITY_TOKENS LIQUIDITY_FAIR 1
    (or_else (token at_router_call)
       (LaunchToken.transferFrom (traderJoeRouter (curve at_router_call))
          curve_address pair LIQUIDITY_TOKENS (token at_router_call)))
    (native
       (or_else at_router_call
          (transfer_native (whole_curve VenueReverts) curve_address pair
             LIQUIDITY_FAIR at_router_call))).
Definition graduated_world : world :=
  run cfg (whole_curve router_returns) (BuyTokens 0) genesis.

(** The buy that sells the curve out exactly: 7980 FAIR after the 1% fee. *)
Definition sell_out : env :=
  call_env alice 8060606060606060606060 launch VenueReverts.
Definition sold_out : world := run cfg sell_out (BuyTokens 0) genesis.

End Scenario.

(** ** The registry: [contract TokenFactory] *)

Module TokenFactory.
Import BondingCurve.

Inductive event : Type :=
| TokenCreated (token bondingCurve creator : address)
    (name symbol description imageUrl website twitter : string)
| PlatformFeeUpdated (newFee : uint256)
| CreationFeeUpdated (newFee : uint256)
| TreasuryUpdated (newTreasury : address).

(** Storage of the factory. *)
Record state : Type := {
  owner : address;
  treasury : address;
  platformFeePercent : uint256;
  tokenCreationFee : uint256;
  allTokens : list address;
  tokenToBondingCurve : gmap address address;
  isValidToken : gmap address bool
}.

Definition set_owner (a : address) (s : state) : state :=
  {| owner := a; treasury := treasury s;
     platformFeePercent := platformFeePercent s;
     tokenCreationFee := tokenCreationFee s; allTokens := allTokens s;
     tokenToBondingCurve := tokenToBondingCurve s;
     isValidToken := isValidToken s |}.

Definition set_treasury (a : address) (s : state) : state :=
  {| owner := owner s; treasury := a;
     platformFeePercent := platformFeePercent s;
     tokenCreationFee := tokenCreationFee s; allTokens := allTokens s;
     tokenToBondingCurve := tokenToBondingCurve s;
     isValidToken := isValidToken s |}.

Definition set_platformFeePercent (v : uint256) (s : state) : state :=
  {| owner := owner s; treasury := treasury s; platformFeePercent := v;
     tokenCreationFee := tokenCreationFee s; allTokens := allTokens s;
     tokenToBondingCurve := tokenToBondingCurve s;
     isValidToken := isValidToken s |}.

Definition set_tokenCreationFee (v : uint256) (s : state) : state :=
  {| owner := owner s; treasury := treasury s;
     platformFeePercent := platformFeePercent s; tokenCreationFee := v;
     allTokens := allTokens s;
     tokenToBondingCurve := tokenToBondingCurve s;
     isValidToken := isValidToken s |}.

(** [allTokens.push(token); tokenToBondingCurve[token] = bondingCurve;
    isValidToken[token] = true] *)
Definition register (token bondingCurve : address) (s : state) : state :=
  {| owner := owner s; treasury := treasury s;
     platformFeePercent := platformFeePercent s;
     tokenCreationFee := tokenCreationFee s;
     allTokens := allTokens s ++ [token];
     tokenToBondingCurve := <[token := bondingCurve]> (tokenToBondingCurve s);
     isValidToken := <[token := true]> (isValidToken s) |}.

(** One deployed pair: the curve's immutables and storage, its ledger with
    the ledger's address, and the curve's event log. *)
Record instance : Type := {
  immutables : config;
  stored : storage;
  ledger_address : address;
  ledger : LaunchToken.state;
  emitted : list BondingCurve.event
}.

(** Everything the factory can see and change: its own storage, the pairs
    it has deployed (by curve address), the native-currency balances and its
    own event log (newest event first). *)
Record chain : Type := {
  registry : state;
  curves : gmap address instance;
  funds : gmap address uint256;
  journal : list event
}.

Definition with_registry (f : state -> state) (ch : chain) : chain :=
  {| registry := f (registry ch); curves := curves ch; funds := funds ch;
     journal := journal ch |}.

Definition with_funds (n : gmap address uint256) (ch : chain) : chain :=
  {| registry := registry ch; curves := curves ch; funds := n;
     journal := journal ch |}.

Definition record (ev : event) (ch : chain) : chain :=
  {| registry := registry ch; curves := curves ch; funds := funds ch;
     journal := ev :: journal ch |}.

(** [address(a).balance] *)
Definition holdings (ch : chain) (a : address) : uint256 :=
  default 0 (funds ch !! a).

(** The immutables of the deployed curves, by curve address. *)
Definition terms (ch : chain) : gmap address config :=
  immutables <$> curves ch.

(** The world of one deployed curve inside the chain, and the chain after
    that curve has run. *)
Definition enter (ch : chain) (i : instance) : world :=
  {| curve := stored i; token := ledger i; native := funds ch;
     log := emitted i |}.

Definition leave (a : address) (i : instance) (w : world) (ch : chain)
  : chain :=
  {| registry := registry ch;
     curves :=
       <[a := {| immutables := immutables i; stored := curve w;
                 ledger_address := ledger_address i; ledger := token w;
                 emitted := log w |}]> (curves ch);
     funds := native w; journal := journal ch |}.

(** Native currency held outside any curve: the balances alone, moved by
    the same rules as [BondingCurve.transfer_native] and
    [BondingCurve.receive_value]. *)
Definition purse (n : gmap address uint256) : world :=
  {| curve := constructor 0; token := LaunchToken.constructor 0 0;
     native := n; log := [] |}.

Definition at_address (self : address) : config :=
  {| this := self; factory := 0; BondingCurve.treasury := 0;
     BondingCurve.platformFeePercent := 0; launchTime := 0 |}.

(** [payable(to).transfer(amount)] issued by the factory. *)
Definition transfer_funds (e : env) (from to : address) (amount : uint256)
  (ch : chain) : result chain :=
  w ← transfer_native e from to amount (purse (funds ch));
  Ok (with_funds (native w) ch).

(** Entering a [payable] function of the factory. *)
Definition receive_funds (self : address) (e : env) (ch : chain)
  : result chain :=
  w ← receive_value (at_address self) e (purse (funds ch));
  Ok (with_funds (native w) ch).

(** [modifier onlyOwner] *)
Definition onlyOwner (e : env) (ch : chain) : result unit :=
  require (msg_sender e =? owner (registry ch)) "Not owner".

(** [constructor(address _treasury)] *)
Definition constructor (e : env) (_treasury : address) : result state :=
  require (negb (_treasury =? 0)) "Invalid treasury" ;;
  Ok {| owner := msg_sender e; treasury := _treasury;
        platformFeePercent := 100; tokenCreationFee := ether / 10;
        allTokens := []; tokenToBondingCurve := ∅; isValidToken := ∅ |}.

(** [bondingCurve.call{value: value}(abi.encodeWithSignature(...))]: the
    callee [f] runs with the factory as [msg.sender]; the outcome is the
    [success] flag ([None] for [false]), and a failed call leaves nothing
    behind.  A call to an address without code succeeds. *)
Definition call (self : address) (e : env) (value : uint256)
  (target : address) (f : config -> env -> world -> result world)
  (ch : chain) : option chain :=
  let inner :=
    {| msg_sender := self; msg_value := value;
       block_timestamp := block_timestamp e; accepts := accepts e;
       addLiquidityFAIR := addLiquidityFAIR e |} in
  match curves ch !! target with
  | Some i =>
      match f (immutables i) inner (enter ch i) with
      | Ok w => Some (leave target i w ch)
      | Revert _ => None
      end
  | None =>
      match receive_funds target inner ch with
      | Ok ch' => Some ch'
      | Revert _ => None
      end
  end.

(** [function createTokenWithSocials(name, symbol, description, imageUrl,
    website, twitter, initialBuyAmount) public payable returns (token,
    bondingCurve)].  [self] is the factory's address, and [token] and
    [bondingCurve] are the addresses the two [new] expressions are given. *)
Definition createTokenWithSocials (self : address) (chainId : N) (e : env)
  (token bondingCurve : address)
  (name symbol description imageUrl website twitter : string)
  (initialBuyAmount : uint256) (ch : chain)
  : result (address * address * chain) :=
  ch ← receive_funds self e ch;
  needed ← add (tokenCreationFee (registry ch)) initialBuyAmount;
  require (needed <=? msg_value e) "Insufficient funds" ;;
  require (0 <? N.of_nat (String.length name)) "Name required" ;;
  require (0 <? N.of_nat (String.length symbol)) "Symbol required" ;;
  let newToken := LaunchToken.constructor (msg_sender e) (block_timestamp e) in
  let newBondingCurve :=
    {| immutables :=
         {| this := bondingCurve; factory := self;
            BondingCurve.treasury := treasury (registry ch);
            BondingCurve.platformFeePercent :=
              platformFeePercent (registry ch);
            launchTime := block_timestamp e |};
       stored := BondingCurve.constructor chainId;
       ledger_address := token; ledger := newToken; emitted := [] |} in
  linked ← LaunchToken.setMinter self bondingCurve newToken;
  let newBondingCurve :=
    {| immutables := immutables newBondingCurve;
       stored := stored newBondingCurve; ledger_address := token;
       ledger := linked; emitted := [] |} in
  let ch :=
    {| registry := register token bondingCurve (registry ch);
       curves := <[bondingCurve := newBondingCurve]> (curves ch);
       funds := funds ch; journal := journal ch |} in
  let ch :=
    record (TokenCreated token bondingCurve (msg_sender e) name symbol
              description imageUrl website twitter) ch in
  ch ← (if 0 <? initialBuyAmount then
          match
            call self e initialBuyAmount bondingCurve
              (fun cfg inner => buyTokensFor cfg inner (msg_sender e) 0) ch
          with
          | Some ch' => Ok ch'
          | None => Revert (Error "Initial buy failed")
          end
        else Ok ch);
  ch ← (if 0 <? tokenCreationFee (registry ch) then
          transfer_funds e self (treasury (registry ch))
            (tokenCreationFee (registry ch)) ch
        else Ok ch);
  Ok (token, bondingCurve, ch).

(** [function createToken(name, symbol, description, imageUrl,
    initialBuyAmount) external payable returns (token, bondingCurve)] *)
Definition createToken (self : address) (chainId : N) (e : env)
  (token bondingCurve : address) (name symbol description imageUrl : string)
  (initialBuyAmount : uint256) (ch : chain)
  : result (address * address * chain) :=
  createTokenWithSocials self chainId e token bondingCurve name symbol
    description imageUrl EmptyString EmptyString initialBuyAmount ch.

(** *** Views *)

Definition getAllTokens (ch : chain) : list address :=
  allTokens (registry ch).

Definition getTokenCount (ch : chain) : uint256 :=
  N.of_nat (length (allTokens (registry ch))).

Definition getBondingCurve (ch : chain) (token : address) : address :=
  default 0 (tokenToBondingCurve (registry ch) !! token).

(** *** Administration *)

(** [function setTreasury(address _treasury) external onlyOwner] *)
Definition setTreasury (e : env) (_treasury : address) (ch : chain)
  : result chain :=
  onlyOwner e ch ;;
  require (negb (_treasury =? 0)) "Invalid treasury" ;;
  Ok (record (TreasuryUpdated _treasury)
        (with_registry (set_treasury _treasury) ch)).

(** [function updateTokenRouter(address token, address newRouter) external
    onlyOwner] *)
Definition updateTokenRouter (self : address) (e : env)
  (token newRouter : address) (ch : chain) : result chain :=
  onlyOwner e ch ;;
  require (default false (isValidToken (registry ch) !! token))
    "Invalid token" ;;
  let bondingCurve := default 0 (tokenToBondingCurve (registry ch) !! token) in
  require (negb (bondingCurve =? 0)) "No bonding curve" ;;
  match
    call self e 0 bondingCurve
      (fun cfg inner => setTraderJoeRouter cfg inner newRouter) ch
  with
  | Some ch' => Ok ch'
  | None => Revert (Error "Router update failed")
  end.

(** [function setPlatformFee(uint256 _feePercent) external onlyOwner] *)
Definition setPlatformFee (e : env) (_feePercent : uint256) (ch : chain)
  : result chain :=
  onlyOwner e ch ;;
  require (_feePercent <=? 1000) "Fee too high" ;;
  Ok (record (PlatformFeeUpdated _feePercent)
        (with_registry (set_platformFeePercent _feePercent) ch)).

(** [function setCreationFee(uint256 _fee) external onlyOwner] *)
Definition setCreationFee (e : env) (_fee : uint256) (ch : chain)
  : result chain :=
  onlyOwner e ch ;;
  Ok (record (CreationFeeUpdated _fee)
        (with_registry (set_tokenCreationFee _fee) ch)).

(** [function transferOwnership(address newOwner) external onlyOwner] *)
Definition transferOwnership (e : env) (newOwner : address) (ch : chain)
  : result chain :=
  onlyOwner e ch ;;
  require (negb (newOwner =? 0)) "Invalid address" ;;
  Ok (with_registry (set_owner newOwner) ch).

(** [function emergencyGraduateToken(address token) external onlyOwner] *)
Definition emergencyGraduateToken (self : address) (e : env)
  (token : address) (ch : chain) : result chain :=
  onlyOwner e ch ;;
  require (default false (isValidToken (registry ch) !! token))
    "Invalid token" ;;
  let bondingCurve := default 0 (tokenToBondingCurve (registry ch) !! token) in
  require (negb (bondingCurve =? 0)) "No bonding curve" ;;
  match call self e 0 bondingCurve forceGraduation ch with
  | Some ch' => Ok ch'
  | None => Revert (Error "Graduation failed")
  end.

(** [function emergencyWithdrawFromCurve(address token) external
    onlyOwner] *)
Definition emergencyWithdrawFromCurve (self : address) (e : env)
  (token : address) (ch : chain) : result chain :=
  onlyOwner e ch ;;
  require (default false (isValidToken (registry ch) !! token))
    "Invalid token" ;;
  let bondingCurve := default 0 (tokenToBondingCurve (registry ch) !! token) in
  require (negb (bondingCurve =? 0)) "No bonding curve" ;;
  match call self e 0 bondingCurve emergencyWithdraw ch with
  | Some ch' => Ok ch'
  | None => Revert (Error "Emergency withdraw failed")
  end.

(** [receive() external payable] *)
Definition receive (self : address) (e : env) (ch : chain) : result chain :=
  ch ← receive_funds self e ch;
  if 0 <? msg_value e then
    transfer_funds e self (treasury (registry ch)) (msg_value e) ch
  else Ok ch.

End TokenFactory.

(** ** The platform: the factory and the pairs it has deployed

    A transaction is sent to the factory or to one of the deployed pairs;
    if it reverts the chain is left as it was. *)

Module Platform.
Import BondingCurve TokenFactory.

Inductive action : Type :=
| CreateToken (token bondingCurve : address)
    (name symbol description imageUrl : string) (initialBuyAmount : uint256)
| CreateTokenWithSocials (token bondingCurve : address)
    (name symbol description imageUrl website twitter : string)
    (initialBuyAmount : uint256)
| SetTreasury (_treasury : address)
| UpdateTokenRouter (token newRouter : address)
| SetPlatformFee (_feePercent : uint256)
| SetCreationFee (_fee : uint256)
| TransferOwnership (newOwner : address)
| EmergencyGraduateToken (token : address)
| EmergencyWithdrawFromCurve (token : address)
| Receive
| OnPair (bondingCurve : address) (c : Chain.call).

Definition is_payable (c : Chain.call) : bool :=
  match c with
  | Chain.BuyTokens _ | Chain.BuyTokensFor _ _ => true
  | _ => false
  end.

(** A transaction to the pair whose curve sits at [a].  At an address
    without code nothing runs, and the value of a payable call is simply
    moved. *)
Definition on_pair (e : env) (a : address) (c : Chain.call) (ch : chain)
  : result chain :=
  match curves ch !! a with
  | Some i =>
      w ← Chain.exec (immutables i) e c (enter ch i);
      Ok (leave a i w ch)
  | None => if is_payable c then receive_funds a e ch else Ok ch
  end.

Definition exec (self : address) (chainId : N) (e : env) (a : action)
  (ch : chain) : result chain :=
  match a with
  | CreateToken t b n s d i amount =>
      r ← createToken self chainId e t b n s d i amount ch;
      Ok (snd r)
  | CreateTokenWithSocials t b n s d i ws tw amount =>
      r ← createTokenWithSocials self chainId e t b n s d i ws tw amount ch;
      Ok (snd r)
  | SetTreasury t => setTreasury e t ch
  | UpdateTokenRouter t r => updateTokenRouter self e t r ch
  | SetPlatformFee f => setPlatformFee e f ch
  | SetCreationFee f => setCreationFee e f ch
  | TransferOwnership o => transferOwnership e o ch
  | EmergencyGraduateToken t => emergencyGraduateToken self e t ch
  | EmergencyWithdrawFromCurve t => emergencyWithdrawFromCurve self e t ch
  | Receive => TokenFactory.receive self e ch
  | OnPair a c => on_pair e a c ch
  end.

Definition run (self : address) (chainId : N) (e : env) (a : action)
  (ch : chain) : chain :=
  match exec self chainId e a ch with
  | Ok ch' => ch'
  | Revert _ => ch
  end.

Fixpoint run_all (self : address) (chainId : N) (tr : list (env * action))
  (ch : chain) : chain :=
  match tr with
  | [] => ch
  | (e, a) :: tr' => run_all self chainId tr' (run self chainId e a ch)
  end.

(** The immutables [createTokenWithSocials] gives the curve it deploys at
    [bondingCurve], and the chain as it stands once the pair is deployed,
    linked, registered and announced, before the initial buy. *)
Definition terms_of_creation (self : address) (e : env) (s : state)
  (bondingCurve : address) : config :=
  {| this := bondingCurve; factory := self;
     BondingCurve.treasury := treasury s;
     BondingCurve.platformFeePercent := platformFeePercent s;
     launchTime := block_timestamp e |}.

Definition created (self : address) (chainId : N) (e : env)
  (token bondingCurve : address)
  (name symbol description imageUrl website twitter : string) (ch : chain)
  : chain :=
  record (TokenCreated token bondingCurve (msg_sender e) name symbol
            description imageUrl website twitter)
    {| registry := register token bondingCurve (registry ch);
       curves :=
         <[bondingCurve :=
             {| immutables :=
                  terms_of_creation self e (registry ch) bondingCurve;
                stored := BondingCurve.constructor chainId;
                ledger_address := token;
                ledger :=
                  LaunchToken.set_minter bondingCurve
                    (LaunchToken.constructor (msg_sender e)
                       (block_timestamp e));
                emitted := [] |}]> (curves ch);
       funds := funds ch; journal := journal ch |}.

(** What the factory's code maintains: its own fee stays within the 10%
    cap and its treasury is set; every deployed curve sits at the address
    it takes itself to have, names this factory as its factory, and was
    given a fee within the cap and a treasury; and every listed token is
    marked valid and mapped to a deployed curve. *)
Definition well_formed (self : address) (ch : chain) : Prop :=
  platformFeePercent (registry ch) <= 1000 /\
  treasury (registry ch) <> 0 /\
  (forall (a : address) (cfg : config),
     terms ch !! a = Some cfg ->
     this cfg = a /\ factory cfg = self /\
     BondingCurve.platformFeePercent cfg <= 1000 /\
     BondingCurve.treasury cfg <> 0) /\
  (forall t : address,
     In t (allTokens (registry ch)) ->
     isValidToken (registry ch) !! t = Some true /\
     exists b : address,
       tokenToBondingCurve (registry ch) !! t = Some b /\
       is_Some (terms ch !! b)).

(** The chain right after the factory's deployment. *)
Definition launched (s : state) (n : gmap address uint256) : chain :=
  {| registry := s; curves := ∅; funds := n; journal := [] |}.

End Platform.

(** ** Derived definitions for the ledger *)

Module Ledger.
Import Chain.

(** The transactions of [Chain.call] that are addressed to the ledger. *)
Definition is_ledger_call (c : call) : bool :=
  match c with
  | TokenTransfer _ _ | TokenApprove _ _ | TokenTransferFrom _ _ _
  | TokenBurn _ | TokenBurnFrom _ _ | TokenSetMinter _ | TokenEnableTrading
  | TokenMint _ _ => true
  | _ => false
  end.

End Ledger.

(** ** A concrete platform *)

Module Stage.
Import BondingCurve Chain TokenFactory Platform Scenario.

Definition admin : address := 0xAD.
Definition token_address : address := 0x70.

(** The factory sits at [factory_address], deployed by [admin] with the
    treasury of the scenario. *)
Definition deployer : env := call_env admin 0 launch VenueReverts.

Definition registry0 : state :=
  {| owner := admin; TokenFactory.treasury := treasury_address;
     TokenFactory.platformFeePercent := 100; tokenCreationFee := ether / 10;
     allTokens := []; tokenToBondingCurve := ∅; isValidToken := ∅ |}.

Definition opened : chain := launched registry0 Scenario.funds.

(** Alice creates a token, sending two FAIR, first without and then with an
    initial buy of one FAIR. *)
Definition alice_creates : env :=
  call_env alice (2 * ether) launch VenueReverts.

Definition plain_creation : action :=
  CreateTokenWithSocials token_address curve_address "Token" "TKN"
    "A token" "https://example.org/t.png" "https://example.org"
    "https://x.com/token" 0.

Definition creation_with_buy : action :=
  CreateTokenWithSocials token_address curve_address "Token" "TKN"
    "A token" "https://example.org/t.png" "https://example.org"
    "https://x.com/token" (1 * ether).

Definition listed : chain :=
  Platform.run factory_address 43114 alice_creates plain_creation opened.

Definition listed_with_buy : chain :=
  Platform.run factory_address 43114 alice_creates creation_with_buy opened.

Definition paid_in : chain :=
  or_else opened (receive_funds factory_address alice_creates opened).

(** The pair deployed at [a], if there is one. *)
Definition pair_at (ch : chain) (a : address) : instance :=
  default
    {| immutables := at_address a; stored := BondingCurve.constructor 0;
       ledger_address := 0; ledger := LaunchToken.constructor 0 0;
       emitted := [] |}
    (curves ch !! a).

(** The owner's calls, a stranger's gift to the factory, and an underpaid
    creation. *)
Definition admin_calls : env := call_env admin 0 launch VenueReverts.
Definition gift : env := call_env bob (3 * ether) launch VenueReverts.
Definition underpaid : env := call_env alice 1 launch VenueReverts.

(** The factory withdraws the curve's balance after Alice's first buy. *)
Definition factory_calls : env :=
  call_env factory_address 0 launch VenueReverts.
Definition drained : world :=
  Chain.run cfg factory_calls EmergencyWithdraw after_first_buy.

End Stage.

(** ** Inversion of the error monad *)

Section Inversion.

Lemma bind_Ok_inv {A B : Type} (c : result A) (k : A -> result B) (b : B) :
  c ≫= k = Ok b -> exists a, c = Ok a /\ k a = Ok b.
Proof. destruct c as [a|f]; [exists a; split; [reflexivity|assumption] | discriminate]. Qed.

Lemma require_Ok_inv (cond : bool) (s : string) (u : unit) :
  require cond s = Ok u -> cond = true.
Proof. destruct cond; [reflexivity | discriminate]. Qed.

Lemma require_true (s : string) : require true s = Ok tt.
Proof. reflexivity. Qed.

Lemma add_Ok_inv (a b c : uint256) :
  add a b = Ok c -> c = a + b /\ a + b <= MAX_UINT256.
Proof.
  unfold add. destruct (a + b <=? MAX_UINT256) eqn:E; [|discriminate].
  intros [= <-]. split; [reflexivity | now apply N.leb_le].
Qed.

Lemma sub_Ok_inv (a b c : uint256) : sub a b = Ok c -> c = a - b /\ b <= a.
Proof.
  unfold sub. destruct (b <=? a) eqn:E; [|discriminate].
  intros [= <-]. split; [reflexivity | now apply N.leb_le].
Qed.

Lemma mul_Ok_inv (a b c : uint256) :
  mul a b = Ok c -> c = a * b /\ a * b <= MAX_UINT256.
Proof.
  unfold mul. destruct (a * b <=? MAX_UINT256) eqn:E; [|discriminate].
  intros [= <-]. split; [reflexivity | now apply N.leb_le].
Qed.

Lemma div_Ok_inv (a b c : uint256) : div a b = Ok c -> c = a / b /\ b <> 0.
Proof.
  unfold div. destruct (b =? 0) eqn:E; [discriminate|].
  intros [= <-]. split; [reflexivity | now apply N.eqb_neq].
Qed.

Lemma add_Ok (a b : uint256) : a + b <= MAX_UINT256 -> add a b = Ok (a + b).
Proof. intros H. unfold add. now apply N.leb_le in H as ->. Qed.

Lemma sub_Ok (a b : uint256) : b <= a -> sub a b = Ok (a - b).
Proof. intros H. unfold sub. now apply N.leb_le in H as ->. Qed.

Lemma mul_Ok (a b : uint256) : a * b <= MAX_UINT256 -> mul a b = Ok (a * b).
Proof. intros H. unfold mul. now apply N.leb_le in H as ->. Qed.

Lemma div_Ok (a b : uint256) : b <> 0 -> div a b = Ok (a / b).
Proof. intros H. unfold div. now apply N.eqb_neq in H as ->. Qed.

End Inversion.

(** [inv_ok H] splits a successful monadic run [H : ... = Ok _] into the
    successes of its steps, turning checked arithmetic and [require] into
    the facts they establish. *)
Ltac inv_atom H :=
  lazymatch type of H with
  | require _ _ = Ok _ =>
      apply require_Ok_inv in H;
      first [ apply N.ltb_lt in H | apply N.leb_le in H | apply N.eqb_eq in H
            | apply negb_true_iff in H | idtac ]
  | add _ _ = Ok ?v =>
      let E := fresh "E" in apply add_Ok_inv in H as [E H]; try subst v
  | sub _ _ = Ok ?v =>
      let E := fresh "E" in apply sub_Ok_inv in H as [E H]; try subst v
  | mul _ _ = Ok ?v =>
      let E := fresh "E" in apply mul_Ok_inv in H as [E H]; try subst v
  | div _ _ = Ok ?v =>
      let E := fresh "E" in apply div_Ok_inv in H as [E H]; try subst v
  | _ => idtac
  end.

Ltac inv_ok H :=
  cbv beta zeta in H;
  lazymatch type of H with
  | mbind _ _ = Ok _ =>
      let a := fresh "v" in
      let Ha := fresh "Hv" in
      apply bind_Ok_inv in H as (a & Ha & H);
      inv_atom Ha; inv_ok H
  | _ => inv_atom H
  end.

(** [bind_cases] proves an equation between two monadic runs that perform
    the same steps by running them side by side. *)
Ltac bind_cases :=
  repeat (cbv beta zeta; cbn [mbind result_bind];
          lazymatch goal with
          | |- mbind _ ?c = _ => destruct c
          | |- _ => idtac
          end);
  try reflexivity.


(** ** The ledger's transfer gate and minter binding *)

Section Ledger.
Import LaunchToken.

Lemma ERC20_update_transfer_ok (from to : address) (amount : uint256)
  (t : state) :
  from <> 0 -> to <> 0 -> amount <= balanceOf t from ->
  exists t', ERC20_update from to amount t = Ok t'.
Proof.
  intros Hf Ht Hb. unfold ERC20_update.
  apply N.eqb_neq in Hf as ->. apply N.eqb_neq in Ht as ->.
  assert ((balanceOf t from <? amount) = false) as -> by (apply N.ltb_ge; lia).
  cbn. eauto.
Qed.

Lemma ERC20_update_transfer_short (from to : address) (amount : uint256)
  (t : state) :
  from <> 0 -> balanceOf t from < amount ->
  ERC20_update from to amount t =
    Revert (ERC20InsufficientBalance from (balanceOf t from) amount).
Proof.
  intros Hf Hb. unfold ERC20_update.
  apply N.eqb_neq in Hf as ->.
  assert ((balanceOf t from <? amount) = true) as -> by (apply N.ltb_lt; lia).
  reflexivity.
Qed.

(** The inherited update never blames the trading flag. *)
Lemma ERC20_update_not_gate (from to : address) (amount : uint256)
  (t : state) (s : string) :
  ERC20_update from to amount t <> Revert (Error s).
Proof.
  unfold ERC20_update, add.
  destruct (from =? 0).
  - destruct (_ <=? _); cbn; [destruct (to =? 0)|]; discriminate.
  - destruct (_ <? _); cbn; [|destruct (to =? 0)]; discriminate.
Qed.

(** C9. A transfer between two non-zero accounts passes the gate of
    [_update] (it is handed to the inherited update unchanged) whenever the
    sender or the recipient is the minter, whatever [tradingEnabled] says;
    between two other accounts it passes exactly when [tradingEnabled] is
    true and reverts with "Trading not enabled" when it is false, so that a
    transfer the sender can afford succeeds if and only if trading is
    enabled.  Mints and burns (one endpoint zero) always pass. *)
Theorem transfer_gate (t : state) (from to : address) (amount : uint256) :
  from <> 0 -> to <> 0 ->
  ((from = minter t \/ to = minter t) ->
     _update from to amount t = ERC20_update from to amount t /\
     (amount <= balanceOf t from ->
      exists t', _update from to amount t = Ok t')) /\
  (from <> minter t -> to <> minter t ->
     (tradingEnabled t = false ->
      _update from to amount t = Revert (Error "Trading not enabled")) /\
     (tradingEnabled t = true ->
      _update from to amount t = ERC20_update from to amount t) /\
     (_update from to amount t <> Revert (Error "Trading not enabled") <->
      tradingEnabled t = true) /\
     (amount <= balanceOf t from ->
      ((exists t', _update from to amount t = Ok t') <->
       tradingEnabled t = true))) /\
  (forall (a : address) (v : uint256),
     _update 0 a v t = ERC20_update 0 a v t /\
     _update a 0 v t = ERC20_update a 0 v t).
Proof.
  intros Hf Ht.
  assert (Hf0 : (from =? 0) = false) by now apply N.eqb_neq.
  assert (Ht0 : (to =? 0) = false) by now apply N.eqb_neq.
  split; [|split].
  - intros Hm.
    assert (E : _update from to amount t = ERC20_update from to amount t).
    { unfold _update. rewrite Hf0, Ht0. cbn.
      assert (((from =? minter t) || (to =? minter t)) = true) as ->; [|reflexivity].
      destruct Hm as [->| ->]; rewrite N.eqb_refl; [reflexivity|].
      now rewrite orb_true_r. }
    split; [exact E|]. intros Hb. rewrite E.
    now apply ERC20_update_transfer_ok.
  - intros Hfm Htm.
    assert (Hfm' : (from =? minter t) = false) by now apply N.eqb_neq.
    assert (Htm' : (to =? minter t) = false) by now apply N.eqb_neq.
    assert (Eoff : tradingEnabled t = false ->
              _update from to amount t = Revert (Error "Trading not enabled")).
    { intros E. unfold _update. rewrite Hf0, Ht0, Hfm', Htm', E. reflexivity. }
    assert (Eon : tradingEnabled t = true ->
              _update from to amount t = ERC20_update from to amount t).
    { intros E. unfold _update. rewrite Hf0, Ht0, Hfm', Htm', E. reflexivity. }
    repeat split; try assumption.
    + intros Hne. destruct (tradingEnabled t) eqn:E; [reflexivity|].
      exfalso. apply Hne. now apply Eoff.
    + intros E. rewrite (Eon E). apply ERC20_update_not_gate.
    + intros [t' Hok]. destruct (tradingEnabled t) eqn:E; [reflexivity|].
      rewrite (Eoff eq_refl) in Hok. discriminate.
    + intros E. rewrite (Eon E). now apply ERC20_update_transfer_ok.
  - intros a v. split; unfold _update.
    + reflexivity.
    + rewrite N.eqb_refl, orb_true_r. reflexivity.
Qed.

(** C10. [setMinter] reads no caller: whoever calls it, it succeeds exactly
    when the current minter is the zero address, then installing the given
    address, and reverts with "Minter already set" otherwise. *)
Theorem setMinter_unguarded_once (sender _minter : address) (t : state) :
  (minter t = 0 ->
     setMinter sender _minter t = Ok (set_minter _minter t) /\
     minter (set_minter _minter t) = _minter) /\
  (minter t <> 0 ->
     setMinter sender _minter t = Revert (Error "Minter already set")) /\
  ((exists t', setMinter sender _minter t = Ok t') <-> minter t = 0) /\
  (forall other : address,
     setMinter other _minter t = setMinter sender _minter t).
Proof.
  unfold setMinter. repeat split.
  - now rewrite H.
  - intros H. apply N.eqb_neq in H as ->. reflexivity.
  - intros [t' H]. destruct (minter t =? 0) eqn:E; [now apply N.eqb_eq|discriminate].
  - intros ->. cbn. eauto.
Qed.

End Ledger.


(** ** The anti-dump fee *)

Section SellFee.
Import BondingCurve Derived.

Variable cfg : config.
Hypothesis launch_fits : launchTime cfg + ANTI_DUMP_DURATION <= MAX_UINT256.

Lemma getCurrentSellFee_elapsed (elapsed : N) :
  getCurrentSellFee cfg (launchTime cfg + elapsed) = Ok (decayed_fee elapsed).
Proof.
  unfold getCurrentSellFee, decayed_fee.
  rewrite (add_Ok _ _ launch_fits). cbn [mbind result_bind].
  destruct (ANTI_DUMP_DURATION <=? elapsed) eqn:E.
  - apply N.leb_le in E.
    assert ((launchTime cfg + ANTI_DUMP_DURATION <=? launchTime cfg + elapsed) = true)
      as -> by (apply N.leb_le; lia).
    reflexivity.
  - apply N.leb_gt in E.
    assert ((launchTime cfg + ANTI_DUMP_DURATION <=? launchTime cfg + elapsed) = false)
      as -> by (apply N.leb_gt; lia).
    rewrite (sub_Ok (launchTime cfg + elapsed)) by lia.
    cbn [mbind result_bind].
    replace (launchTime cfg + elapsed - launchTime cfg) with elapsed by lia.
    unfold ANTI_DUMP_DURATION, INITIAL_SELL_FEE, FINAL_SELL_FEE in *.
    rewrite (sub_Ok 2000 100) by lia. cbn [mbind result_bind].
    change (2000 - 100) with 1900.
    rewrite (mul_Ok 1900 elapsed) by (unfold MAX_UINT256; cbn; lia).
    cbn [mbind result_bind].
    rewrite (div_Ok _ 900) by lia. cbn [mbind result_bind].
    apply sub_Ok.
    apply N.Div0.div_le_upper_bound. lia.
Qed.

Lemma decayed_fee_bounds (elapsed : N) :
  FINAL_SELL_FEE <= decayed_fee elapsed <= INITIAL_SELL_FEE.
Proof.
  unfold decayed_fee, ANTI_DUMP_DURATION, INITIAL_SELL_FEE, FINAL_SELL_FEE.
  destruct (900 <=? elapsed) eqn:E; [lia|]. apply N.leb_gt in E.
  change (2000 - 100) with 1900.
  assert (1900 * elapsed / 900 <= 1900).
  { apply N.Div0.div_le_upper_bound. lia. }
  pose proof (N.Div0.mul_div_le (1900 * elapsed) 900).
  generalize dependent (1900 * elapsed / 900). intros q ? ?. lia.
Qed.

Lemma decayed_fee_mono (e1 e2 : N) :
  e1 <= e2 -> decayed_fee e2 <= decayed_fee e1.
Proof.
  intros Hle. pose proof (decayed_fee_bounds e1) as [H1 _].
  unfold decayed_fee in *.
  unfold ANTI_DUMP_DURATION, INITIAL_SELL_FEE, FINAL_SELL_FEE in *.
  destruct (900 <=? e2) eqn:E2; [exact H1|]. apply N.leb_gt in E2.
  assert ((900 <=? e1) = false) as -> by (apply N.leb_gt; lia).
  change (2000 - 100) with 1900.
  assert (1900 * e1 / 900 <= 1900 * e2 / 900).
  { apply N.Div0.div_le_mono. lia. }
  generalize dependent (1900 * e1 / 900).
  generalize dependent (1900 * e2 / 900). intros. lia.
Qed.

(** C6. While the clock is at or after launch, [getCurrentSellFee] returns
    a fee that depends on the elapsed time alone; the fee never increases
    as time passes; it starts at [INITIAL_SELL_FEE], follows the line from
    [INITIAL_SELL_FEE] to [FINAL_SELL_FEE] over [ANTI_DUMP_DURATION]
    (rounded by the integer division, never below [FINAL_SELL_FEE]), and is
    [FINAL_SELL_FEE] from [ANTI_DUMP_DURATION] on. *)
Theorem sell_fee_decay :
  (forall now : uint256, launchTime cfg <= now ->
     getCurrentSellFee cfg now = Ok (decayed_fee (now - launchTime cfg))) /\
  (forall (t1 t2 f1 f2 : uint256),
     launchTime cfg <= t1 -> t1 <= t2 ->
     getCurrentSellFee cfg t1 = Ok f1 -> getCurrentSellFee cfg t2 = Ok f2 ->
     f2 <= f1) /\
  getCurrentSellFee cfg (launchTime cfg) = Ok INITIAL_SELL_FEE /\
  (forall (now fee : uint256),
     launchTime cfg <= now -> now - launchTime cfg < ANTI_DUMP_DURATION ->
     getCurrentSellFee cfg now = Ok fee ->
     FINAL_SELL_FEE <= fee <= INITIAL_SELL_FEE /\
     ANTI_DUMP_DURATION * (INITIAL_SELL_FEE - fee)
       <= (INITIAL_SELL_FEE - FINAL_SELL_FEE) * (now - launchTime cfg)
       < ANTI_DUMP_DURATION * (INITIAL_SELL_FEE - fee + 1)) /\
  (forall now : uint256,
     launchTime cfg <= now -> ANTI_DUMP_DURATION <= now - launchTime cfg ->
     getCurrentSellFee cfg now = Ok FINAL_SELL_FEE).
Proof.
  assert (Hel : forall now, launchTime cfg <= now ->
            getCurrentSellFee cfg now = Ok (decayed_fee (now - launchTime cfg))).
  { intros now Hn. rewrite <- getCurrentSellFee_elapsed. f_equal. lia. }
  split; [exact Hel|]. split; [|split; [|split]].
  - intros t1 t2 f1 f2 H1 H12 E1 E2.
    rewrite Hel in E1 by lia. rewrite Hel in E2 by lia.
    injection E1 as <-. injection E2 as <-.
    apply decayed_fee_mono. lia.
  - rewrite Hel by lia. rewrite N.sub_diag. reflexivity.
  - intros now fee Hn Hlt E. rewrite Hel in E by lia. injection E as <-.
    split; [apply decayed_fee_bounds|].
    pose proof (decayed_fee_bounds (now - launchTime cfg)) as [Hlo Hhi].
    unfold decayed_fee in *. set (el := now - launchTime cfg) in *.
    unfold ANTI_DUMP_DURATION, INITIAL_SELL_FEE, FINAL_SELL_FEE in *.
    assert ((900 <=? el) = false) as E by (apply N.leb_gt; lia).
    rewrite E in *. change (2000 - 100) with 1900 in *.
    pose proof (N.Div0.mul_div_le (1900 * el) 900).
    pose proof (N.mul_succ_div_gt (1900 * el) 900 ltac:(lia)).
    assert (1900 * el / 900 <= 1900) by (apply N.Div0.div_le_upper_bound; lia).
    generalize dependent (1900 * el / 900). intros. lia.
  - intros now Hn Hge. rewrite Hel by lia. unfold decayed_fee.
    now apply N.leb_le in Hge as ->.
Qed.

End SellFee.


(** ** The curve engine, step by step *)

Section CurveSteps.
Import BondingCurve Derived.

Lemma transfer_native_inv (e : env) (a b : address) (v : uint256)
  (w w' : world) :
  transfer_native e a b v w = Ok w' ->
  curve w' = curve w /\ token w' = token w /\ log w' = log w /\
  v <= balance w a /\ accepts e b = true.
Proof.
  unfold transfer_native.
  destruct (balance w a <? v) eqn:Hb; [discriminate|].
  destruct (accepts e b) eqn:Ha; [|discriminate].
  cbn. intros [= <-]. apply N.ltb_ge in Hb. now repeat split.
Qed.

Lemma receive_value_inv (cfg : config) (e : env) (w w' : world) :
  receive_value cfg e w = Ok w' ->
  curve w' = curve w /\ token w' = token w /\ log w' = log w.
Proof.
  unfold receive_value. destruct (_ <? _); [discriminate|].
  intros [= <-]. now repeat split.
Qed.

(** [_buyTokensFor] is the purchase followed by the graduation check. *)
Lemma _buyTokensFor_split (cfg : config) (e : env) (recipient : address)
  (minTokensOut : uint256) (w : world) :
  _buyTokensFor cfg e recipient minTokensOut w =
    (w1 ← buy_effects cfg e recipient minTokensOut w;
     if GRADUATION_THRESHOLD <=? FAIRRaised (curve w1) then
       _executeGraduation cfg e w1
     else Ok w1).
Proof. unfold _buyTokensFor, buy_effects. bind_cases. Qed.

Lemma transfer_native_balance (e : env) (a b : address) (v : uint256)
  (w w' : world) (c : address) :
  transfer_native e a b v w = Ok w' ->
  balance w' c =
    if decide (c = b) then
      (if decide (b = a) then balance w a - v else balance w b) + v
    else if decide (c = a) then balance w a - v
    else balance w c.
Proof.
  unfold transfer_native.
  destruct (balance w a <? v) eqn:Hb; [discriminate|].
  destruct (accepts e b) eqn:Ha; [|discriminate].
  cbn. intros [= <-]. unfold balance, with_native. cbn.
  destruct (decide (c = b)) as [->|Hcb].
  - rewrite lookup_insert_eq. cbn.
    destruct (decide (b = a)) as [->|Hba].
    + rewrite lookup_insert_eq. reflexivity.
    + rewrite lookup_insert_ne by congruence. reflexivity.
  - rewrite lookup_insert_ne by congruence.
    destruct (decide (c = a)) as [->|Hca].
    + rewrite lookup_insert_eq. reflexivity.
    + rewrite lookup_insert_ne by congruence. reflexivity.
Qed.

Lemma buy_effects_inv (cfg : config) (e : env) (recipient : address)
  (minTokensOut : uint256) (w w1 : world) :
  buy_effects cfg e recipient minTokensOut w = Ok w1 ->
  exists platformFee buyAmount tokensOut newPrice : uint256,
    purchased cfg e recipient minTokensOut w w1
      platformFee buyAmount tokensOut newPrice.
Proof.
  intros H. unfold buy_effects in H. inv_ok H.
  injection H as <-.
  match goal with
  | Ht : (if _ then transfer_native _ _ _ _ ?wm else Ok ?wm) = Ok ?w' |- _ =>
      assert (Hw : curve w' = curve wm /\ token w' = token wm
                   /\ log w' = log wm)
        by (destruct (0 <? _) in Ht;
            [ apply transfer_native_inv in Ht as (? & ? & ? & _);
              now repeat split
            | injection Ht as <-; now repeat split ]);
      destruct Hw as (Hc & Ht' & Hl)
  end.
  match goal with
  | Hout : _calculateTokensOut _ _ = Ok ?t,
    Hp : getCurrentPrice _ = Ok ?p,
    Hm : getMarketCap _ = Ok ?m |- _ =>
      exists (msg_value e * platformFeePercent cfg / 10000),
        (msg_value e - msg_value e * platformFeePercent cfg / 10000), t, p;
      constructor; cbn in *; try assumption; try reflexivity;
      [ rewrite Ht'; assumption
      | exists m; rewrite Hl; split; [assumption | reflexivity] ]
  end.
Qed.

End CurveSteps.


(** ** Ledger operations the curve relies on *)

Section LedgerSteps.
Import LaunchToken.

Lemma wrap_add_small (a b : uint256) :
  a + b <= MAX_UINT256 -> wrap_add a b = a + b.
Proof.
  intros H. unfold wrap_add. apply N.mod_small.
  unfold MAX_UINT256 in H. assert (0 < 2 ^ 256) by reflexivity. lia.
Qed.

Lemma balanceOf_set_balance (t : state) (a b : address) (v : uint256) :
  balanceOf (set_balance a v t) b =
    if decide (b = a) then v else balanceOf t b.
Proof.
  unfold balanceOf, set_balance. cbn.
  destruct (decide (b = a)) as [->|Hne].
  - now rewrite lookup_insert_eq.
  - now rewrite lookup_insert_ne by congruence.
Qed.

Lemma mint_inv (sender to : address) (v : uint256) (t t' : state) :
  mint sender to v t = Ok t' ->
  sender = minter t /\ to <> 0 /\ _totalSupply t + v <= MAX_UINT256 /\
  t' = set_balance to (wrap_add (balanceOf t to) v)
         (set_totalSupply (_totalSupply t + v) t).
Proof.
  unfold mint, onlyMinter, _mint, _update, ERC20_update. intros H.
  inv_ok H. destruct (to =? 0) eqn:Hto; [discriminate|].
  cbn in H. inv_ok H. injection H as <-.
  apply N.eqb_neq in Hto.
  match goal with Hs : mbind _ _ = Ok _ |- _ => inv_ok Hs; injection Hs as <- end.
  now repeat split.
Qed.

Lemma mint_Ok (sender to : address) (v : uint256) (t : state) :
  sender = minter t -> to <> 0 -> _totalSupply t + v <= MAX_UINT256 ->
  mint sender to v t =
    Ok (set_balance to (wrap_add (balanceOf t to) v)
          (set_totalSupply (_totalSupply t + v) t)).
Proof.
  intros -> Hto Hfit. unfold mint, onlyMinter, _mint, _update, ERC20_update.
  rewrite (N.eqb_refl (minter t)). cbn. apply N.eqb_neq in Hto as ->. cbn.
  rewrite add_Ok by assumption. reflexivity.
Qed.

Lemma enableTrading_Ok (sender : address) (t : state) :
  sender = minter t ->
  enableTrading sender t = Ok (set_tradingEnabled true t).
Proof.
  intros ->. unfold enableTrading, onlyMinter. now rewrite N.eqb_refl.
Qed.

Lemma approve_Ok (sender spender : address) (v : uint256) (t : state) :
  sender <> 0 -> spender <> 0 ->
  approve sender spender v t = Ok (set_allowance sender spender v t).
Proof.
  intros H1 H2. unfold approve, _approve.
  apply N.eqb_neq in H1 as ->. now apply N.eqb_neq in H2 as ->.
Qed.

End LedgerSteps.

(** ** Graduation and sale, step by step *)

Section GraduationSteps.
Import BondingCurve Derived.

(** Graduation, whatever the router does, leaves [tokensSold] and the
    router address alone. *)
Lemma _executeGraduation_tokensSold (cfg : config) (e : env) (w w' : world) :
  _executeGraduation cfg e w = Ok w' ->
  tokensSold (curve w') = tokensSold (curve w).
Proof.
  intros H. unfold _executeGraduation in H. inv_ok H.
  match type of H with
  | match ?v with _ => _ end = _ => destruct v
  end.
  - injection H as <-. reflexivity.
  - inv_ok H. injection H as <-. cbn.
    match goal with
    | Ht : (if _ then transfer_native _ _ _ _ ?wm else Ok ?wm) = Ok ?w' |- _ =>
        destruct (0 <? _) in Ht;
        [ apply transfer_native_inv in Ht as (-> & _); reflexivity
        | injection Ht as <-; reflexivity ]
    end.
Qed.

Lemma set_graduated_undo (c : storage) :
  graduated c = false -> set_graduated false (set_graduated true c) = c.
Proof. destruct c; cbn. now intros ->. Qed.

(** The roll-back path: when the router call fails, graduation returns the
    world with the curve storage as it found it; what stays behind is the
    ledger's trading flag, the minted liquidity allocation and its
    approval. *)
Lemma _executeGraduation_rollback (cfg : config) (e : env) (w : world) :
  graduated (curve w) = false ->
  GRADUATION_THRESHOLD <= FAIRRaised (curve w) ->
  LaunchToken.minter (token w) = this cfg ->
  this cfg <> 0 ->
  traderJoeRouter (curve w) <> 0 ->
  LaunchToken._totalSupply (token w) + LIQUIDITY_TOKENS <= MAX_UINT256 ->
  block_timestamp e + 300 <= MAX_UINT256 ->
  addLiquidityFAIR e = VenueReverts \/ balance w (this cfg) < LIQUIDITY_FAIR ->
  _executeGraduation cfg e w =
    Ok (with_token
          (LaunchToken.set_allowance (this cfg) (traderJoeRouter (curve w))
             LIQUIDITY_TOKENS
             (LaunchToken.set_balance (this cfg)
                (wrap_add (LaunchToken.balanceOf (token w) (this cfg))
                   LIQUIDITY_TOKENS)
                (LaunchToken.set_totalSupply
                   (LaunchToken._totalSupply (token w) + LIQUIDITY_TOKENS)
                   (LaunchToken.set_tradingEnabled true (token w)))))
          w).
Proof.
  intros Hg Hth Hm Hthis Hr Hsup Hts Hv.
  unfold _executeGraduation. rewrite Hg. cbn [negb].
  rewrite require_true. cbn [mbind result_bind].
  apply N.leb_le in Hth as Hth'. rewrite Hth', require_true.
  cbn [mbind result_bind]. cbv zeta.
  cbn [token with_curve with_token curve].
  rewrite enableTrading_Ok by congruence. cbn [mbind result_bind].
  cbn [FAIRRaised set_graduated].
  rewrite (sub_Ok (FAIRRaised (curve w)))
    by (unfold GRADUATION_THRESHOLD, LIQUIDITY_FAIR in *; lia).
  cbn [mbind result_bind].
  rewrite mint_Ok by (cbn; congruence). cbn [mbind result_bind].
  cbn [traderJoeRouter].
  rewrite approve_Ok by assumption. cbn [mbind result_bind].
  rewrite (mul_Ok LIQUIDITY_TOKENS 95) by (vm_compute; discriminate).
  cbn [mbind result_bind]. rewrite (div_Ok _ 100) by lia.
  cbn [mbind result_bind].
  rewrite (mul_Ok LIQUIDITY_FAIR 95) by (vm_compute; discriminate).
  cbn [mbind result_bind]. rewrite (div_Ok _ 100) by lia.
  cbn [mbind result_bind]. rewrite (add_Ok (block_timestamp e)) by assumption.
  cbn [mbind result_bind].
  match goal with
  | |- context [balance ?ww (this cfg) <? LIQUIDITY_FAIR] =>
      change (balance ww (this cfg)) with (balance w (this cfg))
  end.
  assert ((if balance w (this cfg) <? LIQUIDITY_FAIR then VenueReverts
           else addLiquidityFAIR e) = VenueReverts) as ->.
  { destruct Hv as [-> | Hlt]; [now destruct (_ <? _)|].
    now apply N.ltb_lt in Hlt as ->. }
  unfold with_curve, with_token. cbn.
  rewrite set_graduated_undo by assumption. reflexivity.
Qed.

End GraduationSteps.


(** ** A failed graduation does not cost the buyer the purchase *)

Section FailedGraduation.
Import BondingCurve Derived.

(** C7. Take a purchase that succeeds on its own ([buy_effects]) and lifts
    [FAIRRaised] to the graduation threshold, so that [_buyTokensFor] goes
    on to [_executeGraduation].  If the router call then fails (it reverts,
    or the contract cannot attach [LIQUIDITY_FAIR]), the whole buy still
    returns: [graduated] is false again, [tokensSold] and [FAIRRaised] hold
    their post-purchase values, the recipient holds the tokens minted for
    the purchase and the purchase events are in the log.  The same holds
    for the two entry points [buyTokens] and [buyTokensFor]. *)
Theorem failed_graduation_keeps_buy (cfg : config) (e : env)
  (recipient : address) (minTokensOut : uint256) (w w1 : world) :
  graduated (curve w) = false ->
  buy_effects cfg e recipient minTokensOut w = Ok w1 ->
  GRADUATION_THRESHOLD <= FAIRRaised (curve w1) ->
  this cfg <> 0 ->
  traderJoeRouter (curve w) <> 0 ->
  LaunchToken._totalSupply (token w1) + LIQUIDITY_TOKENS <= MAX_UINT256 ->
  LaunchToken.balanceOf (token w) recipient
    <= LaunchToken._totalSupply (token w) ->
  block_timestamp e + 300 <= MAX_UINT256 ->
  addLiquidityFAIR e = VenueReverts
    \/ balance w1 (this cfg) < LIQUIDITY_FAIR ->
  exists (w2 : world) (buyAmount tokensOut : uint256),
    _buyTokensFor cfg e recipient minTokensOut w = Ok w2 /\
    graduated (curve w2) = false /\
    buyAmount
      = msg_value e - msg_value e * platformFeePercent cfg / 10000 /\
    _calculateTokensOut (curve w) buyAmount = Ok tokensOut /\
    0 < tokensOut /\
    tokensSold (curve w2) = tokensSold (curve w) + tokensOut /\
    FAIRRaised (curve w2) = FAIRRaised (curve w) + buyAmount /\
    LaunchToken.balanceOf (token w2) recipient
      = LaunchToken.balanceOf (token w) recipient + tokensOut
        + (if decide (recipient = this cfg) then LIQUIDITY_TOKENS else 0) /\
    log w2 = log w1 /\
    In (TokensPurchased recipient buyAmount tokensOut
          match getCurrentPrice (curve w1) with
          | Ok p => p
          | Revert _ => 0
          end) (log w2) /\
    (forall w_pre : world,
       receive_value cfg e w_pre = Ok w ->
       (recipient = msg_sender e ->
        buyTokens cfg e minTokensOut w_pre = Ok w2) /\
       (msg_sender e = factory cfg ->
        buyTokensFor cfg e recipient minTokensOut w_pre = Ok w2)).
Proof.
  intros Hg Hbuy Hth Hthis Hr Hsup Hbal Hts Hv.
  destruct (buy_effects_inv _ _ _ _ _ _ Hbuy)
    as (platformFee & buyAmount & tokensOut & newPrice & P).
  destruct P. destruct p_log0 as (marketCap & Hmc & Hlog).
  apply mint_inv in p_mint0 as Hmint.
  destruct Hmint as (Hminter & Hrec & Hfit & Htok).
  assert (Hc1 : curve w1 =
            set_FAIRRaised (FAIRRaised (curve w) + buyAmount)
              (set_tokensSold (tokensSold (curve w) + tokensOut) (curve w)))
    by assumption.
  assert (Hgrad :
    _executeGraduation cfg e w1 =
      Ok (with_token
            (LaunchToken.set_allowance (this cfg) (traderJoeRouter (curve w1))
               LIQUIDITY_TOKENS
               (LaunchToken.set_balance (this cfg)
                  (wrap_add (LaunchToken.balanceOf (token w1) (this cfg))
                     LIQUIDITY_TOKENS)
                  (LaunchToken.set_totalSupply
                     (LaunchToken._totalSupply (token w1) + LIQUIDITY_TOKENS)
                     (LaunchToken.set_tradingEnabled true (token w1)))))
            w1)).
  { apply _executeGraduation_rollback; try assumption.
    - rewrite Hc1. exact Hg.
    - rewrite Htok. cbn. congruence.
    - rewrite Hc1. exact Hr. }
  assert (Hrun : _buyTokensFor cfg e recipient minTokensOut w = Ok
            (with_token
            (LaunchToken.set_allowance (this cfg) (traderJoeRouter (curve w1))
               LIQUIDITY_TOKENS
               (LaunchToken.set_balance (this cfg)
                  (wrap_add (LaunchToken.balanceOf (token w1) (this cfg))
                     LIQUIDITY_TOKENS)
                  (LaunchToken.set_totalSupply
                     (LaunchToken._totalSupply (token w1) + LIQUIDITY_TOKENS)
                     (LaunchToken.set_tradingEnabled true (token w1)))))
            w1)).
  { rewrite _buyTokensFor_split, Hbuy. cbn [mbind result_bind].
    apply N.leb_le in Hth as ->. exact Hgrad. }
  eexists _, buyAmount, tokensOut. split; [exact Hrun|].
  assert (Hb1 : LaunchToken.balanceOf (token w1) recipient
                = LaunchToken.balanceOf (token w) recipient + tokensOut).
  { rewrite Htok, balanceOf_set_balance.
    destruct (decide (recipient = recipient)); [|congruence].
    apply wrap_add_small. lia. }
  assert (Hts1 : LaunchToken._totalSupply (token w1)
                 = LaunchToken._totalSupply (token w) + tokensOut)
    by (rewrite Htok; reflexivity).
  cbn [with_token curve token log].
  split_and!.
  - rewrite Hc1. exact Hg.
  - rewrite p_net0, p_fee0. reflexivity.
  - assumption.
  - assumption.
  - rewrite Hc1. reflexivity.
  - rewrite Hc1. reflexivity.
  - change (LaunchToken.balanceOf (LaunchToken.set_allowance ?a ?b ?c ?t) ?x)
      with (LaunchToken.balanceOf t x).
    rewrite balanceOf_set_balance.
    destruct (decide (recipient = this cfg)) as [Heq|Hne].
    + rewrite <- Heq, Hb1. rewrite wrap_add_small; lia.
    + change (LaunchToken.balanceOf (LaunchToken.set_totalSupply ?a
                (LaunchToken.set_tradingEnabled ?b ?t)) ?x)
        with (LaunchToken.balanceOf t x).
      rewrite Hb1. lia.
  - reflexivity.
  - rewrite p_price0, Hlog. right. left. reflexivity.
  - intros w_pre Hrv. rewrite <- Hrun. split.
    + intros Hsame. unfold buyTokens. rewrite Hrv. cbn [mbind result_bind].
      unfold notGraduated. rewrite Hg, <- Hsame. reflexivity.
    + intros Hfac. unfold buyTokensFor. rewrite Hrv.
      cbn [mbind result_bind]. unfold notGraduated. rewrite Hg.
      cbn [negb]. rewrite require_true. cbn [mbind result_bind].
      rewrite Hfac, N.eqb_refl. reflexivity.
Qed.

End FailedGraduation.


(** ** Sales *)

Section SaleSteps.
Import BondingCurve Derived.

Lemma sellTokens_inv (cfg : config) (e : env)
  (tokenAmount minFAIROut : uint256) (w w' : world) :
  sellTokens cfg e tokenAmount minFAIROut w = Ok w' ->
  exists FAIROut sellFee feeAmount netFAIROut : uint256,
    sold_back cfg e tokenAmount minFAIROut w w'
      FAIROut sellFee feeAmount netFAIROut.
Proof.
  intros H. unfold sellTokens, notGraduated in H. inv_ok H.
  injection H as <-.
  match goal with
  | Hout : _calculateFAIROut _ _ = Ok ?out,
    Hfee : getCurrentSellFee _ _ = Ok ?fee |- _ =>
      exists out, fee, (out * fee / 10000), (out - out * fee / 10000)
  end.
  match goal with
  | Hpay : transfer_native _ _ (msg_sender e) _ ?wa = Ok ?wb,
    Hcut : (if _ then transfer_native _ _ _ _ ?wb else Ok ?wb) = Ok ?wc
    |- _ =>
      pose proof (transfer_native_inv _ _ _ _ _ _ Hpay)
        as (Hcb & Htb & Hlb & _);
      pose proof (transfer_native_balance _ _ _ _ _ _ (msg_sender e) Hpay)
        as Hbb;
      assert (Hwc : curve wc = curve wb /\ token wc = token wb
                    /\ log wc = log wb
                    /\ (msg_sender e <> this cfg ->
                        msg_sender e <> treasury cfg ->
                        balance wc (msg_sender e) = balance wb (msg_sender e)))
        by (destruct (0 <? _) in Hcut;
            [ pose proof (transfer_native_balance _ _ _ _ _ _
                            (msg_sender e) Hcut) as Hbc;
              apply transfer_native_inv in Hcut as (? & ? & ? & _);
              split_and!; try assumption; intros;
              rewrite Hbc; repeat (destruct (decide _); try congruence)
            | injection Hcut as <-; now split_and! ]);
      destruct Hwc as (Hcc & Htc & Hlc & Hbc)
  end.
  constructor; cbn [curve token log emit with_curve with_token] in *;
    try assumption; try reflexivity.
  - rewrite Hcc, Hcb. reflexivity.
  - rewrite Htc, Htb. assumption.
  - intros Hn1 Hn2.
    change (balance (emit ?a (emit ?b ?x)) ?y) with (balance x y).
    rewrite (Hbc Hn1 Hn2), Hbb.
    destruct (decide (msg_sender e = msg_sender e)); [|congruence].
    destruct (decide (msg_sender e = this cfg)); [congruence|].
    reflexivity.
  - do 2 eexists. rewrite Hlc, Hlb. reflexivity.
Qed.

End SaleSteps.


(** ** The supply cap *)

Section SupplyCap.
Import BondingCurve Derived Chain.

Lemma _calculateTokensOut_inv (c : storage) (amount out : uint256) :
  _calculateTokensOut c amount = Ok out ->
  let R := VIRTUAL_FAIR_RESERVES + FAIRRaised c in
  let T := VIRTUAL_TOKEN_RESERVES - tokensSold c in
  R + amount <= MAX_UINT256 /\ R * T <= MAX_UINT256 /\
  tokensSold c <= GRADUATION_SUPPLY /\
  out = N.min (T - R * T / (R + amount)) (GRADUATION_SUPPLY - tokensSold c).
Proof.
  intros H. unfold _calculateTokensOut in H. inv_ok H. injection H as <-.
  cbv zeta. split_and!; try assumption.
  destruct (_ <? _) eqn:E.
  - apply N.ltb_lt in E. symmetry. apply N.min_r. lia.
  - apply N.ltb_ge in E. symmetry. apply N.min_l. lia.
Qed.

Lemma _calculateTokensOut_Ok (c : storage) (amount : uint256) :
  let R := VIRTUAL_FAIR_RESERVES + FAIRRaised c in
  let T := VIRTUAL_TOKEN_RESERVES - tokensSold c in
  R + amount <= MAX_UINT256 -> R * T <= MAX_UINT256 ->
  tokensSold c <= GRADUATION_SUPPLY ->
  _calculateTokensOut c amount =
    Ok (N.min (T - R * T / (R + amount)) (GRADUATION_SUPPLY - tokensSold c)).
Proof.
  cbv zeta. intros HR Hk Hs. unfold _calculateTokensOut.
  rewrite (add_Ok VIRTUAL_FAIR_RESERVES) by lia. cbn [mbind result_bind].
  rewrite (sub_Ok VIRTUAL_TOKEN_RESERVES)
    by (unfold VIRTUAL_TOKEN_RESERVES, GRADUATION_SUPPLY in *; lia).
  cbn [mbind result_bind].
  rewrite (add_Ok (VIRTUAL_FAIR_RESERVES + FAIRRaised c)) by assumption.
  cbn [mbind result_bind].
  rewrite mul_Ok by assumption. cbn [mbind result_bind].
  rewrite div_Ok by (unfold VIRTUAL_FAIR_RESERVES; lia).
  cbn [mbind result_bind].
  rewrite (sub_Ok (VIRTUAL_TOKEN_RESERVES - tokensSold c)).
  2:{ apply N.Div0.div_le_upper_bound. apply N.mul_le_mono_r. lia. }
  cbn [mbind result_bind].
  rewrite (sub_Ok GRADUATION_SUPPLY) by assumption. cbn [mbind result_bind].
  f_equal.
  destruct (_ <? _) eqn:E.
  - apply N.ltb_lt in E. symmetry. apply N.min_r. lia.
  - apply N.ltb_ge in E. symmetry. apply N.min_l. lia.
Qed.

Lemma _buyTokensFor_cap (cfg : config) (e : env) (recipient : address)
  (minTokensOut : uint256) (w w' : world) :
  _buyTokensFor cfg e recipient minTokensOut w = Ok w' ->
  tokensSold (curve w) < tokensSold (curve w') <= GRADUATION_SUPPLY.
Proof.
  rewrite _buyTokensFor_split. intros H.
  apply bind_Ok_inv in H as (w1 & Hbuy & H).
  apply buy_effects_inv in Hbuy as (pf & b & out & p & P). destruct P.
  assert (Hs : tokensSold (curve w1) = tokensSold (curve w) + out)
    by (rewrite p_curve0; reflexivity).
  destruct (_ <=? _) in H.
  - apply _executeGraduation_tokensSold in H. lia.
  - injection H as <-. lia.
Qed.

Lemma on_token_curve (f : LaunchToken.state -> result LaunchToken.state)
  (w w' : world) :
  on_token f w = Ok w' -> curve w' = curve w.
Proof.
  unfold on_token. intros H. inv_ok H. now injection H as <-.
Qed.

(** Every transaction keeps [tokensSold] under the cap. *)
Lemma exec_cap (cfg : config) (e : env) (c : call) (w w' : world) :
  exec cfg e c w = Ok w' ->
  tokensSold (curve w) <= GRADUATION_SUPPLY ->
  tokensSold (curve w') <= GRADUATION_SUPPLY.
Proof.
  intros H Hinv.
  destruct c; cbn [exec] in H;
    try (apply on_token_curve in H; rewrite H; exact Hinv).
  - unfold buyTokens in H. inv_ok H.
    apply _buyTokensFor_cap in H. lia.
  - unfold buyTokensFor in H. inv_ok H.
    apply _buyTokensFor_cap in H. lia.
  - apply sellTokens_inv in H as (? & ? & ? & ? & S). destruct S.
    rewrite s_curve0. cbn. lia.
  - unfold setTraderJoeRouter in H. inv_ok H. now injection H as <-.
  - unfold emergencyWithdraw in H. inv_ok H.
    apply transfer_native_inv in H as (-> & _). exact Hinv.
  - unfold forceGraduation in H. inv_ok H.
    apply _executeGraduation_tokensSold in H. now rewrite H.
Qed.

Lemma run_cap (cfg : config) (e : env) (c : call) (w : world) :
  tokensSold (curve w) <= GRADUATION_SUPPLY ->
  tokensSold (curve (run cfg e c w)) <= GRADUATION_SUPPLY.
Proof.
  intros Hinv. unfold run. destruct (exec cfg e c w) eqn:E; [|exact Hinv].
  eapply exec_cap; eassumption.
Qed.

Lemma run_all_cap (cfg : config) (tr : list (env * call)) (w : world) :
  tokensSold (curve w) <= GRADUATION_SUPPLY ->
  tokensSold (curve (run_all cfg tr w)) <= GRADUATION_SUPPLY.
Proof.
  revert w. induction tr as [|[e c] tr IH]; intros w Hinv; cbn.
  - exact Hinv.
  - apply IH. now apply run_cap.
Qed.

(** C1. [_calculateTokensOut] clamps its result to
    [GRADUATION_SUPPLY - tokensSold]; a successful [buyTokens] or
    [buyTokensFor] ends with [tokensSold <= GRADUATION_SUPPLY]; and in every
    world reached from a fresh deployment by any sequence of transactions
    (buys with any inputs, and every other call) [tokensSold] is at most
    [GRADUATION_SUPPLY]. *)
Theorem tokensSold_never_exceeds_cap :
  (forall (c : storage) (amount out : uint256),
     _calculateTokensOut c amount = Ok out ->
     out <= GRADUATION_SUPPLY - tokensSold c /\
     out = N.min
             (VIRTUAL_TOKEN_RESERVES - tokensSold c
              - (VIRTUAL_FAIR_RESERVES + FAIRRaised c)
                * (VIRTUAL_TOKEN_RESERVES - tokensSold c)
                / (VIRTUAL_FAIR_RESERVES + FAIRRaised c + amount))
             (GRADUATION_SUPPLY - tokensSold c)) /\
  (forall (cfg : config) (e : env) (m : uint256) (w w' : world),
     buyTokens cfg e m w = Ok w' ->
     tokensSold (curve w') <= GRADUATION_SUPPLY) /\
  (forall (cfg : config) (e : env) (r : address) (m : uint256)
          (w w' : world),
     buyTokensFor cfg e r m w = Ok w' ->
     tokensSold (curve w') <= GRADUATION_SUPPLY) /\
  (forall (cfg : config) (chainId : N) (_creator : address)
          (funds : gmap address uint256) (tr : list (env * call)),
     tokensSold (curve (run_all cfg tr (deploy cfg chainId _creator funds)))
     <= GRADUATION_SUPPLY).
Proof.
  split_and!.
  - intros c amount out H. apply _calculateTokensOut_inv in H.
    cbv zeta in H. destruct H as (_ & _ & _ & ->). split; [|reflexivity].
    apply N.le_min_r.
  - intros cfg e m w w' H. unfold buyTokens in H. inv_ok H.
    now apply _buyTokensFor_cap in H.
  - intros cfg e r m w w' H. unfold buyTokensFor in H. inv_ok H.
    now apply _buyTokensFor_cap in H.
  - intros. apply run_all_cap. cbn. unfold GRADUATION_SUPPLY. lia.
Qed.

(** C8, as the code has it. When more tokens are offered than the curve has
    sold, [sellTokens] on a curve that has not graduated reverts with
    "Insufficient supply sold"; on a graduated curve the [notGraduated]
    modifier runs first and the revert is "Token graduated".  Either way the
    transaction leaves the world exactly as it was. *)
Theorem sell_beyond_supply_rejected (cfg : config) (e : env)
  (tokenAmount minFAIROut : uint256) (w : world) :
  tokensSold (curve w) < tokenAmount ->
  (graduated (curve w) = false ->
     sellTokens cfg e tokenAmount minFAIROut w
     = Revert (Error "Insufficient supply sold")) /\
  (graduated (curve w) = true ->
     sellTokens cfg e tokenAmount minFAIROut w
     = Revert (Error "Token graduated")) /\
  run cfg e (SellTokens tokenAmount minFAIROut) w = w.
Proof.
  intros Hlt.
  assert (Hoff : graduated (curve w) = false ->
            sellTokens cfg e tokenAmount minFAIROut w
            = Revert (Error "Insufficient supply sold")).
  { intros Hg. unfold sellTokens, notGraduated. rewrite Hg. cbn.
    assert ((0 <? tokenAmount) = true) as -> by (apply N.ltb_lt; lia).
    cbn.
    assert ((tokenAmount <=? tokensSold (curve w)) = false) as ->
      by (apply N.leb_gt; lia).
    reflexivity. }
  assert (Hon : graduated (curve w) = true ->
            sellTokens cfg e tokenAmount minFAIROut w
            = Revert (Error "Token graduated")).
  { intros Hg. unfold sellTokens, notGraduated. rewrite Hg. reflexivity. }
  split_and!; try assumption.
  unfold run. cbn [exec].
  destruct (graduated (curve w)); [rewrite Hon | rewrite Hoff]; reflexivity.
Qed.

End SupplyCap.


(** ** Previews against the real paths *)

Section Previews.
Import BondingCurve Derived.

Lemma getCurrentPrice_inv (c : storage) (p : uint256) :
  getCurrentPrice c = Ok p ->
  (VIRTUAL_FAIR_RESERVES + FAIRRaised c) * 10 ^ 18 <= MAX_UINT256 /\
  tokensSold c < VIRTUAL_TOKEN_RESERVES /\
  p = (VIRTUAL_FAIR_RESERVES + FAIRRaised c) * 10 ^ 18
      / (VIRTUAL_TOKEN_RESERVES - tokensSold c).
Proof.
  intros H. unfold getCurrentPrice in H. inv_ok H.
  split_and!; try assumption; try reflexivity. lia.
Qed.

Lemma getCurrentPrice_Ok (c : storage) :
  (VIRTUAL_FAIR_RESERVES + FAIRRaised c) * 10 ^ 18 <= MAX_UINT256 ->
  tokensSold c < VIRTUAL_TOKEN_RESERVES ->
  getCurrentPrice c =
    Ok ((VIRTUAL_FAIR_RESERVES + FAIRRaised c) * 10 ^ 18
        / (VIRTUAL_TOKEN_RESERVES - tokensSold c)).
Proof.
  intros Hfit Hs. unfold getCurrentPrice.
  assert (1 <= 10 ^ 18) by (vm_compute; discriminate).
  rewrite (add_Ok VIRTUAL_FAIR_RESERVES) by nia. cbn [mbind result_bind].
  rewrite (sub_Ok VIRTUAL_TOKEN_RESERVES) by lia. cbn [mbind result_bind].
  rewrite mul_Ok by assumption. cbn [mbind result_bind].
  apply div_Ok. lia.
Qed.

(** The spot price is never zero: the virtual FAIR reserve scaled by
    [10^18] exceeds any token reserve. *)
Lemma spot_price_positive (F S : uint256) :
  S < VIRTUAL_TOKEN_RESERVES ->
  1 <= (VIRTUAL_FAIR_RESERVES + F) * 10 ^ 18 / (VIRTUAL_TOKEN_RESERVES - S).
Proof.
  intros Hs. apply N.div_le_lower_bound; [lia|].
  assert (VIRTUAL_TOKEN_RESERVES <= VIRTUAL_FAIR_RESERVES * 10 ^ 18)
    by (vm_compute; discriminate).
  nia.
Qed.

Lemma previewBuy_of_purchase (cfg : config) (e : env) (recipient : address)
  (minTokensOut : uint256) (w w1 : world)
  (platformFee buyAmount tokensOut newPrice : uint256) :
  graduated (curve w) = false ->
  purchased cfg e recipient minTokensOut w w1
    platformFee buyAmount tokensOut newPrice ->
  exists priceImpact : uint256,
    previewBuy cfg (curve w) (msg_value e)
    = Ok (tokensOut, newPrice, priceImpact, platformFee).
Proof.
  intros Hg P. destruct P.
  apply _calculateTokensOut_inv in p_out0 as Hout. cbv zeta in Hout.
  destruct Hout as (HRb & Hk & Hcap & _).
  apply getCurrentPrice_inv in p_price0 as Hp.
  rewrite p_curve0 in Hp. cbn [FAIRRaised tokensSold set_FAIRRaised
                               set_tokensSold] in Hp.
  destruct Hp as (Hfit1 & Hs1 & Hnew).
  set (R := VIRTUAL_FAIR_RESERVES + FAIRRaised (curve w)) in *.
  set (T := VIRTUAL_TOKEN_RESERVES - tokensSold (curve w)) in *.
  assert (Hcur : getCurrentPrice (curve w) = Ok (R * 10 ^ 18 / T)).
  { apply getCurrentPrice_Ok; [|lia].
    fold R. assert (1 <= 10 ^ 18) by (vm_compute; discriminate). nia. }
  assert (Hnew' : newPrice = (R + buyAmount) * 10 ^ 18 / (T - tokensOut)).
  { rewrite Hnew. unfold R, T. f_equal; lia. }
  assert (Hfit1' : (R + buyAmount) * 10 ^ 18 <= MAX_UINT256).
  { unfold R. replace (VIRTUAL_FAIR_RESERVES + FAIRRaised (curve w) + buyAmount)
      with (VIRTUAL_FAIR_RESERVES + (FAIRRaised (curve w) + buyAmount)) by lia.
    exact Hfit1. }
  assert (HT1 : 10000 <= T - tokensOut).
  { unfold T, VIRTUAL_TOKEN_RESERVES, GRADUATION_SUPPLY in *. lia. }
  assert (Himp : newPrice * 10000 <= MAX_UINT256).
  { pose proof (N.Div0.mul_div_le ((R + buyAmount) * 10 ^ 18) (T - tokensOut)).
    rewrite <- Hnew' in H. nia. }
  unfold previewBuy. rewrite Hg.
  assert ((msg_value e =? 0) = false) as -> by (apply N.eqb_neq; lia).
  cbn [orb]. rewrite mul_Ok by assumption. cbn [mbind result_bind].
  rewrite (div_Ok _ 10000) by lia. cbn [mbind result_bind].
  rewrite <- p_fee0. rewrite (sub_Ok (msg_value e)) by assumption.
  cbn [mbind result_bind]. rewrite <- p_net0.
  assert ((buyAmount =? 0) = false) as -> by (apply N.eqb_neq; lia).
  rewrite Hcur. cbn [mbind result_bind]. rewrite p_out0.
  cbn [mbind result_bind].
  assert ((tokensOut =? 0) = false) as -> by (apply N.eqb_neq; lia).
  rewrite (add_Ok VIRTUAL_FAIR_RESERVES) by (fold R; lia).
  cbn [mbind result_bind]. fold R.
  rewrite (add_Ok R) by assumption. cbn [mbind result_bind].
  rewrite (sub_Ok VIRTUAL_TOKEN_RESERVES) by lia. cbn [mbind result_bind].
  fold T. rewrite (sub_Ok T) by lia. cbn [mbind result_bind].
  rewrite (mul_Ok (R + buyAmount)) by assumption. cbn [mbind result_bind].
  rewrite (div_Ok _ (T - tokensOut)) by lia. cbn [mbind result_bind].
  rewrite <- Hnew'.
  assert (Hpos : 1 <= R * 10 ^ 18 / T)
    by (apply spot_price_positive; lia).
  assert (Himpact : exists i,
            (if R * 10 ^ 18 / T <? newPrice then
               delta ← sub newPrice (R * 10 ^ 18 / T);
               scaledDelta ← mul delta 10000;
               div scaledDelta (R * 10 ^ 18 / T)
             else Ok 0) = Ok i).
  { destruct (_ <? _) eqn:E; [|eauto]. apply N.ltb_lt in E.
    rewrite (sub_Ok newPrice) by lia. cbn [mbind result_bind].
    rewrite mul_Ok by nia. cbn [mbind result_bind].
    rewrite div_Ok by lia. eauto. }
  destruct Himpact as (i & ->). cbn [mbind result_bind].
  rewrite (add_Ok (tokensSold (curve w)))
    by (unfold GRADUATION_SUPPLY, MAX_UINT256 in *; cbn; lia).
  cbn [mbind result_bind].
  assert ((GRADUATION_SUPPLY <? tokensSold (curve w) + tokensOut) = false)
    as -> by (apply N.ltb_ge; lia).
  cbn [mbind result_bind]. eauto.
Qed.

Lemma previewSell_of_sale (cfg : config) (e : env)
  (tokenAmount minFAIROut : uint256) (w w' : world)
  (FAIROut sellFee feeAmount netFAIROut : uint256) :
  sold_back cfg e tokenAmount minFAIROut w w'
    FAIROut sellFee feeAmount netFAIROut ->
  previewSell cfg (block_timestamp e) (curve w) tokenAmount
  = Ok (FAIROut, netFAIROut, sellFee, feeAmount).
Proof.
  intros S. destruct S. unfold previewSell. rewrite s_open0.
  assert ((tokenAmount =? 0) = false) as -> by (apply N.eqb_neq; lia).
  assert ((tokensSold (curve w) <? tokenAmount) = false) as ->
    by (apply N.ltb_ge; lia).
  cbn [orb]. rewrite s_out0. cbn [mbind result_bind].
  rewrite s_sellFee0. cbn [mbind result_bind].
  rewrite mul_Ok by assumption. cbn [mbind result_bind].
  rewrite (div_Ok _ 10000) by lia. cbn [mbind result_bind].
  rewrite <- s_fee0. rewrite sub_Ok by assumption.
  cbn [mbind result_bind]. now rewrite s_net0.
Qed.

(** C3, as the code has it. Whenever the real path goes through, the
    preview taken in the same state for the same input (and, for a sale, at
    the same block time) runs without reverting and reports exactly what
    the real path delivers: [previewBuy] reports the [tokensOut] and the new
    price of the [TokensPurchased] event, which is the amount added to
    [tokensSold] and minted; [previewSell] reports the [netFAIROut] and the
    fee of the [TokensSold] event.  Nothing is said about inputs on which
    the real path reverts. *)
Theorem preview_matches_successful_trade :
  (forall (cfg : config) (e : env) (recipient : address) (m : uint256)
          (w w' : world),
     graduated (curve w) = false ->
     _buyTokensFor cfg e recipient m w = Ok w' ->
     exists tokensOut newPrice priceImpact platformFee buyAmount : uint256,
       previewBuy cfg (curve w) (msg_value e)
       = Ok (tokensOut, newPrice, priceImpact, platformFee) /\
       tokensSold (curve w') = tokensSold (curve w) + tokensOut /\
       In (TokensPurchased recipient buyAmount tokensOut newPrice) (log w')
       /\ (exists t1 : LaunchToken.state,
             LaunchToken.mint (this cfg) recipient tokensOut (token w)
             = Ok t1)) /\
  (forall (cfg : config) (e : env) (tokenAmount minFAIROut : uint256)
          (w w' : world),
     sellTokens cfg e tokenAmount minFAIROut w = Ok w' ->
     exists FAIROut netFAIROut sellFee feeAmount : uint256,
       previewSell cfg (block_timestamp e) (curve w) tokenAmount
       = Ok (FAIROut, netFAIROut, sellFee, feeAmount) /\
       In (TokensSold (msg_sender e) tokenAmount netFAIROut feeAmount)
          (log w') /\
       FAIRRaised (curve w') = FAIRRaised (curve w) - FAIROut /\
       (msg_sender e <> this cfg -> msg_sender e <> treasury cfg ->
        balance w' (msg_sender e) = balance w (msg_sender e) + netFAIROut)).
Proof.
  split.
  - intros cfg e recipient m w w' Hg H.
    rewrite _buyTokensFor_split in H.
    apply bind_Ok_inv in H as (w1 & Hbuy & H).
    apply buy_effects_inv in Hbuy as (pf & b & out & p & P).
    destruct (previewBuy_of_purchase _ _ _ _ _ _ _ _ _ _ Hg P) as (i & Hprev).
    exists out, p, i, pf, b. destruct P.
    destruct p_log0 as (mc & _ & Hlog).
    assert (Hs1 : tokensSold (curve w1) = tokensSold (curve w) + out)
      by (rewrite p_curve0; reflexivity).
    assert (Hin1 : In (TokensPurchased recipient b out p) (log w1))
      by (rewrite Hlog; right; left; reflexivity).
    split_and!; try assumption.
    + destruct (_ <=? _) in H.
      * apply _executeGraduation_tokensSold in H. lia.
      * injection H as <-. exact Hs1.
    + destruct (_ <=? _) in H; [|injection H as <-; exact Hin1].
      unfold _executeGraduation in H. inv_ok H.
      match type of H with
      | match ?v with _ => _ end = _ => destruct v
      end.
      * injection H as <-. exact Hin1.
      * inv_ok H. injection H as <-. cbn. right.
        match goal with
        | Ht : (if _ then transfer_native _ _ _ _ ?wm else Ok ?wm) = Ok ?w'
          |- _ =>
            destruct (0 <? _) in Ht;
            [ apply transfer_native_inv in Ht as (_ & _ & -> & _)
            | injection Ht as <- ]; exact Hin1
        end.
    + eauto.
  - intros cfg e tokenAmount minFAIROut w w' H.
    apply sellTokens_inv in H as (out & fee & cut & net & S).
    exists out, net, fee, cut.
    split; [eapply previewSell_of_sale; eassumption|].
    destruct S. destruct s_log0 as (p & mc & Hlog).
    split_and!.
    + rewrite Hlog. right. left. reflexivity.
    + rewrite s_curve0. reflexivity.
    + assumption.
Qed.

End Previews.


(** ** Buying and selling back *)

Section RoundTrip.
Import BondingCurve Derived.

Lemma _calculateFAIROut_inv (c : storage) (amount out : uint256) :
  _calculateFAIROut c amount = Ok out ->
  let R := VIRTUAL_FAIR_RESERVES + FAIRRaised c in
  let T := VIRTUAL_TOKEN_RESERVES - tokensSold c in
  tokensSold c <= VIRTUAL_TOKEN_RESERVES /\
  out = R - R * T / (T + amount).
Proof.
  intros H. unfold _calculateFAIROut in H. inv_ok H.
  cbv zeta. split; [assumption | reflexivity].
Qed.

(** The sell fee is between one and twenty percent whenever it is
    defined. *)
Lemma getCurrentSellFee_range (cfg : config) (now fee : uint256) :
  getCurrentSellFee cfg now = Ok fee ->
  FINAL_SELL_FEE <= fee <= INITIAL_SELL_FEE.
Proof.
  unfold getCurrentSellFee. intros H.
  apply bind_Ok_inv in H as (pinned & Hp & H). inv_atom Hp.
  destruct (_ <=? _) eqn:E.
  - injection H as <-. unfold FINAL_SELL_FEE, INITIAL_SELL_FEE. lia.
  - apply N.leb_gt in E. inv_ok H.
    unfold FINAL_SELL_FEE, INITIAL_SELL_FEE, ANTI_DUMP_DURATION in *.
    change (2000 - 100) with 1900 in *.
    set (el := now - launchTime cfg) in *.
    assert (Hel : el < 900) by lia.
    pose proof (N.Div0.mul_div_le (1900 * el) 900).
    generalize dependent (1900 * el / 900). intros q. intros. lia.
Qed.

(** The arithmetic heart: selling back what a payment of [b] bought
    returns at most [b + 1] from the reserve, as long as the FAIR reserve
    does not exceed the token reserve. *)
Lemma sell_back_gross (R T b out : N) :
  0 < R -> R + b <= T ->
  out <= T - R * T / (R + b) ->
  R + b - (R + b) * (T - out) / T <= b + 1.
Proof.
  intros HR HT Hout.
  set (q := R * T / (R + b)) in *.
  assert (Hq : R * T < (R + b) * N.succ q)
    by (apply N.mul_succ_div_gt; lia).
  assert (HqT : q <= T).
  { apply N.Div0.div_le_upper_bound. nia. }
  assert (Hlow : T * (R - 1) <= (R + b) * (T - out)).
  { assert (q <= T - out) by lia. nia. }
  assert (R - 1 <= (R + b) * (T - out) / T)
    by (apply N.div_le_lower_bound; [lia | exact Hlow]).
  generalize dependent ((R + b) * (T - out) / T). intros. lia.
Qed.

(** The fee takes at least one wei from any payout of a hundred wei or
    more. *)
Lemma sell_fee_bites (g fee : N) :
  100 <= fee -> 100 <= g -> 1 <= g * fee / 10000.
Proof.
  intros Hf Hg. apply N.div_le_lower_bound; [lia | nia].
Qed.

Lemma _executeGraduation_open (cfg : config) (e : env) (w w' : world) :
  _executeGraduation cfg e w = Ok w' ->
  graduated (curve w') = false ->
  curve w' = curve w.
Proof.
  intros H Hg. unfold _executeGraduation in H. inv_ok H.
  match type of H with
  | match ?v with _ => _ end = _ => destruct v
  end.
  - injection H as <-. cbn. now apply set_graduated_undo.
  - inv_ok H. injection H as <-. cbn in Hg.
    match goal with
    | Ht : (if _ then transfer_native _ _ _ _ ?wm else Ok ?wm) = Ok ?w' |- _ =>
        destruct (0 <? _) in Ht;
        [ apply transfer_native_inv in Ht as (Hc & _); rewrite Hc in Hg
        | injection Ht as <- ]; cbn in Hg; discriminate
    end.
Qed.

(** C2, as the code has it. A buy of [msg.value = reserveIn] followed at
    once by a successful sale of exactly the tokens bought pays the seller
    at most [reserveIn + 1] wei, and at most [reserveIn] whenever
    [reserveIn] is at least 100 wei; this is for states in which the FAIR
    reserve with the payment added (in wei) does not exceed the token
    reserve (in base units).  The sale is the one recorded by the
    [TokensSold] event, and the amount is what the seller's balance grows
    by. *)
Theorem round_trip_bound (cfg : config) (e1 e2 : env) (recipient : address)
  (m1 m2 : uint256) (w w1 w2 : world) :
  graduated (curve w) = false ->
  VIRTUAL_FAIR_RESERVES + FAIRRaised (curve w) + msg_value e1
    <= VIRTUAL_TOKEN_RESERVES - tokensSold (curve w) ->
  _buyTokensFor cfg e1 recipient m1 w = Ok w1 ->
  sellTokens cfg e2 (tokensSold (curve w1) - tokensSold (curve w)) m2 w1
    = Ok w2 ->
  exists netFAIROut feeAmount : uint256,
    In (TokensSold (msg_sender e2)
          (tokensSold (curve w1) - tokensSold (curve w))
          netFAIROut feeAmount) (log w2) /\
    (msg_sender e2 <> this cfg -> msg_sender e2 <> treasury cfg ->
     balance w2 (msg_sender e2) = balance w1 (msg_sender e2) + netFAIROut) /\
    netFAIROut <= msg_value e1 + 1 /\
    (100 <= msg_value e1 -> netFAIROut <= msg_value e1).
Proof.
  intros Hg Hregime Hbuy Hsell.
  rewrite _buyTokensFor_split in Hbuy.
  apply bind_Ok_inv in Hbuy as (wp & Hp & Hgrad).
  apply buy_effects_inv in Hp as (pf & b & out & p & P).
  apply sellTokens_inv in Hsell as (g & fee & cut & net & S).
  destruct P, S.
  assert (Hc1 : curve w1 = curve wp).
  { destruct (_ <=? _) in Hgrad.
    - eapply _executeGraduation_open; eassumption.
    - now injection Hgrad as <-. }
  rewrite Hc1, p_curve0 in *.
  cbn [tokensSold FAIRRaised set_FAIRRaised set_tokensSold] in *.
  replace (tokensSold (curve w) + out - tokensSold (curve w)) with out in *
    by lia.
  exists net, cut. destruct s_log0 as (pr & mc & Hlog).
  split; [rewrite Hlog; right; left; reflexivity|].
  split; [assumption|].
  apply _calculateTokensOut_inv in p_out0 as Hout. cbv zeta in Hout.
  destruct Hout as (_ & _ & Hcap & Hmin).
  apply _calculateFAIROut_inv in s_out0 as Hg'. cbv zeta in Hg'.
  cbn [tokensSold FAIRRaised set_FAIRRaised set_tokensSold] in Hg'.
  destruct Hg' as (Hs1 & Hgross).
  apply getCurrentSellFee_range in s_sellFee0 as Hfee.
  unfold FINAL_SELL_FEE, INITIAL_SELL_FEE in Hfee.
  set (R := VIRTUAL_FAIR_RESERVES + FAIRRaised (curve w)) in *.
  set (T := VIRTUAL_TOKEN_RESERVES - tokensSold (curve w)) in *.
  assert (HR : 0 < R) by (unfold R, VIRTUAL_FAIR_RESERVES; lia).
  assert (Hb : b <= msg_value e1) by lia.
  assert (HoutT : out <= T - R * T / (R + b))
    by (rewrite Hmin; apply N.le_min_l).
  assert (HT : out <= T)
    by (unfold T, VIRTUAL_TOKEN_RESERVES, GRADUATION_SUPPLY in *; lia).
  assert (Hgb : g <= b + 1).
  { rewrite Hgross.
    replace (VIRTUAL_FAIR_RESERVES + (FAIRRaised (curve w) + b))
      with (R + b) by (unfold R; lia).
    replace (VIRTUAL_TOKEN_RESERVES - (tokensSold (curve w) + out))
      with (T - out) by (unfold T; lia).
    replace (T - out + out) with T by lia.
    apply sell_back_gross; [assumption | lia | assumption]. }
  split; [lia|].
  intros Hbig.
  destruct (N.eq_dec pf 0) as [Hpf0|Hpf]; [|lia].
  destruct (N.le_gt_cases 100 g) as [Hg100|Hsmall]; [|lia].
  pose proof (sell_fee_bites g fee ltac:(lia) Hg100) as Hbite.
  rewrite <- s_fee0 in Hbite. lia.
Qed.

End RoundTrip.


(** ** The constants and the first buy *)

Section Constants.
Import BondingCurve Derived Chain Scenario.

(** C4, evaluated. With the constants of the contract the constant-product
    relation has raised 7980 FAIR, not the 8050 FAIR of
    [GRADUATION_THRESHOLD], when the last curve token is sold: a buy that
    nets exactly 7980 FAIR sells the curve out, leaves it short of the
    threshold and not graduated, and every later buy is refused with
    "Curve complete". *)
Theorem curve_sells_out_below_threshold :
  reserve_at GRADUATION_SUPPLY = 7980 * ether /\
  reserve_at GRADUATION_SUPPLY < GRADUATION_THRESHOLD /\
  buyTokens cfg sell_out 0 genesis = Ok sold_out /\
  tokensSold (curve sold_out) = GRADUATION_SUPPLY /\
  FAIRRaised (curve sold_out) = 7980 * ether /\
  graduated (curve sold_out) = false /\
  buyTokens cfg one_fair 0 sold_out = Revert (Error "Curve complete").
Proof. split_and!; vm_compute; reflexivity. Qed.

(** C5, as the code has it. In the initial state with a 1% platform fee a
    buy of one FAIR yields exactly 1300373036305364367151789 units (about
    1,300,373 tokens), which is within 1.2% of 1,315,000 tokens. *)
Theorem first_buy_of_one_fair :
  (forall (g : bool) (router : address),
     _calculateTokensOut
       {| tokensSold := 0; FAIRRaised := 0; graduated := g;
          traderJoeRouter := router |}
       (1 * ether - 1 * ether * 100 / 10000)
     = Ok 1300373036305364367151789) /\
  platformFeePercent cfg = 100 /\
  msg_value one_fair = 1 * ether /\
  tokensSold (curve genesis) = 0 /\
  FAIRRaised (curve genesis) = 0 /\
  buyTokens cfg one_fair 0 genesis = Ok after_first_buy /\
  tokensSold (curve after_first_buy) = 1300373036305364367151789 /\
  LaunchToken.balanceOf (token after_first_buy) alice
    = 1300373036305364367151789 /\
  within 12 1000 1300373036305364367151789 (1315000 * 10 ^ 18).
Proof.
  split_and!; try (vm_compute; reflexivity).
  unfold within. split; vm_compute; discriminate.
Qed.

End Constants.

(** ** Concrete runs *)

Section ConcreteRuns.
Import BondingCurve Derived Chain Scenario.

(** The first buy of one FAIR at a 1% fee misses 1,315,000 tokens by more
    than 1%. *)
Lemma first_buy_misses_one_percent :
  platformFeePercent cfg = 100 /\
  msg_value one_fair = 1 * ether /\
  tokensSold (curve genesis) = 0 /\
  FAIRRaised (curve genesis) = 0 /\
  buyTokens cfg one_fair 0 genesis = Ok after_first_buy /\
  tokensSold (curve after_first_buy) - tokensSold (curve genesis)
    = alice_tokens /\
  ~ within 1 100 alice_tokens (1315000 * 10 ^ 18).
Proof.
  split_and!; try (vm_compute; reflexivity).
  unfold within. vm_compute. intros [_ H]. apply H. reflexivity.
Qed.

(** Bob pays one wei for tokens and is paid two wei for selling them back
    at once. *)
Lemma dust_round_trip_gains_a_wei :
  graduated (curve dust_ready) = false /\
  msg_value dust_buy = 1 /\
  buyTokens cfg dust_buy 0 dust_ready = Ok dust_bought /\
  dust_tokens = 1311231 /\
  sellTokens cfg dust_sell dust_tokens 0 dust_bought = Ok dust_sold /\
  In (TokensSold bob dust_tokens 2 0) (log dust_sold) /\
  balance dust_sold bob = balance dust_ready bob + 1 /\
  ~ 2 <= msg_value dust_buy.
Proof.
  split_and!; try (vm_compute; reflexivity).
  - vm_compute. right. left. reflexivity.
  - vm_compute. intros H. apply H. reflexivity.
Qed.

(** Alice, the sole holder, asks [previewSell] about selling everything:
    it reports a payout, while [sellTokens] for the same amount in the same
    state at the same time reverts. *)
Lemma preview_overstates_full_exit :
  graduated (curve alice_approved) = false /\
  LaunchToken.balanceOf (token alice_approved) alice = alice_tokens /\
  LaunchToken.allowance (token alice_approved) alice curve_address
    = alice_tokens /\
  previewSell cfg (block_timestamp alice_sells) (curve alice_approved)
    alice_tokens
  = Ok (990000000000000001, 792000000000000001, 2000, 198000000000000000) /\
  sellTokens cfg alice_sells alice_tokens 0 alice_approved
  = Revert (Error "Insufficient reserves").
Proof. split_and!; vm_compute; reflexivity. Qed.

(** On a graduated curve a sale of more than was ever sold is turned away
    by the [notGraduated] modifier, not by the supply check. *)
Lemma sell_beyond_supply_on_graduated_curve :
  graduated_world
    = run_all cfg [(whole_curve router_returns, BuyTokens 0)]
        (deploy cfg 43114 alice funds) /\
  graduated (curve graduated_world) = true /\
  tokensSold (curve graduated_world) < GRADUATION_SUPPLY + 1 /\
  sellTokens cfg alice_sells (GRADUATION_SUPPLY + 1) 0 graduated_world
  = Revert (Error "Token graduated") /\
  sellTokens cfg alice_sells (GRADUATION_SUPPLY + 1) 0 graduated_world
  <> Revert (Error "Insufficient supply sold").
Proof.
  split_and!; try (vm_compute; reflexivity).
  vm_compute. discriminate.
Qed.

End ConcreteRuns.


(** ** The theorems at work on the concrete deployment *)

Section Witnesses.
Import BondingCurve Derived Chain Scenario.

Lemma transfer_gate_witness :
  LaunchToken._update alice bob 5 (token after_first_buy)
    = Revert (Error "Trading not enabled") /\
  (exists t', LaunchToken._update alice bob 5 (token graduated_world)
              = Ok t') /\
  LaunchToken._update alice curve_address 5 (token after_first_buy)
    = LaunchToken.ERC20_update alice curve_address 5 (token after_first_buy).
Proof.
  split_and!.
  - destruct (transfer_gate (token after_first_buy) alice bob 5)
      as (_ & Hgate & _); [discriminate | discriminate |].
    apply Hgate; [vm_compute; discriminate | vm_compute; discriminate
                 | reflexivity].
  - destruct (transfer_gate (token graduated_world) alice bob 5)
      as (_ & Hgate & _); [discriminate | discriminate |].
    destruct Hgate as (_ & _ & _ & Hiff);
      [vm_compute; discriminate | vm_compute; discriminate |].
    apply Hiff; [vm_compute; discriminate | reflexivity].
  - destruct (transfer_gate (token after_first_buy) alice curve_address 5)
      as (Hminter & _); [discriminate | discriminate |].
    apply Hminter. right. reflexivity.
Defined.

Lemma setMinter_unguarded_once_witness :
  LaunchToken.setMinter bob bob (LaunchToken.constructor alice launch)
    = Ok (LaunchToken.set_minter bob (LaunchToken.constructor alice launch))
  /\ LaunchToken.setMinter bob bob (token genesis)
     = Revert (Error "Minter already set").
Proof.
  split.
  - destruct (setMinter_unguarded_once bob bob
                (LaunchToken.constructor alice launch)) as (Hfree & _).
    apply Hfree. reflexivity.
  - destruct (setMinter_unguarded_once bob bob (token genesis))
      as (_ & Hset & _).
    apply Hset. vm_compute. discriminate.
Defined.

Lemma sell_fee_decay_witness :
  getCurrentSellFee cfg (launch + 450) = Ok 1050 /\
  getCurrentSellFee cfg (launch + 900) = Ok FINAL_SELL_FEE /\
  getCurrentSellFee cfg launch = Ok INITIAL_SELL_FEE.
Proof.
  assert (Hfits : launchTime cfg + ANTI_DUMP_DURATION <= MAX_UINT256)
    by (vm_compute; discriminate).
  destruct (sell_fee_decay cfg Hfits) as (Hat & _ & Hstart & _ & Hend).
  split_and!.
  - rewrite Hat by (vm_compute; discriminate). reflexivity.
  - apply Hend; vm_compute; discriminate.
  - exact Hstart.
Defined.

Lemma failed_graduation_keeps_buy_witness :
  exists w2 : world,
    buyTokens cfg (whole_curve VenueReverts) 0 genesis = Ok w2 /\
    graduated (curve w2) = false /\
    tokensSold (curve w2) = GRADUATION_SUPPLY /\
    FAIRRaised (curve w2) = 8910 * ether /\
    LaunchToken.balanceOf (token w2) alice = GRADUATION_SUPPLY.
Proof.
  destruct (failed_graduation_keeps_buy cfg (whole_curve VenueReverts)
              alice 0 whole_curve_entered whole_curve_purchased)
    as (w2 & b & out & Hrun & Hg & Hb & Hout & Hpos & Hsold & Hraised
        & Hbal & _ & _ & Hentry).
  - reflexivity.
  - vm_compute. reflexivity.
  - vm_compute. discriminate.
  - discriminate.
  - vm_compute. discriminate.
  - vm_compute. discriminate.
  - vm_compute. discriminate.
  - vm_compute. discriminate.
  - left. reflexivity.
  - exists w2. split_and!.
    + apply (Hentry genesis); reflexivity.
    + exact Hg.
    + rewrite Hsold.
      assert (out = GRADUATION_SUPPLY) as ->; [|reflexivity].
      rewrite Hb in Hout. vm_compute in Hout. now injection Hout as <-.
    + rewrite Hraised, Hb. vm_compute. reflexivity.
    + rewrite Hbal.
      assert (out = GRADUATION_SUPPLY) as ->; [|reflexivity].
      rewrite Hb in Hout. vm_compute in Hout. now injection Hout as <-.
Defined.

Lemma tokensSold_never_exceeds_cap_witness :
  tokensSold (curve graduated_world) <= GRADUATION_SUPPLY /\
  tokensSold (curve after_first_buy) <= GRADUATION_SUPPLY /\
  alice_tokens <= GRADUATION_SUPPLY - tokensSold (curve genesis).
Proof.
  destruct tokensSold_never_exceeds_cap as (Hclamp & Hbuy & _ & Hall).
  split_and!.
  - apply (Hall cfg 43114 alice funds
             [(whole_curve router_returns, BuyTokens 0)]).
  - apply (Hbuy cfg one_fair 0 genesis after_first_buy).
    vm_compute. reflexivity.
  - apply (Hclamp (curve genesis) (99 * 10 ^ 16) alice_tokens).
    vm_compute. reflexivity.
Defined.

Lemma sell_beyond_supply_rejected_witness :
  sellTokens cfg alice_sells (alice_tokens + 1) 0 alice_approved
    = Revert (Error "Insufficient supply sold") /\
  sellTokens cfg alice_sells (GRADUATION_SUPPLY + 1) 0 graduated_world
    = Revert (Error "Token graduated") /\
  run cfg alice_sells (SellTokens (alice_tokens + 1) 0) alice_approved
    = alice_approved.
Proof.
  destruct (sell_beyond_supply_rejected cfg alice_sells (alice_tokens + 1) 0
              alice_approved) as (Hopen & _ & Hrun);
    [vm_compute; reflexivity|].
  destruct (sell_beyond_supply_rejected cfg alice_sells
              (GRADUATION_SUPPLY + 1) 0 graduated_world) as (_ & Hdone & _);
    [vm_compute; reflexivity|].
  split_and!.
  - apply Hopen. vm_compute. reflexivity.
  - apply Hdone. vm_compute. reflexivity.
  - exact Hrun.
Defined.

Lemma preview_matches_successful_trade_witness :
  (exists tokensOut newPrice priceImpact platformFee : uint256,
     previewBuy cfg (curve one_fair_entered) (msg_value one_fair)
     = Ok (tokensOut, newPrice, priceImpact, platformFee) /\
     tokensSold (curve after_first_buy)
     = tokensSold (curve one_fair_entered) + tokensOut) /\
  (exists FAIROut netFAIROut sellFee feeAmount : uint256,
     previewSell cfg (block_timestamp dust_sell) (curve dust_bought)
       dust_tokens
     = Ok (FAIROut, netFAIROut, sellFee, feeAmount) /\
     In (TokensSold (msg_sender dust_sell) dust_tokens netFAIROut feeAmount)
        (log dust_sold)).
Proof.
  destruct preview_matches_successful_trade as (Hbuy & Hsell).
  split.
  - destruct (Hbuy cfg one_fair alice 0 one_fair_entered after_first_buy)
      as (out & p & i & pf & b & Hprev & Hsold & _);
      [reflexivity | vm_compute; reflexivity |].
    exists out, p, i, pf. split; [exact Hprev | exact Hsold].
  - destruct (Hsell cfg dust_sell dust_tokens 0 dust_bought dust_sold)
      as (g & net & fee & cut & Hprev & Hin & _);
      [vm_compute; reflexivity |].
    exists g, net, fee, cut. split; [exact Hprev | exact Hin].
Defined.

Lemma round_trip_bound_witness :
  exists netFAIROut feeAmount : uint256,
    In (TokensSold bob dust_tokens netFAIROut feeAmount) (log dust_sold) /\
    netFAIROut <= 1 + 1.
Proof.
  destruct (round_trip_bound cfg dust_buy dust_sell bob 0 0
              dust_entered dust_bought dust_sold)
    as (net & cut & Hin & _ & Hle & _).
  - reflexivity.
  - vm_compute. discriminate.
  - vm_compute. reflexivity.
  - vm_compute. reflexivity.
  - exists net, cut. split; [exact Hin | exact Hle].
Defined.

End Witnesses.


(** ** Graduation as a terminal state *)

Section GraduationFinal.
Import BondingCurve Derived Chain.

Lemma exec_graduated (cfg : config) (e : env) (c : call) (w w' : world) :
  graduated (curve w) = true ->
  exec cfg e c w = Ok w' ->
  graduated (curve w') = true /\
  tokensSold (curve w') = tokensSold (curve w) /\
  FAIRRaised (curve w') = FAIRRaised (curve w).
Proof.
  intros Hg H. destruct c; cbn [exec] in H;
    try (apply on_token_curve in H; rewrite H; now split_and!).
  - unfold buyTokens, notGraduated in H. inv_ok H.
    match goal with
    | Hr : receive_value _ _ _ = Ok ?v |- _ =>
        apply receive_value_inv in Hr as (Hc & _)
    end.
    congruence.
  - unfold buyTokensFor, notGraduated in H. inv_ok H.
    match goal with
    | Hr : receive_value _ _ _ = Ok ?v |- _ =>
        apply receive_value_inv in Hr as (Hc & _)
    end.
    congruence.
  - unfold sellTokens, notGraduated in H. rewrite Hg in H. discriminate.
  - unfold setTraderJoeRouter in H. inv_ok H. injection H as <-.
    now split_and!.
  - unfold emergencyWithdraw in H. inv_ok H.
    apply transfer_native_inv in H as (-> & _). now split_and!.
  - unfold forceGraduation in H. inv_ok H. congruence.
Qed.

Lemma run_graduated (cfg : config) (e : env) (c : call) (w : world) :
  graduated (curve w) = true ->
  graduated (curve (run cfg e c w)) = true /\
  tokensSold (curve (run cfg e c w)) = tokensSold (curve w) /\
  FAIRRaised (curve (run cfg e c w)) = FAIRRaised (curve w).
Proof.
  intros Hg. unfold run. destruct (exec cfg e c w) eqn:H.
  - eapply exec_graduated; eassumption.
  - now split_and!.
Qed.

Lemma run_all_graduated (cfg : config) (tr : list (env * call)) (w : world) :
  graduated (curve w) = true ->
  graduated (curve (run_all cfg tr w)) = true /\
  tokensSold (curve (run_all cfg tr w)) = tokensSold (curve w) /\
  FAIRRaised (curve (run_all cfg tr w)) = FAIRRaised (curve w).
Proof.
  revert w. induction tr as [|[e c] tr IH]; intros w Hg; [now split_and!|].
  cbn [run_all]. destruct (run_graduated cfg e c w Hg) as (Hg' & Hs & Hr).
  destruct (IH _ Hg') as (? & ? & ?). split_and!; congruence.
Qed.

(** X1. Once [graduated] is set no trade is accepted, the factory's
    [forceGraduation] is refused, and no sequence of transactions of any
    kind clears the flag or moves [tokensSold] or [FAIRRaised]. *)
Theorem graduation_is_final (cfg : config) (w : world) :
  graduated (curve w) = true ->
  (forall (e : env) (m : uint256),
     msg_value e <= balance w (msg_sender e) ->
     buyTokens cfg e m w = Revert (Error "Token graduated")) /\
  (forall (e : env) (r : address) (m : uint256),
     msg_value e <= balance w (msg_sender e) ->
     buyTokensFor cfg e r m w = Revert (Error "Token graduated")) /\
  (forall (e : env) (a m : uint256),
     sellTokens cfg e a m w = Revert (Error "Token graduated")) /\
  (forall e : env,
     msg_sender e = factory cfg ->
     forceGraduation cfg e w = Revert (Error "Already graduated")) /\
  (forall tr : list (env * call),
     graduated (curve (run_all cfg tr w)) = true /\
     tokensSold (curve (run_all cfg tr w)) = tokensSold (curve w) /\
     FAIRRaised (curve (run_all cfg tr w)) = FAIRRaised (curve w)).
Proof.
  intros Hg. split_and!.
  - intros e m Hb. unfold buyTokens, receive_value.
    apply N.ltb_ge in Hb. rewrite Hb. cbn. unfold notGraduated. cbn.
    rewrite Hg. reflexivity.
  - intros e r m Hb. unfold buyTokensFor, receive_value.
    apply N.ltb_ge in Hb. rewrite Hb. cbn. unfold notGraduated. cbn.
    rewrite Hg. reflexivity.
  - intros e a m. unfold sellTokens, notGraduated. rewrite Hg. reflexivity.
  - intros e He. unfold forceGraduation, onlyFactory. rewrite He, N.eqb_refl.
    cbn. rewrite Hg. reflexivity.
  - intros tr. now apply run_all_graduated.
Qed.

(** X2. A curve that has sold its whole supply while short of the threshold
    accepts no buy and cannot be graduated, not even by the factory. *)
Theorem sold_out_below_threshold_is_stuck (cfg : config) (e : env)
  (w : world) :
  graduated (curve w) = false ->
  tokensSold (curve w) = GRADUATION_SUPPLY ->
  FAIRRaised (curve w) < GRADUATION_THRESHOLD ->
  (forall m : uint256, run cfg e (BuyTokens m) w = w) /\
  (forall (r : address) (m : uint256), run cfg e (BuyTokensFor r m) w = w) /\
  run cfg e ForceGraduation w = w /\
  (forall m : uint256,
     0 < msg_value e -> msg_value e <= balance w (msg_sender e) ->
     buyTokens cfg e m w = Revert (Error "Curve complete")) /\
  (msg_sender e = factory cfg ->
   forceGraduation cfg e w = Revert (Error "Threshold not met")).
Proof.
  intros Hg Hs Hr.
  assert (Hbuy : forall r m w1 w2,
            curve w1 = curve w ->
            _buyTokensFor cfg e r m w1 = Ok w2 -> False).
  { intros r m w1 w2 Hc H. unfold _buyTokensFor in H. inv_ok H.
    rewrite Hc, Hs in *. lia. }
  split_and!.
  - intros m. unfold run. cbn [exec].
    destruct (buyTokens cfg e m w) eqn:H; [|reflexivity].
    unfold buyTokens in H. inv_ok H.
    match goal with
    | Hv : receive_value _ _ _ = Ok _ |- _ =>
        apply receive_value_inv in Hv as (Hc & _)
    end.
    exfalso. eapply Hbuy; eassumption.
  - intros r m. unfold run. cbn [exec].
    destruct (buyTokensFor cfg e r m w) eqn:H; [|reflexivity].
    unfold buyTokensFor in H. inv_ok H.
    match goal with
    | Hv : receive_value _ _ _ = Ok _ |- _ =>
        apply receive_value_inv in Hv as (Hc & _)
    end.
    exfalso. eapply Hbuy; eassumption.
  - unfold run. cbn [exec].
    destruct (forceGraduation cfg e w) eqn:H; [|reflexivity].
    unfold forceGraduation in H. inv_ok H. lia.
  - intros m Hpos Hb. unfold buyTokens, receive_value.
    apply N.ltb_ge in Hb. rewrite Hb. cbn. unfold notGraduated. cbn.
    rewrite Hg. cbn. unfold _buyTokensFor.
    apply N.ltb_lt in Hpos. rewrite Hpos. cbn. rewrite Hs. reflexivity.
  - intros He. unfold forceGraduation, onlyFactory. rewrite He, N.eqb_refl.
    cbn. rewrite Hg. cbn.
    assert ((GRADUATION_THRESHOLD <=? FAIRRaised (curve w)) = false) as ->
      by (apply N.leb_gt; exact Hr).
    reflexivity.
Qed.

End GraduationFinal.


(** ** Graduation and the curve's money, step by step *)

Section MoneySteps.
Import BondingCurve Derived Chain.

Lemma balance_native (w w' : world) (c : address) :
  native w' = native w -> balance w' c = balance w c.
Proof. unfold balance. now intros ->. Qed.

Lemma transfer_native_sender (e : env) (a b : address) (v : uint256)
  (w w' : world) :
  transfer_native e a b v w = Ok w' ->
  v <= balance w a /\ balance w a <= balance w' a + v /\
  balance w' a <= balance w a /\
  (b <> a -> balance w' a = balance w a - v).
Proof.
  intros H. pose proof (transfer_native_balance _ _ _ _ _ _ a H) as Hb.
  apply transfer_native_inv in H as (_ & _ & _ & Hv & _).
  destruct (decide (a = b)) as [<-|Hab].
  - destruct (decide (a = a)); [|congruence].
    split_and!; [lia|lia|lia|congruence].
  - destruct (decide (a = a)); [|congruence]. split_and!; [lia|lia|lia|].
    intros _. exact Hb.
Qed.

Lemma receive_value_balance (cfg : config) (e : env) (w w' : world) :
  receive_value cfg e w = Ok w' ->
  msg_value e <= balance w (msg_sender e) /\
  (msg_sender e <> this cfg ->
   balance w' (this cfg) = balance w (this cfg) + msg_value e /\
   balance w' (msg_sender e) = balance w (msg_sender e) - msg_value e) /\
  (forall c : address,
     c <> this cfg -> c <> msg_sender e -> balance w' c = balance w c).
Proof.
  unfold receive_value.
  destruct (balance w (msg_sender e) <? msg_value e) eqn:Hb; [discriminate|].
  apply N.ltb_ge in Hb. intros [= <-]. split; [exact Hb|].
  unfold balance, with_native in *. cbn. split.
  - intros Hn. split.
    + rewrite lookup_insert_eq. cbn.
      rewrite lookup_insert_ne by congruence. reflexivity.
    + rewrite lookup_insert_ne by congruence.
      rewrite lookup_insert_eq. reflexivity.
  - intros c H1 H2. rewrite !lookup_insert_ne by congruence. reflexivity.
Qed.

Lemma on_token_frame (f : LaunchToken.state -> result LaunchToken.state)
  (w w' : world) :
  on_token f w = Ok w' ->
  curve w' = curve w /\ native w' = native w /\ log w' = log w /\
  f (token w) = Ok (token w').
Proof.
  unfold on_token. destruct (f (token w)) eqn:Hf; cbn; [|discriminate].
  intros [= <-]. now split_and!.
Qed.

(** The two ways [_executeGraduation] can return. *)
Lemma _executeGraduation_cases (cfg : config) (e : env) (w w' : world) :
  _executeGraduation cfg e w = Ok w' ->
  graduated (curve w) = false /\
  GRADUATION_THRESHOLD <= FAIRRaised (curve w) /\
  traderJoeRouter (curve w') = traderJoeRouter (curve w) /\
  tokensSold (curve w') = tokensSold (curve w) /\
  ((graduated (curve w') = false /\ curve w' = curve w /\
    native w' = native w /\ log w' = log w /\
    (addLiquidityFAIR e = VenueReverts \/
     balance w (this cfg) < LIQUIDITY_FAIR)) \/
   (graduated (curve w') = true /\ FAIRRaised (curve w') = 0 /\
    LIQUIDITY_FAIR <= balance w (this cfg) /\
    exists (a b lp : uint256) (t : LaunchToken.state)
           (n : gmap address uint256) (wn wx : world),
      addLiquidityFAIR e = VenueReturns a b lp t n /\
      native wn = n /\
      (if 0 <? FAIRRaised (curve w) - LIQUIDITY_FAIR then
         transfer_native e (this cfg) (treasury cfg)
           (FAIRRaised (curve w) - LIQUIDITY_FAIR) wn
       else Ok wn) = Ok wx /\
      native w' = native wx /\
      token w' = t /\
      log w' =
        Graduated LIQUIDITY_TOKENS LIQUIDITY_FAIR
          (FAIRRaised (curve w) - LIQUIDITY_FAIR) lp :: log w)).
Proof.
  intros H. unfold _executeGraduation in H. inv_ok H.
  split; [assumption|]. split; [assumption|].
  match type of H with
  | context [balance ?x (this cfg) <? _] =>
      change (balance x (this cfg)) with (balance w (this cfg)) in H
  end.
  destruct (balance w (this cfg) <? LIQUIDITY_FAIR) eqn:Hbal.
  { injection H as <-. cbn. split_and!; try reflexivity.
    left. split_and!; try reflexivity.
    - now apply set_graduated_undo.
    - right. now apply N.ltb_lt. }
  apply N.ltb_ge in Hbal.
  destruct (addLiquidityFAIR e) as [|a b lp t n] eqn:Hvenue.
  { injection H as <-. cbn. split_and!; try reflexivity.
    left. split_and!; try reflexivity.
    - now apply set_graduated_undo.
    - now left. }
  inv_ok H. injection H as <-. cbn.
  match goal with
  | Ht : (if _ then transfer_native _ _ _ _ ?wm else Ok ?wm) = Ok ?wx |- _ =>
      assert (Hw : curve wx = curve wm /\ token wx = token wm
                   /\ log wx = log wm)
        by (destruct (0 <? _) in Ht;
            [ apply transfer_native_inv in Ht as (? & ? & ? & _);
              now split_and!
            | injection Ht as <-; now split_and! ]);
      destruct Hw as (Hc & Ht' & Hl);
      rewrite Hc, Hl; cbn; split_and!; try reflexivity;
      right; split_and!; try reflexivity; try assumption;
      exists a, b, lp, t, n, wm, wx; split_and!; try reflexivity;
      [ exact Ht | rewrite Ht'; reflexivity ]
  end.
Qed.

End MoneySteps.


(** ** Who holds the money *)

Section Solvency.
Import BondingCurve Derived Chain.

Lemma buy_effects_native (cfg : config) (e : env) (recipient : address)
  (minTokensOut : uint256) (w w1 : world) :
  buy_effects cfg e recipient minTokensOut w = Ok w1 ->
  exists wm wx : world,
    native wm = native w /\
    (if 0 <? msg_value e * platformFeePercent cfg / 10000 then
       transfer_native e (this cfg) (treasury cfg)
         (msg_value e * platformFeePercent cfg / 10000) wm
     else Ok wm) = Ok wx /\
    native w1 = native wx.
Proof.
  intros H. unfold buy_effects in H. inv_ok H. injection H as <-.
  match goal with
  | Ht : (if _ then transfer_native _ _ _ _ ?wm else Ok ?wm) = Ok ?wx |- _ =>
      exists wm, wx; split_and!; [reflexivity | exact Ht | reflexivity]
  end.
Qed.

Lemma sellTokens_payout (cfg : config) (e : env)
  (tokenAmount minFAIROut : uint256) (w w' : world) :
  sellTokens cfg e tokenAmount minFAIROut w = Ok w' ->
  exists (FAIROut sellFee price : uint256) (wa wb wc : world),
    _calculateFAIROut (curve w) tokenAmount = Ok FAIROut /\
    getCurrentSellFee cfg (block_timestamp e) = Ok sellFee /\
    native wa = native w /\
    transfer_native e (this cfg) (msg_sender e)
      (FAIROut - FAIROut * sellFee / 10000) wa = Ok wb /\
    (if 0 <? FAIROut * sellFee / 10000 then
       transfer_native e (this cfg) (treasury cfg)
         (FAIROut * sellFee / 10000) wb
     else Ok wb) = Ok wc /\
    native w' = native wc /\
    getCurrentPrice (curve w') = Ok price.
Proof.
  intros H. unfold sellTokens, notGraduated in H. inv_ok H.
  injection H as <-.
  match goal with
  | Hout : _calculateFAIROut _ _ = Ok ?out,
    Hfee : getCurrentSellFee _ _ = Ok ?fee,
    Hprice : getCurrentPrice _ = Ok ?p,
    Hpay : transfer_native _ _ (msg_sender e) _ ?wa = Ok ?wb,
    Hcut : (if _ then transfer_native _ _ _ _ ?wb else Ok ?wb) = Ok ?wc
    |- _ =>
      exists out, fee, p, wa, wb, wc; split_and!;
        try assumption; try reflexivity
  end.
Qed.

Lemma buy_effects_solvent (cfg : config) (e : env) (recipient : address)
  (minTokensOut : uint256) (w0 w w1 : world) :
  msg_sender e <> this cfg ->
  receive_value cfg e w0 = Ok w ->
  buy_effects cfg e recipient minTokensOut w = Ok w1 ->
  FAIRRaised (curve w0) <= balance w0 (this cfg) ->
  FAIRRaised (curve w1) <= balance w1 (this cfg).
Proof.
  intros Hn Hr Hb Hinv.
  pose proof (receive_value_inv _ _ _ _ Hr) as (Hc & _).
  apply receive_value_balance in Hr as (_ & Hr & _).
  destruct (Hr Hn) as (Hthis & _).
  destruct (buy_effects_native _ _ _ _ _ _ Hb) as (wm & wx & Hm & Ht & Hx).
  apply buy_effects_inv in Hb as (pf & b & out & p & P). destruct P.
  rewrite p_curve0. cbn. rewrite Hc.
  rewrite (balance_native _ _ _ Hx).
  rewrite <- p_fee0 in Ht.
  assert (balance wm (this cfg) <= balance wx (this cfg) + pf).
  { destruct (0 <? pf) eqn:Hpf.
    - apply transfer_native_sender in Ht. lia.
    - injection Ht as <-. lia. }
  rewrite (balance_native _ _ _ Hm) in *. lia.
Qed.

Lemma _buyTokensFor_solvent (cfg : config) (e : env) (recipient : address)
  (minTokensOut : uint256) (w0 w w' : world) :
  msg_sender e <> this cfg ->
  receive_value cfg e w0 = Ok w ->
  _buyTokensFor cfg e recipient minTokensOut w = Ok w' ->
  FAIRRaised (curve w0) <= balance w0 (this cfg) ->
  FAIRRaised (curve w') <= balance w' (this cfg).
Proof.
  intros Hn Hr H Hinv. rewrite _buyTokensFor_split in H.
  apply bind_Ok_inv in H as (w1 & Hb & H).
  pose proof (buy_effects_solvent _ _ _ _ _ _ _ Hn Hr Hb Hinv) as H1.
  destruct (_ <=? _) in H; [|injection H as <-; exact H1].
  apply _executeGraduation_cases in H
    as (_ & _ & _ & _ & [(_ & Hc & Hnat & _)|(_ & -> & _)]); [|lia].
  rewrite Hc, (balance_native _ _ _ Hnat). exact H1.
Qed.

Lemma sellTokens_solvent (cfg : config) (e : env)
  (tokenAmount minFAIROut : uint256) (w w' : world) :
  sellTokens cfg e tokenAmount minFAIROut w = Ok w' ->
  FAIRRaised (curve w) <= balance w (this cfg) ->
  FAIRRaised (curve w') <= balance w' (this cfg).
Proof.
  intros H Hinv.
  destruct (sellTokens_payout _ _ _ _ _ _ H)
    as (g & fee & p & wa & wb & wc & Hg & Hfee & Ha & Hpay & Hcut & Hc & _).
  apply sellTokens_inv in H as (g' & fee' & cut & net & S). destruct S.
  assert (g' = g) as -> by congruence.
  assert (fee' = fee) as -> by congruence.
  rewrite s_curve0. cbn. rewrite (balance_native _ _ _ Hc).
  rewrite <- s_fee0 in *. rewrite <- s_net0 in *.
  apply transfer_native_sender in Hpay as (_ & Hpay & _).
  assert (balance wb (this cfg) <= balance wc (this cfg) + cut).
  { destruct (0 <? cut) eqn:Hpf.
    - apply transfer_native_sender in Hcut. lia.
    - injection Hcut as <-. lia. }
  rewrite (balance_native _ _ _ Ha) in *. lia.
Qed.

Lemma exec_solvent (cfg : config) (e : env) (c : call) (w w' : world) :
  msg_sender e <> this cfg ->
  c <> EmergencyWithdraw ->
  exec cfg e c w = Ok w' ->
  FAIRRaised (curve w) <= balance w (this cfg) ->
  FAIRRaised (curve w') <= balance w' (this cfg).
Proof.
  intros Hn Hc H Hinv. destruct c; cbn [exec] in H;
    try (apply on_token_frame in H as (-> & Hnat & _);
         rewrite (balance_native _ _ _ Hnat); exact Hinv).
  - unfold buyTokens in H. inv_ok H.
    eapply _buyTokensFor_solvent; eassumption.
  - unfold buyTokensFor in H. inv_ok H.
    eapply _buyTokensFor_solvent; eassumption.
  - eapply sellTokens_solvent; eassumption.
  - unfold setTraderJoeRouter in H. inv_ok H. injection H as <-. exact Hinv.
  - congruence.
  - unfold forceGraduation in H. inv_ok H.
    apply _executeGraduation_cases in H
      as (_ & _ & _ & _ & [(_ & Hcv & Hnat & _)|(_ & -> & _)]); [|lia].
    rewrite Hcv, (balance_native _ _ _ Hnat). exact Hinv.
Qed.

(** X3. The curve always holds at least [FAIRRaised] in native currency: every
    transaction keeps this, whoever sends it and whatever the router does,
    with the one exception of the factory's [emergencyWithdraw]. *)
Theorem curve_stays_solvent (cfg : config) (tr : list (env * call))
  (w : world) :
  Forall (fun ec => msg_sender (fst ec) <> this cfg /\
                    snd ec <> EmergencyWithdraw) tr ->
  FAIRRaised (curve w) <= balance w (this cfg) ->
  FAIRRaised (curve (run_all cfg tr w))
    <= balance (run_all cfg tr w) (this cfg).
Proof.
  revert w. induction tr as [|[e c] tr IH]; intros w Htr Hinv; [exact Hinv|].
  inversion Htr as [|? ? [Hn Hc] Htr']; subst. cbn [run_all].
  apply IH; [assumption|]. unfold run.
  destruct (exec cfg e c w) eqn:H; [|exact Hinv].
  eapply exec_solvent; eassumption.
Qed.

(** X4. [emergencyWithdraw] moves the curve's whole balance to the treasury and
    leaves the curve's books as they were; from then on no sale can be
    paid, so every [sellTokens] reverts, whatever the seller holds. *)
Theorem emergencyWithdraw_halts_sales (cfg : config) (e : env)
  (w w1 : world) :
  treasury cfg <> this cfg ->
  emergencyWithdraw cfg e w = Ok w1 ->
  msg_sender e = factory cfg /\
  curve w1 = curve w /\ token w1 = token w /\
  balance w1 (this cfg) = 0 /\
  balance w1 (treasury cfg) = balance w (treasury cfg) + balance w (this cfg)
  /\
  forall (e' : env) (tokenAmount minFAIROut : uint256) (w2 : world),
    sellTokens cfg e' tokenAmount minFAIROut w1 <> Ok w2.
Proof.
  intros Hn H. unfold emergencyWithdraw, onlyFactory in H. inv_ok H.
  pose proof (transfer_native_balance _ _ _ _ _ _ (this cfg) H) as Hthis.
  pose proof (transfer_native_balance _ _ _ _ _ _ (treasury cfg) H) as Htr.
  apply transfer_native_inv in H as (Hc & Ht & _).
  destruct (decide (this cfg = treasury cfg)); [congruence|].
  destruct (decide (this cfg = this cfg)); [|congruence].
  destruct (decide (treasury cfg = treasury cfg)); [|congruence].
  destruct (decide (treasury cfg = this cfg)); [congruence|].
  rewrite N.sub_diag in Hthis.
  split_and!; try assumption.
  intros e' a m w2 Hsell.
  destruct (sellTokens_payout _ _ _ _ _ _ Hsell)
    as (g & fee & p & wa & wb & wc & Hg & Hfee & Ha & Hpay & Hcut & _).
  apply sellTokens_inv in Hsell as (g' & fee' & cut & net & S). destruct S.
  assert (g' = g) as -> by congruence.
  assert (fee' = fee) as -> by congruence.
  rewrite <- s_fee0 in *. rewrite <- s_net0 in *.
  apply transfer_native_sender in Hpay as (Hnet & _ & Hafter & _).
  rewrite (balance_native _ _ _ Ha), Hthis in *.
  destruct (0 <? cut) eqn:Hpf.
  - apply transfer_native_sender in Hcut as (Hcut & _).
    apply N.ltb_lt in Hpf. lia.
  - apply N.ltb_ge in Hpf. lia.
Qed.

End Solvency.


(** ** The router address and the factory's privileges *)

Section Privileges.
Import BondingCurve Derived Chain.

Lemma _buyTokensFor_router (cfg : config) (e : env) (recipient : address)
  (minTokensOut : uint256) (w w' : world) :
  _buyTokensFor cfg e recipient minTokensOut w = Ok w' ->
  traderJoeRouter (curve w') = traderJoeRouter (curve w).
Proof.
  intros H. rewrite _buyTokensFor_split in H.
  apply bind_Ok_inv in H as (w1 & Hb & H).
  apply buy_effects_inv in Hb as (pf & b & out & p & P). destruct P.
  assert (H1 : traderJoeRouter (curve w1) = traderJoeRouter (curve w))
    by (rewrite p_curve0; reflexivity).
  destruct (_ <=? _) in H; [|injection H as <-; exact H1].
  apply _executeGraduation_cases in H as (_ & _ & -> & _). exact H1.
Qed.

Lemma exec_router (cfg : config) (e : env) (c : call) (w w' : world) :
  exec cfg e c w = Ok w' ->
  traderJoeRouter (curve w') = traderJoeRouter (curve w) \/
  (msg_sender e = factory cfg /\
   c = SetTraderJoeRouter (traderJoeRouter (curve w')) /\
   traderJoeRouter (curve w') <> 0).
Proof.
  intros H. destruct c; cbn [exec] in H;
    try (apply on_token_frame in H as (-> & _); now left).
  - unfold buyTokens in H. inv_ok H.
    match goal with
    | Hr : receive_value _ _ _ = Ok _ |- _ =>
        apply receive_value_inv in Hr as (<- & _)
    end.
    left. eapply _buyTokensFor_router; eassumption.
  - unfold buyTokensFor in H. inv_ok H.
    match goal with
    | Hr : receive_value _ _ _ = Ok _ |- _ =>
        apply receive_value_inv in Hr as (<- & _)
    end.
    left. eapply _buyTokensFor_router; eassumption.
  - apply sellTokens_inv in H as (g & fee & cut & net & S). destruct S.
    left. rewrite s_curve0. reflexivity.
  - unfold setTraderJoeRouter, onlyFactory in H. inv_ok H.
    injection H as <-. right. cbn. split_and!; try assumption; try reflexivity.
    match goal with
    | Hz : (_ =? 0) = false |- _ => now apply N.eqb_neq in Hz
    end.
  - unfold emergencyWithdraw in H. inv_ok H.
    apply transfer_native_inv in H as (-> & _). now left.
  - unfold forceGraduation in H. inv_ok H.
    apply _executeGraduation_cases in H as (_ & _ & -> & _). now left.
Qed.

Lemma constructor_router (chainId : N) :
  traderJoeRouter (constructor chainId) <> 0.
Proof.
  unfold constructor. cbn.
  destruct (chainId =? 43113); [discriminate|].
  destruct (chainId =? 43114); discriminate.
Qed.

(** X5. The router address is changed by nothing but a successful
    [setTraderJoeRouter] sent by the factory, and it is never the zero
    address: not in the constructor on any chain, and not after any
    sequence of transactions on the deployed pair. *)
Theorem router_set_only_by_factory (cfg : config) :
  (forall (e : env) (c : call) (w w' : world),
     exec cfg e c w = Ok w' ->
     traderJoeRouter (curve w') <> traderJoeRouter (curve w) ->
     msg_sender e = factory cfg /\
     c = SetTraderJoeRouter (traderJoeRouter (curve w'))) /\
  (forall (chainId : N) (_creator : address) (funds : gmap address uint256)
          (tr : list (env * call)),
     traderJoeRouter
       (curve (run_all cfg tr (deploy cfg chainId _creator funds)))
     <> 0).
Proof.
  split.
  - intros e c w w' H Hne.
    destruct (exec_router _ _ _ _ _ H) as [Heq|(Hs & Hc & _)];
      [congruence | now split].
  - intros chainId _creator funds tr.
    assert (Hall : forall w, traderJoeRouter (curve w) <> 0 ->
              traderJoeRouter (curve (run_all cfg tr w)) <> 0).
    { induction tr as [|[e c] tr IH]; intros w Hw; [exact Hw|].
      cbn [run_all]. apply IH. unfold run.
      destruct (exec cfg e c w) eqn:H; [|exact Hw].
      destruct (exec_router _ _ _ _ _ H) as [Heq|(_ & _ & Hnz)];
        [congruence | exact Hnz]. }
    apply Hall. apply constructor_router.
Qed.

(** X6. A caller other than the factory is turned away by each of the three
    administrative functions and by [buyTokensFor], and the transaction
    changes nothing. *)
Theorem factory_only_calls (cfg : config) (e : env) (w : world) :
  msg_sender e <> factory cfg ->
  (forall r : address,
     setTraderJoeRouter cfg e r w = Revert (Error "Only factory")) /\
  emergencyWithdraw cfg e w = Revert (Error "Only factory") /\
  forceGraduation cfg e w = Revert (Error "Only factory") /\
  (forall (r : address) (m : uint256),
     msg_value e <= balance w (msg_sender e) ->
     graduated (curve w) = false ->
     buyTokensFor cfg e r m w = Revert (Error "Only factory")) /\
  (forall c : call,
     (exists r m, c = BuyTokensFor r m) \/
     (exists r, c = SetTraderJoeRouter r) \/
     c = EmergencyWithdraw \/ c = ForceGraduation ->
     run cfg e c w = w).
Proof.
  intros Hn.
  assert (Hf : (msg_sender e =? factory cfg) = false)
    by now apply N.eqb_neq.
  assert (H1 : forall r,
            setTraderJoeRouter cfg e r w = Revert (Error "Only factory"))
    by (intros r; unfold setTraderJoeRouter, onlyFactory; now rewrite Hf).
  assert (H2 : emergencyWithdraw cfg e w = Revert (Error "Only factory"))
    by (unfold emergencyWithdraw, onlyFactory; now rewrite Hf).
  assert (H3 : forceGraduation cfg e w = Revert (Error "Only factory"))
    by (unfold forceGraduation, onlyFactory; now rewrite Hf).
  split_and!; try assumption.
  - intros r m Hb Hg. unfold buyTokensFor, receive_value.
    apply N.ltb_ge in Hb. rewrite Hb. cbn. unfold notGraduated. cbn.
    rewrite Hg. cbn. now rewrite Hf.
  - intros c [(r & m & ->)|[(r & ->)|[->| ->]]]; unfold run; cbn [exec];
      rewrite ?H1, ?H2, ?H3; try reflexivity.
    destruct (buyTokensFor cfg e r m w) eqn:H; [|reflexivity].
    unfold buyTokensFor in H. inv_ok H. congruence.
Qed.

(** X7. A graduation that goes through: the router returned and the curve
    held the liquidity it attached; [FAIRRaised] is reset to zero while
    [tokensSold] stays; the treasury is paid everything raised above
    [LIQUIDITY_FAIR], which is more than 2217 FAIR; and a [Graduated] event
    records the split. *)
Theorem graduation_outcome (cfg : config) (e : env) (w w' : world) :
  _executeGraduation cfg e w = Ok w' ->
  graduated (curve w') = true ->
  GRADUATION_THRESHOLD <= FAIRRaised (curve w) /\
  LIQUIDITY_FAIR <= balance w (this cfg) /\
  FAIRRaised (curve w') = 0 /\
  tokensSold (curve w') = tokensSold (curve w) /\
  2217 * ether <= FAIRRaised (curve w) - LIQUIDITY_FAIR /\
  accepts e (treasury cfg) = true /\
  exists (a b lp : uint256) (t : LaunchToken.state)
         (n : gmap address uint256),
    addLiquidityFAIR e = VenueReturns a b lp t n /\
    token w' = t /\
    FAIRRaised (curve w) - LIQUIDITY_FAIR <= default 0 (n !! this cfg) /\
    (treasury cfg <> this cfg ->
     balance w' (treasury cfg)
     = default 0 (n !! treasury cfg)
       + (FAIRRaised (curve w) - LIQUIDITY_FAIR) /\
     balance w' (this cfg)
     = default 0 (n !! this cfg) - (FAIRRaised (curve w) - LIQUIDITY_FAIR))
    /\
    log w' =
      Graduated LIQUIDITY_TOKENS LIQUIDITY_FAIR
        (FAIRRaised (curve w) - LIQUIDITY_FAIR) lp :: log w.
Proof.
  intros H Hg.
  apply _executeGraduation_cases in H
    as (_ & Hth & _ & Hs & [(Hg' & _)|(_ & Hr & Hbal & Hv)]); [congruence|].
  destruct Hv as (a & b & lp & t & n & wn & wx & Hv & Hn & Ht & Hx & Htok
                  & Hlog).
  assert (Hteam : 2217 * ether <= FAIRRaised (curve w) - LIQUIDITY_FAIR).
  { revert Hth. unfold GRADUATION_THRESHOLD, LIQUIDITY_FAIR.
    change (2217 * ether) with 2217000000000000000000. lia. }
  assert (Hpos : (0 <? FAIRRaised (curve w) - LIQUIDITY_FAIR) = true).
  { apply N.ltb_lt. revert Hteam.
    change (2217 * ether) with 2217000000000000000000. lia. }
  rewrite Hpos in Ht.
  pose proof (transfer_native_balance _ _ _ _ _ _ (treasury cfg) Ht) as Htr.
  pose proof (transfer_native_balance _ _ _ _ _ _ (this cfg) Ht) as Hth'.
  apply transfer_native_inv in Ht as (_ & _ & _ & Hle & Hacc).
  split_and!; try assumption.
  exists a, b, lp, t, n. split_and!; try assumption.
  - unfold balance in Hle. rewrite Hn in Hle. exact Hle.
  - intros Hne. rewrite !(balance_native _ _ _ Hx), Htr, Hth'.
    destruct (decide (treasury cfg = treasury cfg)); [|congruence].
    destruct (decide (treasury cfg = this cfg)); [congruence|].
    destruct (decide (this cfg = treasury cfg)); [congruence|].
    destruct (decide (this cfg = this cfg)); [|congruence].
    unfold balance. rewrite Hn. split; reflexivity.
Qed.

End Privileges.


(** ** Prices and amounts along the curve *)

Section CurveShape.
Import BondingCurve Derived Chain.

Lemma price_le (R R' T T' : N) :
  R <= R' -> 0 < T' -> T' <= T ->
  R * 10 ^ 18 / T <= R' * 10 ^ 18 / T'.
Proof.
  intros HR HT' HT.
  transitivity (R * 10 ^ 18 / T').
  - apply N.div_le_compat_l. lia.
  - apply N.Div0.div_le_mono. apply N.mul_le_mono_r. exact HR.
Qed.

Lemma _calculateFAIROut_fits (c : storage) (amount out : uint256) :
  _calculateFAIROut c amount = Ok out ->
  (VIRTUAL_FAIR_RESERVES + FAIRRaised c)
    * (VIRTUAL_TOKEN_RESERVES - tokensSold c) <= MAX_UINT256 /\
  out <= VIRTUAL_FAIR_RESERVES + FAIRRaised c.
Proof.
  intros H. unfold _calculateFAIROut in H. inv_ok H.
  split; [assumption|]. apply N.le_sub_l.
Qed.

(** X8. Each buy that does not end in a graduation leaves the spot price at
    least where it was, and each sale leaves it at most where it was; the
    price is never below one wei per token.  (A completed graduation resets
    [FAIRRaised] and with it the price.) *)
Theorem price_follows_trades (cfg : config) (e : env) (w w' : world) :
  tokensSold (curve w) <= GRADUATION_SUPPLY ->
  (forall m : uint256,
     buyTokens cfg e m w = Ok w' ->
     graduated (curve w') = false ->
     exists p0 p1 : uint256,
       getCurrentPrice (curve w) = Ok p0 /\
       getCurrentPrice (curve w') = Ok p1 /\ 1 <= p0 /\ p0 <= p1) /\
  (forall a m : uint256,
     sellTokens cfg e a m w = Ok w' ->
     exists p0 p1 : uint256,
       getCurrentPrice (curve w) = Ok p0 /\
       getCurrentPrice (curve w') = Ok p1 /\ 1 <= p1 /\ p1 <= p0).
Proof.
  intros Hcap.
  assert (HT : 10 ^ 18 <= VIRTUAL_TOKEN_RESERVES - tokensSold (curve w)).
  { revert Hcap. unfold GRADUATION_SUPPLY, VIRTUAL_TOKEN_RESERVES.
    change (10 ^ 18) with 1000000000000000000. lia. }
  assert (Hlt : tokensSold (curve w) < VIRTUAL_TOKEN_RESERVES).
  { revert Hcap. unfold GRADUATION_SUPPLY, VIRTUAL_TOKEN_RESERVES. lia. }
  split.
  - intros m H Hopen. unfold buyTokens in H. inv_ok H.
    match goal with
    | Hr : receive_value _ _ _ = Ok _ |- _ =>
        apply receive_value_inv in Hr as (Hcr & _)
    end.
    rewrite _buyTokensFor_split in H.
    apply bind_Ok_inv in H as (w1 & Hb & H).
    apply buy_effects_inv in Hb as (pf & b & out & p & P). destruct P.
    assert (Hc : curve w' = curve w1).
    { destruct (_ <=? _) in H.
      - eapply _executeGraduation_open; eassumption.
      - now injection H as <-. }
    rewrite Hc. rewrite Hcr in *.
    apply getCurrentPrice_inv in p_price0 as Hp.
    rewrite p_curve0 in Hp. cbn in Hp. destruct Hp as (Hfit & Hsold & ->).
    exists ((VIRTUAL_FAIR_RESERVES + FAIRRaised (curve w)) * 10 ^ 18
            / (VIRTUAL_TOKEN_RESERVES - tokensSold (curve w))).
    eexists. split_and!.
    + apply getCurrentPrice_Ok; [|exact Hlt].
      etransitivity; [|exact Hfit]. apply N.mul_le_mono_r. lia.
    + exact p_price0.
    + now apply spot_price_positive.
    + apply price_le; lia.
  - intros a m H.
    destruct (sellTokens_payout _ _ _ _ _ _ H)
      as (g & fee & p & wa & wb & wc & Hg & _ & _ & _ & _ & _ & Hp).
    apply sellTokens_inv in H as (g' & fee' & cut & net & S). destruct S.
    assert (g' = g) as -> by congruence.
    apply _calculateFAIROut_fits in Hg as (Hfit & _).
    apply getCurrentPrice_inv in Hp as Hp'.
    rewrite s_curve0 in Hp'. cbn in Hp'. destruct Hp' as (_ & Hsold & ->).
    exists ((VIRTUAL_FAIR_RESERVES + FAIRRaised (curve w)) * 10 ^ 18
            / (VIRTUAL_TOKEN_RESERVES - tokensSold (curve w))).
    eexists. split_and!.
    + apply getCurrentPrice_Ok; [|exact Hlt].
      etransitivity; [|exact Hfit]. apply N.mul_le_mono_l. exact HT.
    + exact Hp.
    + now apply spot_price_positive.
    + apply price_le; lia.
Qed.

(** X9. More FAIR never buys fewer tokens and more tokens never sell for less
    FAIR; a buy never yields more than the supply left below the cap, and a
    sale never more than the virtual and real reserve together. *)
Theorem curve_outputs_monotone (c : storage) (a b x y : uint256) :
  a <= b ->
  (_calculateTokensOut c a = Ok x -> _calculateTokensOut c b = Ok y ->
   x <= y /\ y <= GRADUATION_SUPPLY - tokensSold c) /\
  (_calculateFAIROut c a = Ok x -> _calculateFAIROut c b = Ok y ->
   x <= y /\ y <= VIRTUAL_FAIR_RESERVES + FAIRRaised c).
Proof.
  intros Hab. split; intros Hx Hy.
  - apply _calculateTokensOut_inv in Hx, Hy. cbv zeta in Hx, Hy.
    destruct Hx as (_ & _ & _ & ->), Hy as (_ & _ & _ & ->).
    split; [|apply N.le_min_r].
    apply N.min_le_compat_r. apply N.sub_le_mono_l.
    destruct (N.eq_dec (VIRTUAL_FAIR_RESERVES + FAIRRaised c + a) 0) as [Hz|Hz].
    + exfalso. revert Hz. unfold VIRTUAL_FAIR_RESERVES. lia.
    + apply N.div_le_compat_l. lia.
  - apply _calculateFAIROut_fits in Hy as Hfit. destruct Hfit as (_ & Hle).
    apply _calculateFAIROut_inv in Hx, Hy. cbv zeta in Hx, Hy.
    destruct Hx as (_ & ->), Hy as (_ & ->).
    split; [|apply N.le_sub_l].
    apply N.sub_le_mono_l.
    destruct (N.eq_dec (VIRTUAL_TOKEN_RESERVES - tokensSold c + a) 0)
      as [Hz|Hz].
    + assert (VIRTUAL_TOKEN_RESERVES - tokensSold c = 0) as -> by lia.
      rewrite N.mul_0_r, !N.Div0.div_0_l. reflexivity.
    + apply N.div_le_compat_l. lia.
Qed.

End CurveShape.


(** ** The ledger's roles and the trades' books *)

Section Books.
Import BondingCurve Derived Chain Ledger.

Lemma ERC20_update_frame (from to : address) (v : uint256)
  (t t' : LaunchToken.state) :
  LaunchToken.ERC20_update from to v t = Ok t' ->
  LaunchToken.minter t' = LaunchToken.minter t /\
  LaunchToken.tradingEnabled t' = LaunchToken.tradingEnabled t /\
  LaunchToken.creator t' = LaunchToken.creator t /\
  LaunchToken.launchTime t' = LaunchToken.launchTime t /\
  LaunchToken._allowances t' = LaunchToken._allowances t.
Proof.
  unfold LaunchToken.ERC20_update. intros H.
  apply bind_Ok_inv in H as (t1 & H1 & H).
  assert (LaunchToken.minter t1 = LaunchToken.minter t /\
          LaunchToken.tradingEnabled t1 = LaunchToken.tradingEnabled t /\
          LaunchToken.creator t1 = LaunchToken.creator t /\
          LaunchToken.launchTime t1 = LaunchToken.launchTime t /\
          LaunchToken._allowances t1 = LaunchToken._allowances t)
    as (<- & <- & <- & <- & <-).
  { destruct (from =? 0).
    - inv_ok H1. injection H1 as <-. now split_and!.
    - destruct (_ <? _) in H1; [discriminate|].
      injection H1 as <-. now split_and!. }
  destruct (to =? 0); injection H as <-; now split_and!.
Qed.

Lemma _update_frame (from to : address) (v : uint256)
  (t t' : LaunchToken.state) :
  LaunchToken._update from to v t = Ok t' ->
  LaunchToken.minter t' = LaunchToken.minter t /\
  LaunchToken.tradingEnabled t' = LaunchToken.tradingEnabled t /\
  LaunchToken.creator t' = LaunchToken.creator t /\
  LaunchToken.launchTime t' = LaunchToken.launchTime t /\
  LaunchToken._allowances t' = LaunchToken._allowances t.
Proof.
  unfold LaunchToken._update. intros H.
  destruct (_ || _) in H; [now apply ERC20_update_frame in H|].
  destruct (_ || _) in H; [now apply ERC20_update_frame in H|].
  inv_ok H. now apply ERC20_update_frame in H.
Qed.

Lemma _spendAllowance_inv (owner spender : address) (v : uint256)
  (t t' : LaunchToken.state) :
  LaunchToken._spendAllowance owner spender v t = Ok t' ->
  (LaunchToken.allowance t owner spender = MAX_UINT256 \/
   MAX_UINT256 < LaunchToken.allowance t owner spender \/
   v <= LaunchToken.allowance t owner spender) /\
  LaunchToken.minter t' = LaunchToken.minter t /\
  LaunchToken.tradingEnabled t' = LaunchToken.tradingEnabled t /\
  LaunchToken.creator t' = LaunchToken.creator t /\
  LaunchToken.launchTime t' = LaunchToken.launchTime t /\
  LaunchToken._balances t' = LaunchToken._balances t /\
  LaunchToken._totalSupply t' = LaunchToken._totalSupply t.
Proof.
  unfold LaunchToken._spendAllowance, LaunchToken._approve. intros H.
  destruct (_ <? MAX_UINT256) eqn:Hmax in H.
  - destruct (_ <? v) eqn:Hv in H; [discriminate|].
    apply N.ltb_ge in Hv.
    destruct (owner =? 0); [discriminate|].
    destruct (spender =? 0); [discriminate|].
    injection H as <-. split_and!; try reflexivity. right. now right.
  - injection H as <-. apply N.ltb_ge in Hmax. split_and!; try reflexivity.
    lia.
Qed.

Lemma burnFrom_inv (spender account : address) (v : uint256)
  (t t' : LaunchToken.state) :
  LaunchToken.burnFrom spender account v t = Ok t' ->
  account <> 0 /\
  v <= LaunchToken.balanceOf t account /\
  (MAX_UINT256 <= LaunchToken.allowance t account spender \/
   v <= LaunchToken.allowance t account spender) /\
  LaunchToken.balanceOf t' account = LaunchToken.balanceOf t account - v /\
  (forall c : address,
     c <> account ->
     LaunchToken.balanceOf t' c = LaunchToken.balanceOf t c) /\
  LaunchToken._totalSupply t' = wrap_sub (LaunchToken._totalSupply t) v.
Proof.
  unfold LaunchToken.burnFrom. intros H.
  apply bind_Ok_inv in H as (t1 & Hs & H).
  apply _spendAllowance_inv in Hs as (Hal & _ & _ & _ & _ & Hb & Hts).
  unfold LaunchToken._burn in H.
  destruct (account =? 0) eqn:Ha; [discriminate|]. apply N.eqb_neq in Ha.
  unfold LaunchToken._update in H. rewrite N.eqb_refl, orb_true_r in H.
  unfold LaunchToken.ERC20_update in H.
  assert ((account =? 0) = false) as Hz by now apply N.eqb_neq.
  rewrite Hz, N.eqb_refl in H. cbn in H.
  assert (Hbal : forall c, LaunchToken.balanceOf t1 c
                           = LaunchToken.balanceOf t c)
    by (intros c; unfold LaunchToken.balanceOf; now rewrite Hb).
  destruct (_ <? v) eqn:Hv in H; [discriminate|]. apply N.ltb_ge in Hv.
  cbn in H. injection H as <-. rewrite Hbal in Hv.
  split_and!; try assumption.
  - lia.
  - unfold LaunchToken.balanceOf at 1. cbn.
    rewrite lookup_insert_eq. cbn. now rewrite Hbal.
  - intros c Hc. unfold LaunchToken.balanceOf at 1. cbn.
    rewrite lookup_insert_ne by congruence. apply Hbal.
  - cbn. now rewrite Hts.
Qed.

(** X10. The curve burns what it buys back through [burnFrom], so a holder who
    has not approved the curve for the amount cannot sell: [sellTokens]
    never succeeds and the transaction changes nothing. *)
Theorem sale_needs_allowance (cfg : config) (e : env)
  (tokenAmount minFAIROut : uint256) (w : world) :
  tokenAmount <= MAX_UINT256 ->
  LaunchToken.allowance (token w) (msg_sender e) (this cfg) < tokenAmount ->
  (forall w' : world, sellTokens cfg e tokenAmount minFAIROut w <> Ok w') /\
  run cfg e (SellTokens tokenAmount minFAIROut) w = w.
Proof.
  intros Hmax Hlow.
  assert (Hno : forall w', sellTokens cfg e tokenAmount minFAIROut w <> Ok w').
  { intros w' H.
    apply sellTokens_inv in H as (g & fee & cut & net & S). destruct S.
    apply burnFrom_inv in s_burn0 as (_ & _ & [Hinf|Hok] & _); lia. }
  split; [exact Hno|]. unfold run. cbn [exec].
  destruct (sellTokens cfg e tokenAmount minFAIROut w) as [w'|f];
    [|reflexivity].
  exfalso. exact (Hno w' eq_refl).
Qed.

(** X11. The books of a sale.  The seller's tokens are burnt and taken off
    [tokensSold]; the gross amount leaves [FAIRRaised] and the curve's
    balance, the seller is paid the net amount, which is at least
    [minFAIROut], and the treasury the fee. *)
Theorem sale_accounting (cfg : config) (e : env)
  (tokenAmount minFAIROut : uint256) (w w' : world) :
  msg_sender e <> this cfg -> msg_sender e <> treasury cfg ->
  treasury cfg <> this cfg ->
  sellTokens cfg e tokenAmount minFAIROut w = Ok w' ->
  exists FAIROut feeAmount : uint256,
    _calculateFAIROut (curve w) tokenAmount = Ok FAIROut /\
    feeAmount <= FAIROut /\ minFAIROut <= FAIROut - feeAmount /\
    tokensSold (curve w') = tokensSold (curve w) - tokenAmount /\
    FAIRRaised (curve w') = FAIRRaised (curve w) - FAIROut /\
    LaunchToken.balanceOf (token w') (msg_sender e)
    = LaunchToken.balanceOf (token w) (msg_sender e) - tokenAmount /\
    LaunchToken._totalSupply (token w')
    = wrap_sub (LaunchToken._totalSupply (token w)) tokenAmount /\
    balance w' (this cfg) = balance w (this cfg) - FAIROut /\
    FAIROut <= balance w (this cfg) /\
    balance w' (msg_sender e)
    = balance w (msg_sender e) + (FAIROut - feeAmount) /\
    balance w' (treasury cfg) = balance w (treasury cfg) + feeAmount.
Proof.
  intros Hn1 Hn2 Hn3 H.
  destruct (sellTokens_payout _ _ _ _ _ _ H)
    as (g & fee & p & wa & wb & wc & Hg & Hfee & Ha & Hpay & Hcut & Hc & _).
  apply sellTokens_inv in H as (g' & fee' & cut & net & S). destruct S.
  assert (g' = g) as -> by congruence.
  assert (fee' = fee) as -> by congruence.
  rewrite <- s_fee0 in *. rewrite <- s_net0 in *.
  apply burnFrom_inv in s_burn0 as (_ & _ & _ & Hbal & _ & Hts).
  exists g, cut. subst net.
  pose proof (transfer_native_balance _ _ _ _ _ _ (this cfg) Hpay) as Hb1.
  pose proof (transfer_native_balance _ _ _ _ _ _ (treasury cfg) Hpay) as Hb2.
  apply transfer_native_inv in Hpay as (_ & _ & _ & Hle1 & _).
  repeat (destruct (decide _) in Hb1; try congruence).
  repeat (destruct (decide _) in Hb2; try congruence).
  assert (Hfinal : balance wc (this cfg) = balance wb (this cfg) - cut /\
                   cut <= balance wb (this cfg) /\
                   balance wc (treasury cfg) = balance wb (treasury cfg) + cut).
  { destruct (0 <? cut) eqn:Hpos.
    - pose proof (transfer_native_balance _ _ _ _ _ _ (this cfg) Hcut) as Hb3.
      pose proof (transfer_native_balance _ _ _ _ _ _ (treasury cfg) Hcut)
        as Hb4.
      apply transfer_native_inv in Hcut as (_ & _ & _ & Hle2 & _).
      repeat (destruct (decide _) in Hb3; try congruence).
      repeat (destruct (decide _) in Hb4; try congruence).
      now split_and!.
    - injection Hcut as <-. apply N.ltb_ge in Hpos.
      assert (cut = 0) as -> by lia. split_and!; lia. }
  destruct Hfinal as (Hf1 & Hf2 & Hf3).
  pose proof (balance_native w wa (this cfg) Ha) as Ha1.
  pose proof (balance_native w wa (treasury cfg) Ha) as Ha2.
  rewrite ?Ha1, ?Ha2 in *.
  split_and!; try assumption.
  - rewrite s_curve0. reflexivity.
  - rewrite s_curve0. reflexivity.
  - rewrite (balance_native _ _ _ Hc), Hf1, Hb1. lia.
  - lia.
  - now apply s_paid0.
  - rewrite (balance_native _ _ _ Hc), Hf3, Hb2. reflexivity.
Qed.

End Books.


(** ** Purchases, roles and views *)

Section Purchases.
Import BondingCurve Derived Chain Ledger.

(** X12. The books of a purchase that stays below the graduation threshold.
    The payment is split into the platform fee, which goes to the treasury,
    and the rest, which stays in the curve and is added to [FAIRRaised]; the
    tokens, at least [minTokensOut] of them, are minted to the buyer and
    added to [tokensSold]. *)
Theorem purchase_accounting (cfg : config) (e : env) (minTokensOut : uint256)
  (w w' : world) :
  msg_sender e <> this cfg -> msg_sender e <> treasury cfg ->
  treasury cfg <> this cfg ->
  FAIRRaised (curve w) + msg_value e < GRADUATION_THRESHOLD ->
  buyTokens cfg e minTokensOut w = Ok w' ->
  exists platformFee tokensOut : uint256,
    platformFee = msg_value e * platformFeePercent cfg / 10000 /\
    platformFee <= msg_value e /\
    _calculateTokensOut (curve w) (msg_value e - platformFee) = Ok tokensOut /\
    0 < tokensOut /\ minTokensOut <= tokensOut /\
    tokensSold (curve w') = tokensSold (curve w) + tokensOut /\
    FAIRRaised (curve w')
    = FAIRRaised (curve w) + (msg_value e - platformFee) /\
    graduated (curve w') = false /\
    LaunchToken._totalSupply (token w')
    = LaunchToken._totalSupply (token w) + tokensOut /\
    LaunchToken.balanceOf (token w') (msg_sender e)
    = wrap_add (LaunchToken.balanceOf (token w) (msg_sender e)) tokensOut /\
    balance w' (msg_sender e) = balance w (msg_sender e) - msg_value e /\
    balance w' (this cfg)
    = balance w (this cfg) + (msg_value e - platformFee) /\
    balance w' (treasury cfg) = balance w (treasury cfg) + platformFee.
Proof.
  intros Hn1 Hn2 Hn3 Hlow H. unfold buyTokens, notGraduated in H. inv_ok H.
  match goal with
  | Hr : receive_value _ _ ?w0 = Ok ?wr |- _ =>
      pose proof (receive_value_inv _ _ _ _ Hr) as (Hcr & Htr & _);
      apply receive_value_balance in Hr as (Hval & Hr1 & Hr2);
      destruct (Hr1 Hn1) as (Hrthis & Hrsender);
      pose proof (Hr2 (treasury cfg) Hn3 ltac:(congruence)) as Hrtreasury
  end.
  rewrite _buyTokensFor_split in H.
  apply bind_Ok_inv in H as (w1 & Hb & H).
  destruct (buy_effects_native _ _ _ _ _ _ Hb) as (wm & wx & Hm & Ht & Hx).
  apply buy_effects_inv in Hb as (pf & b & out & p & P). destruct P.
  rewrite Hcr, Htr in *.
  assert (Hraised : FAIRRaised (curve w1) < GRADUATION_THRESHOLD).
  { rewrite p_curve0. cbn. lia. }
  apply N.leb_gt in Hraised. rewrite Hraised in H. injection H as <-.
  rewrite <- p_fee0 in Ht. subst b.
  apply mint_inv in p_mint0 as (_ & _ & _ & Hmint).
  assert (Hfinal :
            balance wx (this cfg) = balance wm (this cfg) - pf /\
            pf <= balance wm (this cfg) /\
            balance wx (treasury cfg) = balance wm (treasury cfg) + pf /\
            balance wx (msg_sender e) = balance wm (msg_sender e)).
  { destruct (0 <? pf) eqn:Hpos.
    - pose proof (transfer_native_balance _ _ _ _ _ _ (this cfg) Ht) as Hb3.
      pose proof (transfer_native_balance _ _ _ _ _ _ (treasury cfg) Ht)
        as Hb4.
      pose proof (transfer_native_balance _ _ _ _ _ _ (msg_sender e) Ht)
        as Hb5.
      apply transfer_native_inv in Ht as (_ & _ & _ & Hle2 & _).
      repeat (destruct (decide _) in Hb3; try congruence).
      repeat (destruct (decide _) in Hb4; try congruence).
      repeat (destruct (decide _) in Hb5; try congruence).
      now split_and!.
    - injection Ht as <-. apply N.ltb_ge in Hpos.
      assert (pf = 0) as -> by lia. split_and!; lia. }
  destruct Hfinal as (Hf1 & Hf2 & Hf3 & Hf4).
  pose proof (balance_native _ _ (this cfg) Hm) as Hm1.
  pose proof (balance_native _ _ (treasury cfg) Hm) as Hm2.
  pose proof (balance_native _ _ (msg_sender e) Hm) as Hm3.
  pose proof (balance_native _ _ (this cfg) Hx) as Hx1.
  pose proof (balance_native _ _ (treasury cfg) Hx) as Hx2.
  pose proof (balance_native _ _ (msg_sender e) Hx) as Hx3.
  exists pf, out. split_and!; try assumption.
  - rewrite p_curve0. reflexivity.
  - rewrite p_curve0. reflexivity.
  - rewrite p_curve0. cbn. congruence.
  - rewrite Hmint. reflexivity.
  - rewrite Hmint. rewrite balanceOf_set_balance.
    destruct (decide (msg_sender e = msg_sender e)); [|congruence].
    reflexivity.
  - congruence.
  - rewrite Hx1, Hf1, Hm1, Hrthis. lia.
  - rewrite Hx2, Hf3, Hm2, Hrtreasury. reflexivity.
Qed.

(** X13. Calls to the ledger touch neither the curve nor the native balances;
    they leave [creator] and [launchTime] alone; the minter, once set to a
    non-zero address, is never changed, and is changed by [setMinter]
    alone; trading, once enabled, is never disabled, and is enabled by the
    minter alone. *)
Theorem ledger_calls_keep_roles (cfg : config) (e : env) (c : call)
  (w w' : world) :
  is_ledger_call c = true ->
  exec cfg e c w = Ok w' ->
  curve w' = curve w /\ native w' = native w /\ log w' = log w /\
  LaunchToken.creator (token w') = LaunchToken.creator (token w) /\
  LaunchToken.launchTime (token w') = LaunchToken.launchTime (token w) /\
  (LaunchToken.minter (token w) <> 0 ->
   LaunchToken.minter (token w') = LaunchToken.minter (token w)) /\
  (LaunchToken.minter (token w') <> LaunchToken.minter (token w) ->
   c = TokenSetMinter (LaunchToken.minter (token w'))) /\
  (LaunchToken.tradingEnabled (token w) = true ->
   LaunchToken.tradingEnabled (token w') = true) /\
  (LaunchToken.tradingEnabled (token w')
   <> LaunchToken.tradingEnabled (token w) ->
   c = TokenEnableTrading /\ msg_sender e = LaunchToken.minter (token w)).
Proof.
  intros Hc H.
  assert (Hsame : forall t t' : LaunchToken.state,
            LaunchToken.minter t' = LaunchToken.minter t ->
            LaunchToken.tradingEnabled t' = LaunchToken.tradingEnabled t ->
            LaunchToken.creator t' = LaunchToken.creator t ->
            LaunchToken.launchTime t' = LaunchToken.launchTime t ->
            LaunchToken.creator t' = LaunchToken.creator t /\
            LaunchToken.launchTime t' = LaunchToken.launchTime t /\
            (LaunchToken.minter t <> 0 ->
             LaunchToken.minter t' = LaunchToken.minter t) /\
            (LaunchToken.minter t' <> LaunchToken.minter t ->
             c = TokenSetMinter (LaunchToken.minter t')) /\
            (LaunchToken.tradingEnabled t = true ->
             LaunchToken.tradingEnabled t' = true) /\
            (LaunchToken.tradingEnabled t' <> LaunchToken.tradingEnabled t ->
             c = TokenEnableTrading /\ msg_sender e = LaunchToken.minter t)).
  { intros t t' -> -> -> ->. split_and!; congruence. }
  destruct c; try discriminate Hc; cbn [exec] in H;
    apply on_token_frame in H as (Hcv & Hnat & Hlog & H);
    (split; [exact Hcv|]); (split; [exact Hnat|]); (split; [exact Hlog|]).
  - unfold LaunchToken.transfer, LaunchToken._transfer in H.
    destruct (_ =? 0) in H; [discriminate|].
    destruct (_ =? 0) in H; [discriminate|].
    apply _update_frame in H as (? & ? & ? & ? & _). now apply Hsame.
  - unfold LaunchToken.approve, LaunchToken._approve in H.
    destruct (_ =? 0) in H; [discriminate|].
    destruct (_ =? 0) in H; [discriminate|].
    injection H as <-. now apply Hsame.
  - unfold LaunchToken.transferFrom in H.
    apply bind_Ok_inv in H as (t1 & Hs & H).
    apply _spendAllowance_inv in Hs as (_ & Hm & Hte & Hcr & Hl & _).
    unfold LaunchToken._transfer in H.
    destruct (_ =? 0) in H; [discriminate|].
    destruct (_ =? 0) in H; [discriminate|].
    apply _update_frame in H as (? & ? & ? & ? & _).
    apply Hsame; congruence.
  - unfold LaunchToken.burn, LaunchToken._burn in H.
    destruct (_ =? 0) in H; [discriminate|].
    apply _update_frame in H as (? & ? & ? & ? & _). now apply Hsame.
  - unfold LaunchToken.burnFrom in H.
    apply bind_Ok_inv in H as (t1 & Hs & H).
    apply _spendAllowance_inv in Hs as (_ & Hm & Hte & Hcr & Hl & _).
    unfold LaunchToken._burn in H.
    destruct (_ =? 0) in H; [discriminate|].
    apply _update_frame in H as (? & ? & ? & ? & _).
    apply Hsame; congruence.
  - unfold LaunchToken.setMinter in H. inv_ok H. injection H as <-. cbn.
    split_and!; try reflexivity; try congruence.
  - unfold LaunchToken.enableTrading, LaunchToken.onlyMinter in H.
    inv_ok H. injection H as <-. cbn.
    split_and!; try reflexivity; try congruence.
    intros _. now split.
  - unfold LaunchToken.mint, LaunchToken._mint in H. inv_ok H.
    destruct (_ =? 0) in H; [discriminate|].
    apply _update_frame in H as (? & ? & ? & ? & _). now apply Hsame.
Qed.

(** X14. Minting and the enabling of trading belong to the minter.  Anyone
    else is refused with "Not minter"; the minter's mint to a non-zero
    account goes through whether or not trading is enabled, and raises the
    supply and the account's balance by the amount. *)
Theorem only_minter_mints (sender to : address) (amount : uint256)
  (t : LaunchToken.state) :
  (sender <> LaunchToken.minter t ->
   LaunchToken.mint sender to amount t = Revert (Error "Not minter") /\
   LaunchToken.enableTrading sender t = Revert (Error "Not minter")) /\
  (sender = LaunchToken.minter t -> to = 0 ->
   LaunchToken.mint sender to amount t = Revert (ERC20InvalidReceiver 0)) /\
  (sender = LaunchToken.minter t -> to <> 0 ->
   LaunchToken._totalSupply t + amount <= MAX_UINT256 ->
   exists t' : LaunchToken.state,
     LaunchToken.mint sender to amount t = Ok t' /\
     LaunchToken._totalSupply t' = LaunchToken._totalSupply t + amount /\
     LaunchToken.balanceOf t' to
     = wrap_add (LaunchToken.balanceOf t to) amount /\
     (forall c : address,
        c <> to -> LaunchToken.balanceOf t' c = LaunchToken.balanceOf t c) /\
     LaunchToken.tradingEnabled t' = LaunchToken.tradingEnabled t /\
     LaunchToken.minter t' = LaunchToken.minter t).
Proof.
  split_and!.
  - intros Hn. apply N.eqb_neq in Hn.
    unfold LaunchToken.mint, LaunchToken.enableTrading,
      LaunchToken.onlyMinter. rewrite Hn. now split.
  - intros -> ->. unfold LaunchToken.mint, LaunchToken.onlyMinter.
    rewrite N.eqb_refl. reflexivity.
  - intros Hs Hto Hfit. eexists. split; [now apply mint_Ok|].
    split_and!; try reflexivity.
    + rewrite balanceOf_set_balance.
      destruct (decide (to = to)); [reflexivity | congruence].
    + intros c Hc. rewrite balanceOf_set_balance.
      destruct (decide (c = to)); [congruence | reflexivity].
Qed.

End Purchases.


(** ** Views *)

Section Views.
Import BondingCurve Derived Chain.

(** X15. [getTokenInfo] reports the stored counters and flag as they are, the
    current sell fee, and a progress figure that reaches 10000 exactly when
    [FAIRRaised] reaches the graduation threshold. *)
Theorem getTokenInfo_progress (cfg : config) (now : uint256) (c : storage) :
  launchTime cfg + ANTI_DUMP_DURATION <= MAX_UINT256 ->
  launchTime cfg <= now ->
  FAIRRaised c * 10000 <= MAX_UINT256 ->
  exists fee progress : uint256,
    getTokenInfo cfg now c
    = Ok (tokensSold c, FAIRRaised c, fee, graduated c, progress) /\
    getCurrentSellFee cfg now = Ok fee /\
    FINAL_SELL_FEE <= fee <= INITIAL_SELL_FEE /\
    progress = FAIRRaised c * 10000 / GRADUATION_THRESHOLD /\
    (10000 <= progress <-> GRADUATION_THRESHOLD <= FAIRRaised c).
Proof.
  intros Hfit Hnow Hraised.
  pose proof (getCurrentSellFee_elapsed cfg Hfit (now - launchTime cfg))
    as Hfee.
  replace (launchTime cfg + (now - launchTime cfg)) with now in Hfee by lia.
  exists (decayed_fee (now - launchTime cfg)),
    (FAIRRaised c * 10000 / GRADUATION_THRESHOLD).
  split_and!.
  - unfold getTokenInfo. rewrite Hfee. cbn [mbind result_bind].
    rewrite (mul_Ok (FAIRRaised c) 10000) by exact Hraised.
    cbn [mbind result_bind].
    rewrite (div_Ok (FAIRRaised c * 10000) GRADUATION_THRESHOLD)
      by discriminate.
    reflexivity.
  - exact Hfee.
  - apply (decayed_fee_bounds cfg Hfit).
  - apply (decayed_fee_bounds cfg Hfit).
  - reflexivity.
  - split; intros H.
    + destruct (N.le_gt_cases GRADUATION_THRESHOLD (FAIRRaised c))
        as [Hle|Hgt]; [exact Hle|exfalso].
      assert (FAIRRaised c * 10000 / GRADUATION_THRESHOLD < 10000); [|lia].
      apply N.Div0.div_lt_upper_bound. lia.
    + apply N.div_le_lower_bound; [discriminate|]. lia.
Qed.

(** X16. The two calculators give the figures of the previews: the gross amount
    of [previewSell] is [calculateFAIRForTokens], and the token amount of
    [previewBuy] is [calculateTokensForFAIR] of the payment less the
    platform fee, which is never above the supply left below the cap. *)
Theorem calculators_agree_with_previews (cfg : config) (now : uint256)
  (c : storage) (amount : uint256) :
  graduated c = false ->
  0 < amount ->
  (forall FAIROut netFAIROut sellFee feeAmount : uint256,
     amount <= tokensSold c ->
     previewSell cfg now c amount
     = Ok (FAIROut, netFAIROut, sellFee, feeAmount) ->
     calculateFAIRForTokens c amount = Ok FAIROut /\
     getCurrentSellFee cfg now = Ok sellFee /\
     feeAmount = FAIROut * sellFee / 10000 /\
     netFAIROut = FAIROut - feeAmount) /\
  (forall tokensOut newPrice priceImpact platformFee : uint256,
     0 < tokensOut ->
     previewBuy cfg c amount
     = Ok (tokensOut, newPrice, priceImpact, platformFee) ->
     platformFee = amount * platformFeePercent cfg / 10000 /\
     0 < amount - platformFee /\
     calculateTokensForFAIR c (amount - platformFee) = Ok tokensOut /\
     tokensSold c + tokensOut <= GRADUATION_SUPPLY).
Proof.
  intros Hg Hpos.
  assert (Hz : (amount =? 0) = false) by (apply N.eqb_neq; lia).
  split.
  - intros g n f cut Hle H. unfold previewSell in H.
    rewrite Hz, Hg in H. cbn in H.
    assert ((tokensSold c <? amount) = false) as Hs by now apply N.ltb_ge.
    rewrite Hs in H. inv_ok H. injection H as <- <- <- <-.
    unfold calculateFAIRForTokens. rewrite Hz, Hg. cbn.
    now split_and!.
  - intros out p i pf Hout H. unfold previewBuy in H.
    rewrite Hz, Hg in H. cbn in H. inv_ok H.
    destruct (_ =? 0) eqn:Hb in H.
    { injection H as <- _ _ _. lia. }
    apply N.eqb_neq in Hb. inv_ok H.
    match goal with
    | Ht : _calculateTokensOut c _ = Ok ?t |- _ =>
        destruct (t =? 0) eqn:Ht0 in H;
        [ injection H as <- _ _ _; lia |];
        apply _calculateTokensOut_inv in Ht as Hinv; cbv zeta in Hinv;
        destruct Hinv as (_ & _ & Hcap & Hmin);
        assert (Hroom : tokensSold c + t <= GRADUATION_SUPPLY)
          by (rewrite Hmin;
              pose proof (N.le_min_r
                            (VIRTUAL_TOKEN_RESERVES - tokensSold c
                             - (VIRTUAL_FAIR_RESERVES + FAIRRaised c)
                               * (VIRTUAL_TOKEN_RESERVES - tokensSold c)
                               / (VIRTUAL_FAIR_RESERVES + FAIRRaised c
                                  + (amount - amount
                                       * platformFeePercent cfg / 10000)))
                            (GRADUATION_SUPPLY - tokensSold c));
              lia)
    end.
    inv_ok H.
    match goal with
    | Hi : (if _ <? _ then _ else Ok 0) = Ok _ |- _ => clear Hi
    end.
    match goal with
    | Hc : (if GRADUATION_SUPPLY <? ?tot then _ else _) = Ok ?o |- _ =>
        assert ((GRADUATION_SUPPLY <? tot) = false) as Hno
          by (apply N.ltb_ge; exact Hroom);
        rewrite Hno in Hc; injection Hc as <-
    end.
    injection H as <- <- <- <-.
    split_and!; try reflexivity; try assumption; [lia|].
    unfold calculateTokensForFAIR. rewrite Hg.
    assert ((amount - amount * platformFeePercent cfg / 10000 =? 0) = false)
      as -> by now apply N.eqb_neq.
    cbn. assumption.
Qed.

End Views.


(** ** The factory *)

Section FactorySteps.
Import BondingCurve Chain TokenFactory.

Lemma transfer_funds_inv (e : env) (a b : address) (v : uint256)
  (ch ch' : chain) :
  transfer_funds e a b v ch = Ok ch' ->
  registry ch' = registry ch /\ curves ch' = curves ch /\
  journal ch' = journal ch /\ v <= holdings ch a /\ accepts e b = true /\
  forall c : address,
    holdings ch' c =
      if decide (c = b) then
        (if decide (b = a) then holdings ch a - v else holdings ch b) + v
      else if decide (c = a) then holdings ch a - v
      else holdings ch c.
Proof.
  unfold transfer_funds. intros H.
  apply bind_Ok_inv in H as (w & Ht & H). injection H as <-.
  assert (Hb := fun c => transfer_native_balance _ _ _ _ _ _ c Ht).
  apply transfer_native_inv in Ht as (_ & _ & _ & Hle & Hacc).
  split_and!; try reflexivity; try assumption.
Qed.

Lemma receive_funds_inv (self : address) (e : env) (ch ch' : chain) :
  receive_funds self e ch = Ok ch' ->
  registry ch' = registry ch /\ curves ch' = curves ch /\
  journal ch' = journal ch /\ msg_value e <= holdings ch (msg_sender e) /\
  (msg_sender e <> self ->
   holdings ch' self = holdings ch self + msg_value e /\
   holdings ch' (msg_sender e) = holdings ch (msg_sender e) - msg_value e) /\
  (forall c : address,
     c <> self -> c <> msg_sender e -> holdings ch' c = holdings ch c).
Proof.
  unfold receive_funds. intros H.
  apply bind_Ok_inv in H as (w & Hr & H). injection H as <-.
  apply receive_value_balance in Hr as (Hle & H1 & H2).
  split_and!; try reflexivity; try assumption.
Qed.

Lemma terms_leave (a : address) (i : instance) (w : world) (ch : chain) :
  curves ch !! a = Some i ->
  terms (leave a i w ch) = terms ch.
Proof.
  intros Hi. unfold terms, leave. cbn. rewrite fmap_insert. cbn.
  apply insert_id. rewrite lookup_fmap, Hi. reflexivity.
Qed.

Lemma call_frame (self : address) (e : env) (v : uint256) (target : address)
  (f : config -> env -> world -> result world) (ch ch' : chain) :
  call self e v target f ch = Some ch' ->
  registry ch' = registry ch /\ journal ch' = journal ch /\
  terms ch' = terms ch.
Proof.
  unfold call. intros H. destruct (curves ch !! target) as [i|] eqn:Hi.
  - destruct (f _ _ _) in H; [|discriminate]. injection H as <-.
    split_and!; try reflexivity. now apply terms_leave.
  - destruct (receive_funds _ _ _) eqn:Hr in H; [|discriminate].
    injection H as <-.
    apply receive_funds_inv in Hr as (? & Hc & ? & _).
    split_and!; try assumption. unfold terms. now rewrite Hc.
Qed.

End FactorySteps.

Section FactoryRules.
Import BondingCurve Chain TokenFactory.

(** X17. Every administrative function of the factory turns away a caller who
    is not the owner. *)
Theorem owner_only_administration (self : address) (e : env) (ch : chain) :
  msg_sender e <> owner (registry ch) ->
  (forall t : address, setTreasury e t ch = Revert (Error "Not owner")) /\
  (forall t r : address,
     updateTokenRouter self e t r ch = Revert (Error "Not owner")) /\
  (forall f : uint256, setPlatformFee e f ch = Revert (Error "Not owner")) /\
  (forall f : uint256, setCreationFee e f ch = Revert (Error "Not owner")) /\
  (forall o : address,
     transferOwnership e o ch = Revert (Error "Not owner")) /\
  (forall t : address,
     emergencyGraduateToken self e t ch = Revert (Error "Not owner")) /\
  (forall t : address,
     emergencyWithdrawFromCurve self e t ch = Revert (Error "Not owner")).
Proof.
  intros Hn. apply N.eqb_neq in Hn.
  split_and!; intros;
    unfold setTreasury, updateTokenRouter, setPlatformFee, setCreationFee,
      transferOwnership, emergencyGraduateToken, emergencyWithdrawFromCurve,
      onlyOwner; rewrite Hn; reflexivity.
Qed.

(** X18. What the owner may set.  The platform fee is accepted up to 1000
    basis points and refused above; the treasury and the new owner must not
    be the zero address; the creation fee is free.  Each setting changes
    its own field and nothing in any deployed curve. *)
Theorem owner_settings_guarded (e : env) (ch : chain) :
  msg_sender e = owner (registry ch) ->
  (forall f : uint256,
     (f <= 1000 ->
      exists ch',
        setPlatformFee e f ch = Ok ch' /\
        platformFeePercent (registry ch') = f /\
        journal ch' = PlatformFeeUpdated f :: journal ch /\
        curves ch' = curves ch /\ funds ch' = funds ch) /\
     (1000 < f -> setPlatformFee e f ch = Revert (Error "Fee too high"))) /\
  (forall t : address,
     (t <> 0 ->
      exists ch',
        setTreasury e t ch = Ok ch' /\ treasury (registry ch') = t /\
        journal ch' = TreasuryUpdated t :: journal ch /\
        curves ch' = curves ch /\ funds ch' = funds ch) /\
     (t = 0 -> setTreasury e t ch = Revert (Error "Invalid treasury"))) /\
  (forall o : address,
     (o <> 0 ->
      exists ch',
        transferOwnership e o ch = Ok ch' /\ owner (registry ch') = o /\
        curves ch' = curves ch /\ funds ch' = funds ch) /\
     (o = 0 ->
      transferOwnership e o ch = Revert (Error "Invalid address"))) /\
  (forall f : uint256,
     exists ch',
       setCreationFee e f ch = Ok ch' /\
       tokenCreationFee (registry ch') = f /\
       platformFeePercent (registry ch') = platformFeePercent (registry ch) /\
       curves ch' = curves ch /\ funds ch' = funds ch).
Proof.
  intros Ho.
  assert (Hown : (msg_sender e =? owner (registry ch)) = true)
    by now apply N.eqb_eq.
  split_and!.
  - intros f. split.
    + intros Hf. apply N.leb_le in Hf. eexists.
      unfold setPlatformFee, onlyOwner. rewrite Hown, Hf. cbn.
      split_and!; reflexivity.
    + intros Hf. apply N.leb_gt in Hf.
      unfold setPlatformFee, onlyOwner. rewrite Hown, Hf. reflexivity.
  - intros t. split.
    + intros Ht. apply N.eqb_neq in Ht. eexists.
      unfold setTreasury, onlyOwner. rewrite Hown, Ht. cbn.
      split_and!; reflexivity.
    + intros ->. unfold setTreasury, onlyOwner. rewrite Hown. reflexivity.
  - intros o. split.
    + intros Ht. apply N.eqb_neq in Ht. eexists.
      unfold transferOwnership, onlyOwner. rewrite Hown, Ht. cbn.
      split_and!; reflexivity.
    + intros ->. unfold transferOwnership, onlyOwner. rewrite Hown.
      reflexivity.
  - intros f. eexists. unfold setCreationFee, onlyOwner. rewrite Hown. cbn.
    split_and!; reflexivity.
Qed.

End FactoryRules.


(** ** Creation of a pair *)

Section Creation.
Import BondingCurve Chain TokenFactory Platform.

(** [createTokenWithSocials] in stages: payment and checks, the
    deployment of the pair, the initial buy, the creation fee. *)
Lemma createTokenWithSocials_split (self : address) (chainId : N) (e : env)
  (token bondingCurve : address)
  (name symbol description imageUrl website twitter : string)
  (initialBuyAmount : uint256) (ch : chain) :
  createTokenWithSocials self chainId e token bondingCurve name symbol
    description imageUrl website twitter initialBuyAmount ch =
  (ch0 ← receive_funds self e ch;
   needed ← add (tokenCreationFee (registry ch0)) initialBuyAmount;
   require (needed <=? msg_value e) "Insufficient funds" ;;
   require (0 <? N.of_nat (String.length name)) "Name required" ;;
   require (0 <? N.of_nat (String.length symbol)) "Symbol required" ;;
   ch2 ← (if 0 <? initialBuyAmount then
            match
              call self e initialBuyAmount bondingCurve
                (fun cfg inner => buyTokensFor cfg inner (msg_sender e) 0)
                (created self chainId e token bondingCurve name symbol
                   description imageUrl website twitter ch0)
            with
            | Some ch' => Ok ch'
            | None => Revert (Error "Initial buy failed")
            end
          else
            Ok (created self chainId e token bondingCurve name symbol
                  description imageUrl website twitter ch0));
   ch3 ← (if 0 <? tokenCreationFee (registry ch2) then
            transfer_funds e self (treasury (registry ch2))
              (tokenCreationFee (registry ch2)) ch2
          else Ok ch2);
   Ok (token, bondingCurve, ch3)).
Proof.
  unfold createTokenWithSocials.
  destruct (receive_funds self e ch) as [ch0|]; [|reflexivity].
  cbn [mbind result_bind].
  destruct (add _ _); [|reflexivity]. cbn [mbind result_bind].
  destruct (require (_ <=? _) _); [|reflexivity]. cbn [mbind result_bind].
  destruct (require (0 <? _) _); [|reflexivity]. cbn [mbind result_bind].
  destruct (require (0 <? _) _); [|reflexivity]. cbn [mbind result_bind].
  reflexivity.
Qed.

Lemma well_formed_ext (self : address) (ch ch' : chain) :
  registry ch' = registry ch -> terms ch' = terms ch ->
  well_formed self ch -> well_formed self ch'.
Proof. unfold well_formed. intros -> ->. trivial. Qed.

Lemma well_formed_created (self : address) (chainId : N) (e : env)
  (token bondingCurve : address)
  (name symbol description imageUrl website twitter : string) (ch : chain) :
  well_formed self ch ->
  well_formed self
    (created self chainId e token bondingCurve name symbol description
       imageUrl website twitter ch).
Proof.
  intros (Hfee & Htr & Hterms & Hlist). unfold well_formed, created, terms.
  cbn. rewrite fmap_insert. cbn. split_and!; try assumption.
  - intros a cfg Ha. destruct (decide (a = bondingCurve)) as [->|Hne].
    + rewrite lookup_insert_eq in Ha. injection Ha as <-. cbn.
      now split_and!.
    + rewrite lookup_insert_ne in Ha by congruence. now apply Hterms.
  - intros t Ht. destruct (decide (t = token)) as [->|Hne].
    + rewrite !lookup_insert_eq. split; [reflexivity|].
      exists bondingCurve. split; [reflexivity|].
      rewrite lookup_insert_eq. now eexists.
    + apply in_app_or in Ht as [Ht|[Ht|[]]]; [|congruence].
      rewrite !lookup_insert_ne by congruence.
      destruct (Hlist t Ht) as (Hv & b & Hb & Hsome).
      split; [assumption|]. exists b. split; [assumption|].
      destruct (decide (b = bondingCurve)) as [->|Hb'].
      * rewrite lookup_insert_eq. now eexists.
      * rewrite lookup_insert_ne by congruence. exact Hsome.
Qed.

Lemma createTokenWithSocials_well_formed (self : address) (chainId : N)
  (e : env) (token bondingCurve : address)
  (name symbol description imageUrl website twitter : string)
  (initialBuyAmount : uint256) (ch : chain) (r : address * address * chain) :
  createTokenWithSocials self chainId e token bondingCurve name symbol
    description imageUrl website twitter initialBuyAmount ch = Ok r ->
  well_formed self ch -> well_formed self (snd r).
Proof.
  rewrite createTokenWithSocials_split. intros H Hwf. inv_ok H.
  injection H as <-. cbn [snd].
  match goal with
  | Hr : receive_funds _ _ _ = Ok ?c0 |- _ =>
      apply receive_funds_inv in Hr as (Hr1 & Hr2 & _);
      assert (Hwf0 : well_formed self c0)
        by (eapply well_formed_ext; [exact Hr1 | unfold terms; now rewrite Hr2
                                    | exact Hwf])
  end.
  match goal with
  | Hb : (if 0 <? initialBuyAmount then _ else _) = Ok ?c2 |- _ =>
      assert (Hwf2 : well_formed self c2)
        by (destruct (0 <? initialBuyAmount) in Hb;
            [ destruct (call _ _ _ _ _ _) eqn:Hc in Hb; [|discriminate];
              injection Hb as <-;
              apply call_frame in Hc as (Hc1 & _ & Hc2);
              eapply well_formed_ext; [exact Hc1 | exact Hc2 |];
              now apply well_formed_created
            | injection Hb as <-; now apply well_formed_created ])
  end.
  match goal with
  | Hf : (if 0 <? _ then transfer_funds _ _ _ _ ?c2 else _) = Ok ?c3 |- _ =>
      destruct (0 <? _) in Hf;
      [ apply transfer_funds_inv in Hf as (Hf1 & Hf2 & _);
        eapply well_formed_ext; [exact Hf1 | unfold terms; now rewrite Hf2
                                | exact Hwf2]
      | injection Hf as <-; exact Hwf2 ]
  end.
Qed.

Lemma through_call_well_formed (self : address) (e : env)
  (target : address) (f : config -> env -> world -> result world)
  (reason : string) (ch ch' : chain) :
  match call self e 0 target f ch with
  | Some c => Ok c
  | None => Revert (Error reason)
  end = Ok ch' ->
  well_formed self ch -> well_formed self ch'.
Proof.
  destruct (call _ _ _ _ _ _) eqn:Hc; [|discriminate]. intros [= <-] Hwf.
  apply call_frame in Hc as (Hc1 & _ & Hc2).
  eapply well_formed_ext; eassumption.
Qed.

Lemma exec_well_formed (self : address) (chainId : N) (e : env)
  (a : action) (ch ch' : chain) :
  exec self chainId e a ch = Ok ch' ->
  well_formed self ch -> well_formed self ch'.
Proof.
  intros H Hwf. destruct a; cbn [exec] in H.
  - apply bind_Ok_inv in H as (r & Hr & H). injection H as <-.
    eapply createTokenWithSocials_well_formed; eassumption.
  - apply bind_Ok_inv in H as (r & Hr & H). injection H as <-.
    eapply createTokenWithSocials_well_formed; eassumption.
  - unfold setTreasury in H. inv_ok H. injection H as <-.
    destruct Hwf as (? & ? & ? & ?). unfold well_formed. cbn.
    split_and!; try assumption.
    match goal with
    | Hz : (_ =? 0) = false |- _ => now apply N.eqb_neq in Hz
    end.
  - unfold updateTokenRouter in H. inv_ok H.
    eapply through_call_well_formed; eassumption.
  - unfold setPlatformFee in H. inv_ok H. injection H as <-.
    destruct Hwf as (? & ? & ? & ?). unfold well_formed. cbn.
    split_and!; assumption.
  - unfold setCreationFee in H. inv_ok H. injection H as <-. exact Hwf.
  - unfold transferOwnership in H. inv_ok H. injection H as <-. exact Hwf.
  - unfold emergencyGraduateToken in H. inv_ok H.
    eapply through_call_well_formed; eassumption.
  - unfold emergencyWithdrawFromCurve in H. inv_ok H.
    eapply through_call_well_formed; eassumption.
  - unfold TokenFactory.receive in H.
    apply bind_Ok_inv in H as (ch0 & Hr & H).
    apply receive_funds_inv in Hr as (Hr1 & Hr2 & _).
    assert (Hwf0 : well_formed self ch0)
      by (eapply well_formed_ext; [exact Hr1 | unfold terms; now rewrite Hr2
                                  | exact Hwf]).
    destruct (0 <? _) in H; [|injection H as <-; exact Hwf0].
    apply transfer_funds_inv in H as (Hf1 & Hf2 & _).
    eapply well_formed_ext; [exact Hf1 | unfold terms; now rewrite Hf2
                            | exact Hwf0].
  - unfold on_pair in H. destruct (curves ch !! bondingCurve) eqn:Hi.
    + apply bind_Ok_inv in H as (w & _ & H). injection H as <-.
      apply (well_formed_ext self ch);
        [reflexivity | now apply terms_leave | exact Hwf].
    + destruct (is_payable c); [|injection H as <-; exact Hwf].
      apply receive_funds_inv in H as (Hr1 & Hr2 & _).
      eapply well_formed_ext; [exact Hr1 | unfold terms; now rewrite Hr2
                              | exact Hwf].
Qed.

(** X19. Whatever is sent to the factory and to the pairs it has deployed, by
    anyone and in any order, the factory's fee stays at or below 10% and
    its treasury stays set; every deployed curve knows its own address,
    has this factory as its factory, and carries a fee of at most 10% and a
    non-zero treasury, fixed when it was created; and every listed token is
    valid and mapped to a deployed curve. *)
Theorem platform_stays_well_formed (self : address) (chainId : N)
  (deployer : env) (_treasury : address) (s : state)
  (n : gmap address uint256) (tr : list (env * action)) :
  TokenFactory.constructor deployer _treasury = Ok s ->
  well_formed self (run_all self chainId tr (launched s n)).
Proof.
  intros Hs.
  assert (H0 : well_formed self (launched s n)).
  { unfold TokenFactory.constructor in Hs. inv_ok Hs. injection Hs as <-.
    unfold well_formed, launched, terms. cbn. rewrite fmap_empty.
    split_and!.
    - lia.
    - match goal with
      | Hz : (_ =? 0) = false |- _ => now apply N.eqb_neq in Hz
      end.
    - intros a cfg Ha. rewrite lookup_empty in Ha. discriminate.
    - intros t []. }
  revert H0. generalize (launched s n). clear Hs.
  induction tr as [|[e a] tr IH]; intros ch Hwf; [exact Hwf|].
  cbn [run_all]. apply IH. unfold run.
  destruct (exec self chainId e a ch) eqn:H; [|exact Hwf].
  eapply exec_well_formed; eassumption.
Qed.

End Creation.


(** ** What a creation does *)

Section CreationOutcome.
Import BondingCurve Chain TokenFactory Platform.

Lemma receive_funds_Ok (self : address) (e : env) (ch : chain) :
  msg_value e <= holdings ch (msg_sender e) ->
  exists ch0 : chain, receive_funds self e ch = Ok ch0.
Proof.
  intros H. unfold receive_funds, receive_value.
  change (balance (purse (funds ch)) (msg_sender e))
    with (holdings ch (msg_sender e)).
  apply N.ltb_ge in H. rewrite H. cbn. now eexists.
Qed.

Lemma transfer_funds_Ok (e : env) (a b : address) (v : uint256)
  (ch : chain) :
  v <= holdings ch a -> accepts e b = true ->
  exists ch' : chain, transfer_funds e a b v ch = Ok ch'.
Proof.
  intros H Hacc. unfold transfer_funds, transfer_native.
  change (balance (purse (funds ch)) a) with (holdings ch a).
  apply N.ltb_ge in H. rewrite H, Hacc. cbn. now eexists.
Qed.

Lemma named (s : string) :
  s <> EmptyString -> (0 <? N.of_nat (String.length s)) = true.
Proof. destruct s; [congruence|]. intros _. apply N.ltb_lt. cbn. lia. Qed.

(** X20. The checks of [createTokenWithSocials], in the order in which they
    fail: the payment must cover the creation fee and the initial buy, and
    the name and the symbol must not be empty. *)
Theorem creation_checks (self : address) (chainId : N) (e : env)
  (token bondingCurve : address)
  (name symbol description imageUrl website twitter : string)
  (initialBuyAmount : uint256) (ch : chain) :
  msg_value e <= holdings ch (msg_sender e) ->
  tokenCreationFee (registry ch) + initialBuyAmount <= MAX_UINT256 ->
  (msg_value e < tokenCreationFee (registry ch) + initialBuyAmount ->
   createTokenWithSocials self chainId e token bondingCurve name symbol
     description imageUrl website twitter initialBuyAmount ch
   = Revert (Error "Insufficient funds")) /\
  (tokenCreationFee (registry ch) + initialBuyAmount <= msg_value e ->
   name = EmptyString ->
   createTokenWithSocials self chainId e token bondingCurve name symbol
     description imageUrl website twitter initialBuyAmount ch
   = Revert (Error "Name required")) /\
  (tokenCreationFee (registry ch) + initialBuyAmount <= msg_value e ->
   name <> EmptyString -> symbol = EmptyString ->
   createTokenWithSocials self chainId e token bondingCurve name symbol
     description imageUrl website twitter initialBuyAmount ch
   = Revert (Error "Symbol required")).
Proof.
  intros Hpay Hfit.
  destruct (receive_funds_Ok self e ch Hpay) as (ch0 & Hr).
  pose proof (receive_funds_inv _ _ _ _ Hr) as (Hreg & _).
  split_and!.
  - intros Hshort. rewrite createTokenWithSocials_split, Hr.
    cbn [mbind result_bind]. rewrite Hreg.
    rewrite (add_Ok (tokenCreationFee (registry ch)) initialBuyAmount)
      by exact Hfit.
    cbn [mbind result_bind]. apply N.leb_gt in Hshort. now rewrite Hshort.
  - intros Hok ->. rewrite createTokenWithSocials_split, Hr.
    cbn [mbind result_bind]. rewrite Hreg.
    rewrite (add_Ok (tokenCreationFee (registry ch)) initialBuyAmount)
      by exact Hfit.
    cbn [mbind result_bind]. apply N.leb_le in Hok. now rewrite Hok.
  - intros Hok Hname ->. rewrite createTokenWithSocials_split, Hr.
    cbn [mbind result_bind]. rewrite Hreg.
    rewrite (add_Ok (tokenCreationFee (registry ch)) initialBuyAmount)
      by exact Hfit.
    cbn [mbind result_bind]. apply N.leb_le in Hok. rewrite Hok.
    cbn [mbind result_bind require]. rewrite (named name Hname).
    reflexivity.
Qed.

(** X21. A creation without an initial buy.  The token is appended to the list,
    marked valid and mapped to its curve; the pair stands exactly as
    [Chain.deploy] builds it, with the caller as creator, the factory as
    the curve's factory and the factory's current fee and treasury as the
    curve's; a [TokenCreated] event is recorded; the treasury receives the
    creation fee, and whatever was sent above the fee stays with the
    factory. *)
Theorem creation_without_initial_buy (self : address) (chainId : N)
  (e : env) (token bondingCurve : address)
  (name symbol description imageUrl website twitter : string) (ch : chain) :
  msg_sender e <> self -> treasury (registry ch) <> self ->
  msg_sender e <> treasury (registry ch) ->
  tokenCreationFee (registry ch) <= msg_value e ->
  msg_value e <= holdings ch (msg_sender e) ->
  msg_value e <= MAX_UINT256 ->
  name <> EmptyString -> symbol <> EmptyString ->
  accepts e (treasury (registry ch)) = true ->
  exists ch' : chain,
    createTokenWithSocials self chainId e token bondingCurve name symbol
      description imageUrl website twitter 0 ch
    = Ok (token, bondingCurve, ch') /\
    getAllTokens ch' = getAllTokens ch ++ [token] /\
    getTokenCount ch' = getTokenCount ch + 1 /\
    getBondingCurve ch' token = bondingCurve /\
    isValidToken (registry ch') !! token = Some true /\
    (exists i : instance,
       curves ch' !! bondingCurve = Some i /\
       immutables i
       = terms_of_creation self e (registry ch) bondingCurve /\
       ledger_address i = token /\
       enter ch' i
       = deploy (immutables i) chainId (msg_sender e) (funds ch')) /\
    journal ch'
    = TokenCreated token bondingCurve (msg_sender e) name symbol
        description imageUrl website twitter :: journal ch /\
    holdings ch' (msg_sender e) = holdings ch (msg_sender e) - msg_value e /\
    holdings ch' (treasury (registry ch))
    = holdings ch (treasury (registry ch)) + tokenCreationFee (registry ch) /\
    holdings ch' self
    = holdings ch self + (msg_value e - tokenCreationFee (registry ch)).
Proof.
  intros Hn1 Hn2 Hn3 Hfee Hpay Hmax Hname Hsym Hacc.
  destruct (receive_funds_Ok self e ch Hpay) as (ch0 & Hr).
  pose proof (receive_funds_inv _ _ _ _ Hr)
    as (Hreg & Hcur & Hj & _ & Hmove & Hrest).
  destruct (Hmove Hn1) as (Hself & Hsender).
  pose proof (Hrest (treasury (registry ch)) Hn2 ltac:(congruence)) as Htr.
  set (ch1 := created self chainId e token bondingCurve name symbol
                description imageUrl website twitter ch0).
  assert (Hstage : exists ch',
            (if 0 <? tokenCreationFee (registry ch1) then
               transfer_funds e self (treasury (registry ch1))
                 (tokenCreationFee (registry ch1)) ch1
             else Ok ch1) = Ok ch' /\
            registry ch' = registry ch1 /\ curves ch' = curves ch1 /\
            journal ch' = journal ch1 /\
            holdings ch' (msg_sender e) = holdings ch1 (msg_sender e) /\
            holdings ch' (treasury (registry ch))
            = holdings ch1 (treasury (registry ch))
              + tokenCreationFee (registry ch) /\
            holdings ch' self
            = holdings ch1 self - tokenCreationFee (registry ch)).
  { assert (Hfee1 : tokenCreationFee (registry ch1)
                     = tokenCreationFee (registry ch))
      by (cbn; now rewrite Hreg).
    assert (Htr1 : treasury (registry ch1) = treasury (registry ch))
      by (cbn; now rewrite Hreg).
    rewrite Hfee1, Htr1.
    destruct (0 <? tokenCreationFee (registry ch)) eqn:Hpos.
    - destruct (transfer_funds_Ok e self (treasury (registry ch))
                  (tokenCreationFee (registry ch)) ch1) as (ch' & Ht).
      + change (holdings ch1 self) with (holdings ch0 self). lia.
      + exact Hacc.
      + exists ch'. split; [exact Ht|].
        apply transfer_funds_inv in Ht as (? & ? & ? & _ & _ & Hb).
        split_and!; try assumption.
        * rewrite Hb. repeat (destruct (decide _); try congruence).
        * rewrite Hb. repeat (destruct (decide _); try congruence).
        * rewrite Hb. repeat (destruct (decide _); try congruence).
    - exists ch1. apply N.ltb_ge in Hpos.
      assert (tokenCreationFee (registry ch) = 0) as -> by lia.
      split_and!; try reflexivity; lia. }
  destruct Hstage as (ch' & Hlast & Hreg' & Hcur' & Hj' & Hb1 & Hb2 & Hb3).
  exists ch'. split_and!.
  - rewrite createTokenWithSocials_split, Hr. cbn [mbind result_bind].
    rewrite Hreg.
    assert (add (tokenCreationFee (registry ch)) 0
            = Ok (tokenCreationFee (registry ch))) as Hadd.
    { unfold add. rewrite N.add_0_r.
      assert ((tokenCreationFee (registry ch) <=? MAX_UINT256) = true)
        as -> by (apply N.leb_le; lia).
      reflexivity. }
    rewrite Hadd. cbn [mbind result_bind].
    apply N.leb_le in Hfee. rewrite Hfee. cbn [mbind result_bind require].
    rewrite (named name Hname), (named symbol Hsym).
    cbn [mbind result_bind]. change (0 <? 0) with false.
    cbn [mbind result_bind]. fold ch1. rewrite Hlast. reflexivity.
  - unfold getAllTokens. rewrite Hreg'. cbn. now rewrite Hreg.
  - unfold getTokenCount. rewrite Hreg'. cbn. rewrite Hreg.
    rewrite length_app. cbn. lia.
  - unfold getBondingCurve. rewrite Hreg'. cbn.
    now rewrite lookup_insert_eq.
  - rewrite Hreg'. cbn. now rewrite lookup_insert_eq.
  - eexists. rewrite Hcur'. cbn. rewrite lookup_insert_eq.
    split; [reflexivity|]. cbn. rewrite Hreg.
    split_and!; reflexivity.
  - rewrite Hj'. cbn. now rewrite Hj.
  - rewrite Hb1. exact Hsender.
  - rewrite Hb2. change (holdings ch1 ?a) with (holdings ch0 a).
    now rewrite Htr.
  - rewrite Hb3. change (holdings ch1 ?a) with (holdings ch0 a).
    rewrite Hself. lia.
Qed.

End CreationOutcome.


(** ** The factory reaching into its curves *)

Section FactoryReach.
Import BondingCurve Chain TokenFactory Platform.

(** The environment in which a curve runs when the factory calls it. *)
Lemma call_deployed (self : address) (e : env) (v : uint256)
  (target : address) (f : config -> env -> world -> result world)
  (ch : chain) (i : instance) :
  curves ch !! target = Some i ->
  call self e v target f ch =
    match
      f (immutables i)
        {| msg_sender := self; msg_value := v;
           block_timestamp := block_timestamp e; accepts := accepts e;
           addLiquidityFAIR := addLiquidityFAIR e |} (enter ch i)
    with
    | Ok w => Some (leave target i w ch)
    | Revert _ => None
    end.
Proof. intros Hi. unfold call. now rewrite Hi. Qed.

(** X22. The initial buy of a creation is a [buyTokensFor] sent by the factory
    to the freshly deployed pair, paid out of what the creator sent and
    minted to the creator; if that buy reverts, for whatever reason, the
    creation reverts with "Initial buy failed". *)
Theorem initial_buy_is_a_factory_buy (self : address) (chainId : N)
  (e : env) (token bondingCurve : address)
  (name symbol description imageUrl website twitter : string)
  (initialBuyAmount : uint256) (ch ch0 : chain) :
  0 < initialBuyAmount ->
  receive_funds self e ch = Ok ch0 ->
  tokenCreationFee (registry ch) + initialBuyAmount <= msg_value e ->
  msg_value e <= MAX_UINT256 ->
  name <> EmptyString -> symbol <> EmptyString ->
  let cfg := terms_of_creation self e (registry ch) bondingCurve in
  let inner :=
    {| msg_sender := self; msg_value := initialBuyAmount;
       block_timestamp := block_timestamp e; accepts := accepts e;
       addLiquidityFAIR := addLiquidityFAIR e |} in
  let bought :=
    buyTokensFor cfg inner (msg_sender e) 0
      (deploy cfg chainId (msg_sender e) (funds ch0)) in
  (forall f : failure,
     bought = Revert f ->
     createTokenWithSocials self chainId e token bondingCurve name symbol
       description imageUrl website twitter initialBuyAmount ch
     = Revert (Error "Initial buy failed")) /\
  (forall r : address * address * chain,
     createTokenWithSocials self chainId e token bondingCurve name symbol
       description imageUrl website twitter initialBuyAmount ch = Ok r ->
     exists w' : world,
       bought = Ok w' /\
       curves (snd r) !! bondingCurve
       = Some {| immutables := cfg; stored := curve w';
                 ledger_address := token;
                 ledger := BondingCurve.token w';
                 emitted := log w' |} /\
       0 < tokensSold (curve w')
       <= GRADUATION_SUPPLY).
Proof.
  intros Hpos Hr Hpay Hmax Hname Hsym cfg inner bought.
  pose proof (receive_funds_inv _ _ _ _ Hr) as (Hreg & _).
  set (ch1 := created self chainId e token bondingCurve name symbol
                description imageUrl website twitter ch0).
  assert (Hi : curves ch1 !! bondingCurve
               = Some {| immutables := cfg;
                         stored := BondingCurve.constructor chainId;
                         ledger_address := token;
                         ledger :=
                           LaunchToken.set_minter bondingCurve
                             (LaunchToken.constructor (msg_sender e)
                                (block_timestamp e));
                         emitted := [] |}).
  { unfold ch1, created. cbn. rewrite lookup_insert_eq.
    unfold cfg. now rewrite Hreg. }
  assert (Hhead :
    createTokenWithSocials self chainId e token bondingCurve name symbol
      description imageUrl website twitter initialBuyAmount ch =
    (ch2 ← match bought with
           | Ok w => Ok (leave bondingCurve
                           {| immutables := cfg;
                              stored := BondingCurve.constructor chainId;
                              ledger_address := token;
                              ledger :=
                                LaunchToken.set_minter bondingCurve
                                  (LaunchToken.constructor (msg_sender e)
                                     (block_timestamp e));
                              emitted := [] |} w ch1)
           | Revert _ => Revert (Error "Initial buy failed")
           end;
     ch3 ← (if 0 <? tokenCreationFee (registry ch2) then
              transfer_funds e self (treasury (registry ch2))
                (tokenCreationFee (registry ch2)) ch2
            else Ok ch2);
     Ok (token, bondingCurve, ch3))).
  { rewrite createTokenWithSocials_split, Hr. cbn [mbind result_bind].
    rewrite Hreg.
    rewrite (add_Ok (tokenCreationFee (registry ch)) initialBuyAmount)
      by lia.
    cbn [mbind result_bind]. apply N.leb_le in Hpay. rewrite Hpay.
    cbn [mbind result_bind require].
    rewrite (named name Hname), (named symbol Hsym).
    cbn [mbind result_bind]. apply N.ltb_lt in Hpos. rewrite Hpos.
    fold ch1. rewrite (call_deployed _ _ _ _ _ _ _ Hi).
    cbn [immutables]. fold inner.
    change (enter ch1 _)
      with (deploy cfg chainId (msg_sender e) (funds ch0)).
    fold bought. destruct bought; reflexivity. }
  split.
  - intros f Hf. rewrite Hhead, Hf. reflexivity.
  - intros r H. rewrite Hhead in H.
    destruct bought as [w'|] eqn:Hb; [|discriminate].
    cbn [mbind result_bind] in H. inv_ok H. injection H as <-.
    exists w'. split; [reflexivity|]. cbn [snd]. split.
    + match goal with
      | Hf : (if 0 <? _ then _ else _) = Ok ?c3 |- _ =>
          assert (Hc : curves c3
                       = curves (leave bondingCurve
                                   {| immutables := cfg;
                                      stored :=
                                        BondingCurve.constructor chainId;
                                      ledger_address := token;
                                      ledger :=
                                        LaunchToken.set_minter bondingCurve
                                          (LaunchToken.constructor
                                             (msg_sender e)
                                             (block_timestamp e));
                                      emitted := [] |} w' ch1))
            by (destruct (0 <? _) in Hf;
                [ now apply transfer_funds_inv in Hf as (_ & ? & _)
                | now injection Hf as <- ]);
          rewrite Hc
      end.
      cbn. now rewrite lookup_insert_eq.
    + unfold bought, buyTokensFor in Hb. inv_ok Hb.
      match goal with
      | Hv : receive_value _ _ _ = Ok _ |- _ =>
          apply receive_value_inv in Hv as (Hcv & _)
      end.
      apply _buyTokensFor_cap in Hb. rewrite Hcv in Hb. exact Hb.
Qed.

End FactoryReach.


Section FactoryEmergency.
Import BondingCurve Chain TokenFactory Platform.

(** X23. The owner's way to a curve.  For a token that is not one of the
    factory's the call is refused; for one that is, the new router is
    installed in that token's curve and nothing else changes, and the zero
    address, which the curve refuses, comes back as "Router update
    failed". *)
Theorem router_update_through_factory (self : address) (e : env)
  (token newRouter b : address) (i : instance) (ch : chain) :
  msg_sender e = owner (registry ch) ->
  (isValidToken (registry ch) !! token <> Some true ->
   updateTokenRouter self e token newRouter ch
   = Revert (Error "Invalid token")) /\
  (isValidToken (registry ch) !! token = Some true ->
   getBondingCurve ch token = b -> b <> 0 ->
   curves ch !! b = Some i -> factory (immutables i) = self ->
   (newRouter = 0 ->
    updateTokenRouter self e token newRouter ch
    = Revert (Error "Router update failed")) /\
   (newRouter <> 0 ->
    updateTokenRouter self e token newRouter ch
    = Ok {| registry := registry ch;
            curves :=
              <[b := {| immutables := immutables i;
                        stored := set_traderJoeRouter newRouter (stored i);
                        ledger_address := ledger_address i;
                        ledger := ledger i; emitted := emitted i |}]>
                (curves ch);
            funds := funds ch; journal := journal ch |})).
Proof.
  intros Ho.
  assert (Hown : (msg_sender e =? owner (registry ch)) = true)
    by now apply N.eqb_eq.
  split.
  - intros Hbad. unfold updateTokenRouter, onlyOwner. rewrite Hown.
    cbn [mbind result_bind require].
    destruct (isValidToken (registry ch) !! token) as [[|]|];
      [congruence | reflexivity | reflexivity].
  - intros Hvalid Hmap Hb Hi Hfac.
    assert (Hhead : forall r,
      updateTokenRouter self e token r ch =
      match
        setTraderJoeRouter (immutables i)
          {| msg_sender := self; msg_value := 0;
             block_timestamp := block_timestamp e; accepts := accepts e;
             addLiquidityFAIR := addLiquidityFAIR e |} r (enter ch i)
      with
      | Ok w => Ok (leave b i w ch)
      | Revert _ => Revert (Error "Router update failed")
      end).
    { intros r. unfold updateTokenRouter, onlyOwner.
      unfold getBondingCurve in Hmap.
      rewrite Hown, Hvalid, Hmap. cbn [mbind result_bind require default].
      apply N.eqb_neq in Hb. rewrite Hb. cbn [negb mbind result_bind].
      rewrite (call_deployed _ _ _ _ _ _ _ Hi).
      destruct (setTraderJoeRouter _ _ _ _); reflexivity. }
    split.
    + intros ->. rewrite Hhead. unfold setTraderJoeRouter, onlyFactory.
      cbn [msg_sender]. rewrite Hfac, (N.eqb_refl self). reflexivity.
    + intros Hr. rewrite Hhead. unfold setTraderJoeRouter, onlyFactory.
      cbn [msg_sender]. rewrite Hfac, (N.eqb_refl self).
      apply N.eqb_neq in Hr. rewrite Hr. reflexivity.
Qed.

(** X24. An emergency withdrawal through the factory empties the curve into
    the treasury the curve was created with, which need not be the
    factory's treasury of the day; the curve's counters stay as they were.
    An emergency graduation of a curve that is short of the threshold, or
    has graduated already, comes back as "Graduation failed". *)
Theorem emergency_calls_through_factory (self : address) (e : env)
  (token b : address) (i : instance) (ch : chain) :
  msg_sender e = owner (registry ch) ->
  isValidToken (registry ch) !! token = Some true ->
  getBondingCurve ch token = b -> b <> 0 ->
  curves ch !! b = Some i ->
  factory (immutables i) = self -> this (immutables i) = b ->
  BondingCurve.treasury (immutables i) <> b ->
  (accepts e (BondingCurve.treasury (immutables i)) = true ->
   exists ch' : chain,
     emergencyWithdrawFromCurve self e token ch = Ok ch' /\
     registry ch' = registry ch /\
     (exists i' : instance,
        curves ch' !! b = Some i' /\ stored i' = stored i /\
        ledger i' = ledger i /\ immutables i' = immutables i) /\
     holdings ch' b = 0 /\
     holdings ch' (BondingCurve.treasury (immutables i))
     = holdings ch (BondingCurve.treasury (immutables i)) + holdings ch b) /\
  (FAIRRaised (stored i) < GRADUATION_THRESHOLD \/
   graduated (stored i) = true ->
   emergencyGraduateToken self e token ch
   = Revert (Error "Graduation failed")).
Proof.
  intros Ho Hvalid Hmap Hb Hi Hfac Hthis Htre.
  assert (Hown : (msg_sender e =? owner (registry ch)) = true)
    by now apply N.eqb_eq.
  apply N.eqb_neq in Hb as Hbz.
  split.
  - intros Hacc.
    set (inner := {| msg_sender := self; msg_value := 0;
                     block_timestamp := block_timestamp e;
                     accepts := accepts e;
                     addLiquidityFAIR := addLiquidityFAIR e |}).
    assert (Hw : exists w,
              emergencyWithdraw (immutables i) inner (enter ch i) = Ok w).
    { unfold emergencyWithdraw, onlyFactory. cbn [msg_sender inner].
      rewrite Hfac, (N.eqb_refl self). cbn [mbind result_bind require].
      unfold transfer_native. rewrite N.ltb_irrefl. cbn [accepts inner].
      rewrite Hacc. cbn. now eexists. }
    destruct Hw as (w & Hw).
    exists (leave b i w ch). split.
    + unfold emergencyWithdrawFromCurve, onlyOwner.
      unfold getBondingCurve in Hmap.
      rewrite Hown, Hvalid, Hmap. cbn [mbind result_bind require default].
      rewrite Hbz. cbn [negb mbind result_bind].
      rewrite (call_deployed _ _ _ _ _ _ _ Hi). fold inner.
      now rewrite Hw.
    + unfold emergencyWithdraw in Hw. inv_ok Hw.
      pose proof (transfer_native_balance _ _ _ _ _ _ b Hw) as H1.
      pose proof (transfer_native_balance _ _ _ _ _ _
                    (BondingCurve.treasury (immutables i)) Hw) as H2.
      apply transfer_native_inv in Hw as (Hc & Ht & _).
      rewrite Hthis in *.
      repeat (destruct (decide _) in H1; try congruence).
      repeat (destruct (decide _) in H2; try congruence).
      split_and!.
      * reflexivity.
      * eexists. cbn. rewrite lookup_insert_eq. split; [reflexivity|].
        cbn. now split_and!.
      * change (holdings (leave b i w ch) b) with (balance w b).
        rewrite H1. apply N.sub_diag.
      * change (holdings (leave b i w ch) ?a) with (balance w a).
        rewrite H2. reflexivity.
  - intros Hstuck.
    unfold emergencyGraduateToken, onlyOwner.
    unfold getBondingCurve in Hmap.
      rewrite Hown, Hvalid, Hmap. cbn [mbind result_bind require default].
    rewrite Hbz. cbn [negb mbind result_bind].
    rewrite (call_deployed _ _ _ _ _ _ _ Hi).
    unfold forceGraduation, onlyFactory. cbn [msg_sender].
    rewrite Hfac, (N.eqb_refl self). cbn [mbind result_bind require].
    change (curve (enter ch i)) with (stored i).
    destruct (graduated (stored i)); [reflexivity|].
    destruct Hstuck as [Hlow|]; [|discriminate].
    apply N.leb_gt in Hlow. cbn [negb mbind result_bind require].
    rewrite Hlow. reflexivity.
Qed.

(** X25. Native currency sent straight to the factory is passed on to the
    treasury in full: the sender is debited, the treasury credited, and the
    factory's own balance is what it was. *)
Theorem factory_receive_forwards (self : address) (e : env) (ch : chain) :
  msg_sender e <> self -> treasury (registry ch) <> self ->
  msg_sender e <> treasury (registry ch) ->
  msg_value e <= holdings ch (msg_sender e) ->
  accepts e (treasury (registry ch)) = true ->
  exists ch' : chain,
    TokenFactory.receive self e ch = Ok ch' /\
    registry ch' = registry ch /\ curves ch' = curves ch /\
    journal ch' = journal ch /\
    holdings ch' self = holdings ch self /\
    holdings ch' (msg_sender e) = holdings ch (msg_sender e) - msg_value e /\
    holdings ch' (treasury (registry ch))
    = holdings ch (treasury (registry ch)) + msg_value e.
Proof.
  intros Hn1 Hn2 Hn3 Hpay Hacc.
  destruct (receive_funds_Ok self e ch Hpay) as (ch0 & Hr).
  pose proof (receive_funds_inv _ _ _ _ Hr)
    as (Hreg & Hcur & Hj & _ & Hmove & Hrest).
  destruct (Hmove Hn1) as (Hself & Hsender).
  pose proof (Hrest (treasury (registry ch)) Hn2 ltac:(congruence)) as Htr.
  unfold TokenFactory.receive. rewrite Hr. cbn [mbind result_bind].
  rewrite Hreg.
  destruct (0 <? msg_value e) eqn:Hpos.
  - destruct (transfer_funds_Ok e self (treasury (registry ch))
                (msg_value e) ch0) as (ch' & Ht); [lia | exact Hacc |].
    exists ch'. split; [exact Ht|].
    apply transfer_funds_inv in Ht as (? & ? & ? & _ & _ & Hb).
    split_and!; try congruence.
    + rewrite Hb. repeat (destruct (decide _); try congruence). lia.
    + rewrite Hb. repeat (destruct (decide _); try congruence).
    + rewrite Hb. repeat (destruct (decide _); try congruence).
  - exists ch0. apply N.ltb_ge in Hpos.
    assert (msg_value e = 0) as Hz by lia. rewrite Hz in *.
    split_and!; try assumption; try reflexivity; lia.
Qed.

End FactoryEmergency.


Section FailedGraduationTraces.
Import BondingCurve Derived Chain.

(** X26. What a rolled-back graduation leaves behind.  The flag [graduated] is
    cleared again and the counters, balances and log are untouched, but the
    ledger keeps the changes made before the router was called: trading
    stays enabled, so the transfer restriction is lifted for every holder
    although the curve has not graduated, and the liquidity tokens stay
    minted to the curve and approved to the router. *)
Theorem failed_graduation_opens_transfers (cfg : config) (e : env)
  (w : world) :
  graduated (curve w) = false ->
  GRADUATION_THRESHOLD <= FAIRRaised (curve w) ->
  LaunchToken.minter (token w) = this cfg ->
  this cfg <> 0 ->
  traderJoeRouter (curve w) <> 0 ->
  LaunchToken._totalSupply (token w) + LIQUIDITY_TOKENS <= MAX_UINT256 ->
  block_timestamp e + 300 <= MAX_UINT256 ->
  addLiquidityFAIR e = VenueReverts \/ balance w (this cfg) < LIQUIDITY_FAIR ->
  exists w' : world,
    _executeGraduation cfg e w = Ok w' /\
    graduated (curve w') = false /\ curve w' = curve w /\
    native w' = native w /\ log w' = log w /\
    LaunchToken.tradingEnabled (token w') = true /\
    LaunchToken._totalSupply (token w')
    = LaunchToken._totalSupply (token w) + LIQUIDITY_TOKENS /\
    LaunchToken.allowance (token w') (this cfg) (traderJoeRouter (curve w))
    = LIQUIDITY_TOKENS /\
    (forall (a b : address) (v : uint256),
       LaunchToken._update a b v (token w')
       = LaunchToken.ERC20_update a b v (token w')).
Proof.
  intros Hg Hth Hm Hthis Hr Hfit Hts Hv.
  eexists. split.
  { now apply _executeGraduation_rollback. }
  cbn. split_and!; try reflexivity; try assumption.
  - unfold LaunchToken.allowance. cbn. now rewrite lookup_insert_eq.
  - intros a b v. unfold LaunchToken._update. cbn.
    destruct (_ || _); [reflexivity|]. destruct (_ || _); reflexivity.
Qed.

End FailedGraduationTraces.


(** ** The further properties at work on the concrete deployment *)

Section CurveWitnesses.
Import BondingCurve Derived Chain Ledger Scenario Stage.

Lemma graduation_is_final_witness :
  sellTokens cfg alice_sells 1 0 graduated_world
    = Revert (Error "Token graduated") /\
  buyTokens cfg one_fair 0 graduated_world
    = Revert (Error "Token graduated") /\
  graduated
    (curve (run_all cfg [(one_fair, BuyTokens 0); (alice_sells, SellTokens 1 0)]
              graduated_world)) = true.
Proof.
  destruct (graduation_is_final cfg graduated_world)
    as (Hbuy & _ & Hsell & _ & Hall); [vm_compute; reflexivity|].
  split_and!.
  - apply Hsell.
  - apply Hbuy. vm_compute. discriminate.
  - apply Hall.
Defined.

Lemma sold_out_below_threshold_is_stuck_witness :
  run cfg one_fair (BuyTokens 0) sold_out = sold_out /\
  buyTokens cfg one_fair 0 sold_out = Revert (Error "Curve complete") /\
  forceGraduation cfg factory_calls sold_out
    = Revert (Error "Threshold not met").
Proof.
  split_and!.
  - destruct (sold_out_below_threshold_is_stuck cfg one_fair sold_out)
      as (Hrun & _);
      [vm_compute; reflexivity | vm_compute; reflexivity
      | vm_compute; reflexivity |].
    apply Hrun.
  - destruct (sold_out_below_threshold_is_stuck cfg one_fair sold_out)
      as (_ & _ & _ & Hbuy & _);
      [vm_compute; reflexivity | vm_compute; reflexivity
      | vm_compute; reflexivity |].
    apply Hbuy; [vm_compute; reflexivity | vm_compute; discriminate].
  - destruct (sold_out_below_threshold_is_stuck cfg factory_calls sold_out)
      as (_ & _ & _ & _ & Hforce);
      [vm_compute; reflexivity | vm_compute; reflexivity
      | vm_compute; reflexivity |].
    apply Hforce. reflexivity.
Defined.

Lemma curve_stays_solvent_witness :
  FAIRRaised
    (curve (run_all cfg
              [(one_fair, BuyTokens 0);
               (dust_sell, TokenApprove curve_address (10 ^ 30));
               (dust_buy, BuyTokens 0);
               (dust_sell, SellTokens dust_tokens 0)] genesis))
  <= balance
       (run_all cfg
          [(one_fair, BuyTokens 0);
           (dust_sell, TokenApprove curve_address (10 ^ 30));
           (dust_buy, BuyTokens 0);
           (dust_sell, SellTokens dust_tokens 0)] genesis)
       (this cfg).
Proof.
  apply (curve_stays_solvent cfg).
  - repeat constructor; discriminate.
  - vm_compute. discriminate.
Defined.

Lemma emergencyWithdraw_halts_sales_witness :
  balance drained curve_address = 0 /\
  FAIRRaised (curve drained) = 990000000000000000 /\
  forall w2 : world,
    sellTokens cfg alice_sells alice_tokens 0 drained <> Ok w2.
Proof.
  destruct (emergencyWithdraw_halts_sales cfg factory_calls after_first_buy
              drained) as (_ & Hc & _ & Hb & _ & Hsell).
  - discriminate.
  - vm_compute. reflexivity.
  - split_and!.
    + exact Hb.
    + rewrite Hc. vm_compute. reflexivity.
    + intros w2. apply Hsell.
Defined.

Lemma router_set_only_by_factory_witness :
  traderJoeRouter
    (curve (run_all cfg
              [(one_fair, BuyTokens 0); (one_fair, SetTraderJoeRouter 0);
               (factory_calls, SetTraderJoeRouter 0)]
              (deploy cfg 43113 alice funds))) <> 0.
Proof.
  destruct (router_set_only_by_factory cfg) as (_ & Hnz). apply Hnz.
Defined.

Lemma factory_only_calls_witness :
  forceGraduation cfg one_fair genesis = Revert (Error "Only factory") /\
  emergencyWithdraw cfg one_fair after_first_buy
    = Revert (Error "Only factory") /\
  run cfg one_fair (BuyTokensFor bob 0) genesis = genesis.
Proof.
  split_and!.
  - destruct (factory_only_calls cfg one_fair genesis) as (_ & _ & H & _);
      [discriminate | exact H].
  - destruct (factory_only_calls cfg one_fair after_first_buy)
      as (_ & H & _); [discriminate | exact H].
  - destruct (factory_only_calls cfg one_fair genesis) as (_ & _ & _ & _ & H);
      [discriminate|].
    apply H. left. now exists bob, 0.
Defined.

Lemma graduation_outcome_witness :
  FAIRRaised (curve graduated_world) = 0 /\
  tokensSold (curve graduated_world) = GRADUATION_SUPPLY /\
  In (Graduated LIQUIDITY_TOKENS LIQUIDITY_FAIR (3077 * ether) 1)
     (log graduated_world).
Proof.
  destruct (graduation_outcome cfg (whole_curve router_returns)
              whole_curve_purchased graduated_world)
    as (_ & _ & Hr & Hs & _ & _ & a & b & lp & t & n & Hv & _ & _ & _ & Hlog).
  - vm_compute. reflexivity.
  - vm_compute. reflexivity.
  - split_and!.
    + exact Hr.
    + rewrite Hs. vm_compute. reflexivity.
    + rewrite Hlog. left.
      assert (lp = 1) as -> by (vm_compute in Hv; congruence).
      vm_compute. reflexivity.
Defined.

Lemma price_follows_trades_witness :
  exists p0 p1 : uint256,
    getCurrentPrice (curve genesis) = Ok p0 /\
    getCurrentPrice (curve after_first_buy) = Ok p1 /\ 1 <= p0 /\ p0 <= p1.
Proof.
  destruct (price_follows_trades cfg one_fair genesis after_first_buy)
    as (Hbuy & _); [vm_compute; discriminate|].
  apply (Hbuy 0); vm_compute; reflexivity.
Defined.

Lemma curve_outputs_monotone_witness :
  1315790 <= 2631579 /\
  2631579 <= GRADUATION_SUPPLY - tokensSold (curve genesis).
Proof.
  destruct (curve_outputs_monotone (curve genesis) 1 2 1315790 2631579)
    as (Hout & _); [lia|].
  apply Hout; vm_compute; reflexivity.
Defined.

Lemma sale_needs_allowance_witness :
  run cfg alice_sells (SellTokens alice_tokens 0) after_first_buy
    = after_first_buy /\
  forall w' : world,
    sellTokens cfg alice_sells alice_tokens 0 after_first_buy <> Ok w'.
Proof.
  destruct (sale_needs_allowance cfg alice_sells alice_tokens 0
              after_first_buy) as (Hno & Hrun).
  - vm_compute. discriminate.
  - vm_compute. reflexivity.
  - split; [exact Hrun | exact Hno].
Defined.

Lemma sale_accounting_witness :
  exists FAIROut feeAmount : uint256,
    _calculateFAIROut (curve dust_bought) dust_tokens = Ok FAIROut /\
    tokensSold (curve dust_sold) = tokensSold (curve dust_bought) - dust_tokens
    /\
    balance dust_sold curve_address
    = balance dust_bought curve_address - FAIROut /\
    balance dust_sold bob = balance dust_bought bob + (FAIROut - feeAmount) /\
    balance dust_sold treasury_address
    = balance dust_bought treasury_address + feeAmount.
Proof.
  destruct (sale_accounting cfg dust_sell dust_tokens 0 dust_bought dust_sold)
    as (g & cut & Hg & _ & _ & Hs & _ & _ & _ & Hb1 & _ & Hb2 & Hb3).
  - discriminate.
  - discriminate.
  - discriminate.
  - vm_compute. reflexivity.
  - exists g, cut. now split_and!.
Defined.

Lemma purchase_accounting_witness :
  exists platformFee tokensOut : uint256,
    platformFee = msg_value one_fair * platformFeePercent cfg / 10000 /\
    tokensSold (curve after_first_buy)
    = tokensSold (curve genesis) + tokensOut /\
    FAIRRaised (curve after_first_buy)
    = FAIRRaised (curve genesis) + (msg_value one_fair - platformFee) /\
    balance after_first_buy alice = balance genesis alice - msg_value one_fair
    /\
    balance after_first_buy curve_address
    = balance genesis curve_address + (msg_value one_fair - platformFee) /\
    balance after_first_buy treasury_address
    = balance genesis treasury_address + platformFee.
Proof.
  destruct (purchase_accounting cfg one_fair 0 genesis after_first_buy)
    as (pf & out & Hpf & _ & _ & _ & _ & Hs & Hr & _ & _ & _ & Hb1 & Hb2
        & Hb3).
  - discriminate.
  - discriminate.
  - discriminate.
  - vm_compute. reflexivity.
  - vm_compute. reflexivity.
  - exists pf, out. now split_and!.
Defined.

Lemma ledger_calls_keep_roles_witness :
  curve alice_approved = curve after_first_buy /\
  LaunchToken.minter (token alice_approved)
  = LaunchToken.minter (token after_first_buy) /\
  native alice_approved = native after_first_buy.
Proof.
  destruct (ledger_calls_keep_roles cfg alice_sells
              (TokenApprove curve_address alice_tokens) after_first_buy
              alice_approved)
    as (Hc & Hn & _ & _ & _ & Hm & _).
  - reflexivity.
  - vm_compute. reflexivity.
  - split_and!; [exact Hc | | exact Hn].
    apply Hm. vm_compute. discriminate.
Defined.

Lemma only_minter_mints_witness :
  LaunchToken.mint alice alice 5 (token genesis)
    = Revert (Error "Not minter") /\
  LaunchToken.enableTrading alice (token genesis)
    = Revert (Error "Not minter") /\
  exists t' : LaunchToken.state,
    LaunchToken.mint curve_address alice 5 (token genesis) = Ok t' /\
    LaunchToken._totalSupply t' = LaunchToken._totalSupply (token genesis) + 5.
Proof.
  destruct (only_minter_mints alice alice 5 (token genesis))
    as (Hno & _).
  destruct (only_minter_mints curve_address alice 5 (token genesis))
    as (_ & _ & Hyes).
  destruct Hno as (H1 & H2); [vm_compute; discriminate|].
  destruct Hyes as (t' & Ht & Hs & _);
    [reflexivity | discriminate | vm_compute; discriminate |].
  split_and!; [exact H1 | exact H2 |]. exists t'. now split.
Defined.

Lemma getTokenInfo_progress_witness :
  exists fee progress : uint256,
    getTokenInfo cfg launch (curve after_first_buy)
    = Ok (tokensSold (curve after_first_buy),
          FAIRRaised (curve after_first_buy), fee,
          graduated (curve after_first_buy), progress) /\
    (10000 <= progress <->
     GRADUATION_THRESHOLD <= FAIRRaised (curve after_first_buy)).
Proof.
  destruct (getTokenInfo_progress cfg launch (curve after_first_buy))
    as (fee & progress & Hinfo & _ & _ & _ & Hiff).
  - vm_compute. discriminate.
  - vm_compute. discriminate.
  - vm_compute. discriminate.
  - exists fee, progress. now split.
Defined.

Lemma calculators_agree_with_previews_witness :
  calculateFAIRForTokens (curve alice_approved) alice_tokens
    = Ok 990000000000000001 /\
  calculateTokensForFAIR (curve genesis) (1 * ether - 10 ^ 16)
    = Ok alice_tokens.
Proof.
  split.
  - destruct (calculators_agree_with_previews cfg launch
                (curve alice_approved) alice_tokens) as (Hsell & _);
      [vm_compute; reflexivity | vm_compute; reflexivity |].
    destruct (Hsell 990000000000000001 792000000000000001 2000
                198000000000000000) as (H & _);
      [vm_compute; discriminate | vm_compute; reflexivity | exact H].
  - destruct (calculators_agree_with_previews cfg launch
                (curve genesis) (1 * ether)) as (_ & Hbuy);
      [vm_compute; reflexivity | vm_compute; reflexivity |].
    destruct (Hbuy alice_tokens 762642292631 34 (10 ^ 16))
      as (_ & _ & H & _);
      [vm_compute; reflexivity | | exact H].
    vm_compute. reflexivity.
Defined.

Lemma failed_graduation_opens_transfers_witness :
  exists w' : world,
    _executeGraduation cfg (whole_curve VenueReverts) whole_curve_purchased
    = Ok w' /\
    graduated (curve w') = false /\
    LaunchToken.tradingEnabled (token w') = true /\
    LaunchToken._update alice bob 5 (token w')
    = LaunchToken.ERC20_update alice bob 5 (token w').
Proof.
  destruct (failed_graduation_opens_transfers cfg (whole_curve VenueReverts)
              whole_curve_purchased)
    as (w' & Hrun & Hg & _ & _ & _ & Ht & _ & _ & Hup).
  - vm_compute. reflexivity.
  - vm_compute. discriminate.
  - vm_compute. reflexivity.
  - discriminate.
  - vm_compute. discriminate.
  - vm_compute. discriminate.
  - vm_compute. discriminate.
  - left. reflexivity.
  - exists w'. split_and!; [exact Hrun | exact Hg | exact Ht | apply Hup].
Defined.

End CurveWitnesses.


Section FactoryWitnesses.
Import BondingCurve Chain TokenFactory Platform Scenario Stage.

Lemma owner_only_administration_witness :
  setPlatformFee alice_creates 0 opened = Revert (Error "Not owner") /\
  transferOwnership alice_creates alice opened = Revert (Error "Not owner") /\
  emergencyWithdrawFromCurve factory_address alice_creates token_address
    listed = Revert (Error "Not owner").
Proof.
  destruct (owner_only_administration factory_address alice_creates opened)
    as (_ & _ & Hfee & _ & Hown & _); [vm_compute; discriminate|].
  destruct (owner_only_administration factory_address alice_creates listed)
    as (_ & _ & _ & _ & _ & _ & Hw); [vm_compute; discriminate|].
  split_and!; [apply Hfee | apply Hown | apply Hw].
Defined.

Lemma owner_settings_guarded_witness :
  setPlatformFee admin_calls 1001 opened = Revert (Error "Fee too high") /\
  (exists ch' : chain,
     setPlatformFee admin_calls 1000 opened = Ok ch' /\
     TokenFactory.platformFeePercent (registry ch') = 1000) /\
  setTreasury admin_calls 0 opened = Revert (Error "Invalid treasury") /\
  transferOwnership admin_calls 0 opened = Revert (Error "Invalid address").
Proof.
  destruct (owner_settings_guarded admin_calls opened)
    as (Hfee & Htr & Hown & _); [reflexivity|].
  split_and!.
  - apply (Hfee 1001). vm_compute. reflexivity.
  - destruct (Hfee 1000) as (Hok & _).
    destruct Hok as (ch' & H & Hf & _); [vm_compute; discriminate|].
    exists ch'. now split.
  - now apply (Htr 0).
  - now apply (Hown 0).
Defined.

Lemma platform_stays_well_formed_witness :
  well_formed factory_address
    (Platform.run_all factory_address 43114
       [(alice_creates, creation_with_buy);
        (admin_calls, SetPlatformFee 5000);
        (admin_calls, SetPlatformFee 250);
        (alice_creates, OnPair curve_address (BuyTokens 0))]
       (launched registry0 Scenario.funds)).
Proof.
  apply (platform_stays_well_formed factory_address 43114 deployer
           treasury_address).
  reflexivity.
Defined.

Lemma creation_checks_witness :
  createTokenWithSocials factory_address 43114 underpaid token_address
    curve_address "Token" "TKN" "A token" "image" "site" "handle" 0 opened
  = Revert (Error "Insufficient funds") /\
  createTokenWithSocials factory_address 43114 alice_creates token_address
    curve_address "Token" EmptyString "A token" "image" "site" "handle" 0
    opened
  = Revert (Error "Symbol required").
Proof.
  split.
  - destruct (creation_checks factory_address 43114 underpaid token_address
                curve_address "Token" "TKN" "A token" "image" "site"
                "handle" 0 opened) as (Hshort & _);
      [vm_compute; discriminate | vm_compute; discriminate |].
    apply Hshort. vm_compute. reflexivity.
  - destruct (creation_checks factory_address 43114 alice_creates
                token_address curve_address "Token" EmptyString "A token"
                "image" "site" "handle" 0 opened) as (_ & _ & Hsym);
      [vm_compute; discriminate | vm_compute; discriminate |].
    apply Hsym; [vm_compute; discriminate | discriminate | reflexivity].
Defined.

Lemma creation_without_initial_buy_witness :
  exists ch' : chain,
    createTokenWithSocials factory_address 43114 alice_creates token_address
      curve_address "Token" "TKN" "A token" "image" "site" "handle" 0 opened
    = Ok (token_address, curve_address, ch') /\
    getAllTokens ch' = [token_address] /\
    getBondingCurve ch' token_address = curve_address /\
    holdings ch' factory_address
    = holdings opened factory_address
      + (msg_value alice_creates - tokenCreationFee (registry opened)) /\
    holdings ch' treasury_address
    = holdings opened treasury_address + tokenCreationFee (registry opened).
Proof.
  destruct (creation_without_initial_buy factory_address 43114 alice_creates
              token_address curve_address "Token" "TKN" "A token" "image"
              "site" "handle" opened)
    as (ch' & Hrun & Hall & _ & Hcurve & _ & _ & _ & _ & Htr & Hself).
  - discriminate.
  - discriminate.
  - discriminate.
  - vm_compute. discriminate.
  - vm_compute. discriminate.
  - vm_compute. discriminate.
  - discriminate.
  - discriminate.
  - reflexivity.
  - exists ch'. split_and!; [exact Hrun | exact Hall | exact Hcurve
                           | exact Hself | exact Htr].
Defined.

Lemma initial_buy_is_a_factory_buy_witness :
  exists w' : world,
    buyTokensFor
      (terms_of_creation factory_address alice_creates (registry opened)
         curve_address)
      {| msg_sender := factory_address; msg_value := 1 * ether;
         block_timestamp := block_timestamp alice_creates;
         accepts := accepts alice_creates;
         addLiquidityFAIR := addLiquidityFAIR alice_creates |}
      alice 0
      (deploy
         (terms_of_creation factory_address alice_creates (registry opened)
            curve_address)
         43114 alice (TokenFactory.funds paid_in))
    = Ok w' /\
    0 < tokensSold (curve w') <= GRADUATION_SUPPLY.
Proof.
  destruct (initial_buy_is_a_factory_buy factory_address 43114 alice_creates
              token_address curve_address "Token" "TKN" "A token"
              "https://example.org/t.png" "https://example.org"
              "https://x.com/token" (1 * ether) opened paid_in)
    as (_ & Hok).
  - vm_compute. reflexivity.
  - vm_compute. reflexivity.
  - vm_compute. discriminate.
  - vm_compute. discriminate.
  - discriminate.
  - discriminate.
  - destruct (Hok (token_address, curve_address, listed_with_buy))
      as (w' & Hb & _ & Hs); [vm_compute; reflexivity|].
    exists w'. split; [exact Hb | exact Hs].
Defined.

Lemma router_update_through_factory_witness :
  updateTokenRouter factory_address admin_calls bob 7 listed
    = Revert (Error "Invalid token") /\
  updateTokenRouter factory_address admin_calls token_address 0 listed
    = Revert (Error "Router update failed") /\
  exists ch' : chain,
    updateTokenRouter factory_address admin_calls token_address 7 listed
    = Ok ch' /\
    traderJoeRouter (stored (pair_at ch' curve_address)) = 7.
Proof.
  destruct (router_update_through_factory factory_address admin_calls bob 7
              curve_address (pair_at listed curve_address) listed)
    as (Hbad & _); [reflexivity|].
  destruct (router_update_through_factory factory_address admin_calls
              token_address 0 curve_address (pair_at listed curve_address)
              listed) as (_ & Hzero); [reflexivity|].
  destruct (router_update_through_factory factory_address admin_calls
              token_address 7 curve_address (pair_at listed curve_address)
              listed) as (_ & Hset); [reflexivity|].
  split_and!.
  - apply Hbad. vm_compute. discriminate.
  - destruct Hzero as (Hz & _);
      [vm_compute; reflexivity | vm_compute; reflexivity | discriminate
      | vm_compute; reflexivity | reflexivity |].
    now apply Hz.
  - destruct Hset as (_ & Hs);
      [vm_compute; reflexivity | vm_compute; reflexivity | discriminate
      | vm_compute; reflexivity | reflexivity |].
    eexists. split; [apply Hs; discriminate|].
    vm_compute. reflexivity.
Defined.

Lemma emergency_calls_through_factory_witness :
  emergencyGraduateToken factory_address admin_calls token_address
    listed_with_buy = Revert (Error "Graduation failed") /\
  exists ch' : chain,
    emergencyWithdrawFromCurve factory_address admin_calls token_address
      listed_with_buy = Ok ch' /\
    holdings ch' curve_address = 0 /\
    holdings ch' treasury_address
    = holdings listed_with_buy treasury_address
      + holdings listed_with_buy curve_address.
Proof.
  destruct (emergency_calls_through_factory factory_address admin_calls
              token_address curve_address
              (pair_at listed_with_buy curve_address) listed_with_buy)
    as (Hw & Hg).
  - reflexivity.
  - vm_compute. reflexivity.
  - vm_compute. reflexivity.
  - discriminate.
  - vm_compute. reflexivity.
  - reflexivity.
  - reflexivity.
  - vm_compute. discriminate.
  - split.
    + apply Hg. left. vm_compute. reflexivity.
    + destruct Hw as (ch' & Hrun & _ & _ & H0 & Ht); [reflexivity|].
      exists ch'. split_and!; [exact Hrun | exact H0 | exact Ht].
Defined.

Lemma factory_receive_forwards_witness :
  exists ch' : chain,
    TokenFactory.receive factory_address gift opened = Ok ch' /\
    holdings ch' factory_address = holdings opened factory_address /\
    holdings ch' treasury_address
    = holdings opened treasury_address + msg_value gift.
Proof.
  destruct (factory_receive_forwards factory_address gift opened)
    as (ch' & Hrun & _ & _ & _ & Hself & _ & Htr).
  - discriminate.
  - discriminate.
  - discriminate.
  - vm_compute. discriminate.
  - reflexivity.
  - exists ch'. split_and!; [exact Hrun | exact Hself | exact Htr].
Defined.

End FactoryWitnesses.
